(** * AI-Quiz-Gen: a shallow embedding of the quiz pipeline

    The development follows the Python sources [app/utils.py],
    [app/quiz_generator.py] and the application object of [main.py]:
    validation and scoring of a quiz record, generation of a batch, the
    report and the package.

    - Quiz records are the documents [json.loads] builds; they are the
      values of the type [pyval].  Numbers are integers (a floating
      literal is outside the model), strings range over the code points
      below 256, where [str.lower] and [str.strip] are given in full, and
      the keys of an object are strings.  Such strings hold no surrogate,
      so UTF-8 encodes them; what the code does on a text it cannot
      encode is stated on the texts it writes ([encodable]) and on the
      documents the serialiser refuses ([dump_fault]).
    - A Python fault is a value [Raise e] of an error monad; [try] and
      [except Exception] are [try_except].
    - The file system, the standard output, the content service, the
      clock, [json.loads] and [json.dump] are the outside of the program:
      the record [world] holds what a run changes and how the outside
      behaves, and the stateful functions pass it along.
    - [app/chunker.py] hands the text to a splitter of the [langchain]
      library and is not modelled. *)

From Stdlib Require Import ZArith NArith List String Ascii Bool Lia.
From Stdlib Require Import DecimalString PrimFloat Uint63.
Import ListNotations.

Set Warnings "-register-all".

Local Open Scope string_scope.
Local Open Scope list_scope.

Notation "a +++ b" := (String.append a b) (at level 60, right associativity).

(* ===================================================================== *)
(** ** Python values                                                      *)
(* ===================================================================== *)

Module Py.

(** The values [json.loads] can build, floating literals excepted: numbers
    of a document are integers here.  A [str] is a sequence of code points
    below 256 (one [ascii] each); a [dict] is an association list in
    insertion order whose first binding of a key is the live one. *)
Inductive pyval : Type :=
| PNone
| PBool (b : bool)
| PInt (n : Z)
| PStr (s : string)
| PList (l : list pyval)
| PDict (d : list (string * pyval)).

Definition dict := list (string * pyval).

Inductive exn_class : Type :=
| AttributeError | TypeError | KeyError | IndexError | ValueError | OSError
| JSONDecodeError | OtherException (name : string).

(** An exception object: its class and [str(e)]. *)
Record exn : Type := mkExn { exn_cls : exn_class; exn_msg : string }.

Inductive result (A : Type) : Type :=
| Ok (a : A)
| Raise (e : exn).
Arguments Ok {A} a.
Arguments Raise {A} e.

Definition bind {A B} (m : result A) (k : A -> result B) : result B :=
  match m with
  | Ok a => k a
  | Raise e => Raise e
  end.

Definition type_name (v : pyval) : string :=
  match v with
  | PNone => "NoneType"
  | PBool _ => "bool"
  | PInt _ => "int"
  | PStr _ => "str"
  | PList _ => "list"
  | PDict _ => "dict"
  end.

Definition no_attribute {A} (v : pyval) (attr : string) : result A :=
  Raise (mkExn AttributeError
           ("'" +++ type_name v +++ "' object has no attribute '" +++ attr +++ "'")).

(** *** Strings *)

Definition code (c : ascii) : N := N_of_ascii c.

(** [str.lower] on one code point below 256: A-Z, and the upper-case
    letters of the Latin-1 block (U+00C0..U+00DE, the sign U+00D7 apart). *)
Definition is_upper (c : ascii) : bool :=
  let n := code c in
  ((65 <=? n) && (n <=? 90))%N
  || ((192 <=? n) && (n <=? 222) && negb (n =? 215))%N.

Definition lower_char (c : ascii) : ascii :=
  if is_upper c then ascii_of_N (code c + 32) else c.

Fixpoint py_lower (s : string) : string :=
  match s with
  | EmptyString => EmptyString
  | String c r => String (lower_char c) (py_lower r)
  end.

(** The code points below 256 that [str.strip] removes. *)
Definition is_space (c : ascii) : bool :=
  let n := code c in
  ((9 <=? n) && (n <=? 13))%N || ((28 <=? n) && (n <=? 32))%N
  || (n =? 133)%N || (n =? 160)%N.

Fixpoint py_lstrip (s : string) : string :=
  match s with
  | EmptyString => EmptyString
  | String c r => if is_space c then py_lstrip r else s
  end.

Fixpoint py_rstrip (s : string) : string :=
  match s with
  | EmptyString => EmptyString
  | String c r =>
      match py_rstrip r with
      | EmptyString => if is_space c then EmptyString else String c EmptyString
      | r' => String c r'
      end
  end.

Definition py_strip (s : string) : string := py_rstrip (py_lstrip s).

(** [needle in hay] on two strings. *)
Fixpoint is_substring (needle hay : string) : bool :=
  String.prefix needle hay
  || match hay with
     | EmptyString => false
     | String _ r => is_substring needle r
     end.

Definition str_of_Z (z : Z) : string := NilZero.string_of_int (Z.to_int z).
Definition str_of_nat (n : nat) : string := str_of_Z (Z.of_nat n).

(** *** Dictionaries *)

Fixpoint dict_get {A} (k : string) (d : list (string * A)) : option A :=
  match d with
  | [] => None
  | (k', v) :: r => if String.eqb k k' then Some v else dict_get k r
  end.

Definition dict_mem {A} (k : string) (d : list (string * A)) : bool :=
  match dict_get k d with Some _ => true | None => false end.

(** [d[k] = v]: an existing key keeps its place. *)
Fixpoint dict_set {A} (k : string) (v : A) (d : list (string * A))
  : list (string * A) :=
  match d with
  | [] => [(k, v)]
  | (k', v') :: r =>
      if String.eqb k k' then (k', v) :: r else (k', v') :: dict_set k v r
  end.

Definition str_mem (k : string) (l : list string) : bool :=
  existsb (String.eqb k) l.

Fixpoint dict_keys_from {A} (seen : list string) (d : list (string * A))
  : list string :=
  match d with
  | [] => []
  | (k, _) :: r =>
      if str_mem k seen then dict_keys_from seen r
      else k :: dict_keys_from (k :: seen) r
  end.

Definition dict_keys {A} (d : list (string * A)) : list string :=
  dict_keys_from [] d.

(** *** Comparison, truth value, length, membership *)

(** [a == b].  [bool] is a subclass of [int]: [True == 1]. *)
Fixpoint py_eq (a b : pyval) {struct a} : bool :=
  match a, b with
  | PNone, PNone => true
  | PBool x, PBool y => Bool.eqb x y
  | PBool x, PInt n => Z.eqb (Z.b2z x) n
  | PInt n, PBool x => Z.eqb n (Z.b2z x)
  | PInt m, PInt n => Z.eqb m n
  | PStr s, PStr t => String.eqb s t
  | PList l, PList l' =>
      (fix go (l l' : list pyval) : bool :=
         match l, l' with
         | [], [] => true
         | x :: xs, y :: ys => py_eq x y && go xs ys
         | _, _ => false
         end) l l'
  | PDict d, PDict d' =>
      Nat.eqb (List.length (dict_keys d)) (List.length (dict_keys d'))
      && (fix go (seen : list string) (d : list (string * pyval)) : bool :=
            match d with
            | [] => true
            | (k, v) :: r =>
                (if str_mem k seen then true
                 else match dict_get k d' with
                      | Some v' => py_eq v v'
                      | None => false
                      end)
                && go (k :: seen) r
            end) [] d
  | _, _ => false
  end.

(** [bool(v)] *)
Definition truthy (v : pyval) : bool :=
  match v with
  | PNone => false
  | PBool b => b
  | PInt n => negb (Z.eqb n 0)
  | PStr s => negb (String.eqb s EmptyString)
  | PList l => match l with [] => false | _ => true end
  | PDict d => match d with [] => false | _ => true end
  end.

Definition is_dict (v : pyval) : bool :=
  match v with PDict _ => true | _ => false end.

Definition is_list (v : pyval) : bool :=
  match v with PList _ => true | _ => false end.

(** [len(v)] *)
Definition py_len (v : pyval) : result nat :=
  match v with
  | PStr s => Ok (String.length s)
  | PList l => Ok (List.length l)
  | PDict d => Ok (List.length (dict_keys d))
  | _ => Raise (mkExn TypeError
                  ("object of type '" +++ type_name v +++ "' has no len()"))
  end.

(** [key in v] for a string [key] *)
Definition py_contains (key : string) (v : pyval) : result bool :=
  match v with
  | PDict d => Ok (dict_mem key d)
  | PList l => Ok (existsb (py_eq (PStr key)) l)
  | PStr s => Ok (is_substring key s)
  | _ => Raise (mkExn TypeError
                  ("argument of type '" +++ type_name v +++ "' is not iterable"))
  end.

(** [v.get(key, default)]; only a [dict] has the method, and a list or a
    dict cannot be hashed.  The keys of a document are strings, so no other
    key is found. *)
Definition py_get (v : pyval) (key : pyval) (default : pyval) : result pyval :=
  match v with
  | PDict d =>
      match key with
      | PStr k => Ok (match dict_get k d with Some x => x | None => default end)
      | PList _ | PDict _ =>
          Raise (mkExn TypeError ("unhashable type: '" +++ type_name key +++ "'"))
      | _ => Ok default
      end
  | _ => no_attribute v "get"
  end.

(** [v.lower()] *)
Definition py_lower_m (v : pyval) : result string :=
  match v with
  | PStr s => Ok (py_lower s)
  | _ => no_attribute v "lower"
  end.

(** *** [repr] and [str] *)

Definition hex_digit (n : N) : ascii :=
  ascii_of_N (if (n <? 10)%N then 48 + n else 87 + n).

Definition hex_escape (c : ascii) : string :=
  String "\" (String "x" (String (hex_digit (code c / 16))
                            (String (hex_digit (code c mod 16)) EmptyString))).

(** [str.isprintable] on a code point below 256 *)
Definition is_printable (c : ascii) : bool :=
  let n := code c in
  ((32 <=? n) && (n <? 127))%N || ((161 <=? n) && negb (n =? 173))%N.

Definition dquote : ascii := ascii_of_N 34.

Fixpoint has_char (c : ascii) (s : string) : bool :=
  match s with
  | EmptyString => false
  | String c' r => Ascii.eqb c c' || has_char c r
  end.

Definition repr_char (quote : ascii) (c : ascii) : string :=
  if Ascii.eqb c quote || Ascii.eqb c "\" then String "\" (String c EmptyString)
  else if (code c =? 9)%N then "\t"
  else if (code c =? 10)%N then "\n"
  else if (code c =? 13)%N then "\r"
  else if is_printable c then String c EmptyString
  else hex_escape c.

Fixpoint repr_chars (quote : ascii) (s : string) : string :=
  match s with
  | EmptyString => EmptyString
  | String c r => repr_char quote c +++ repr_chars quote r
  end.

Definition repr_str (s : string) : string :=
  let quote : ascii :=
    if has_char "'" s && negb (has_char dquote s) then dquote else "'"%char in
  String quote (repr_chars quote s +++ String quote EmptyString).

Fixpoint join (sep : string) (l : list string) : string :=
  match l with
  | [] => EmptyString
  | [x] => x
  | x :: r => x +++ sep +++ join sep r
  end.

Fixpoint py_repr (v : pyval) : string :=
  match v with
  | PNone => "None"
  | PBool true => "True"
  | PBool false => "False"
  | PInt n => str_of_Z n
  | PStr s => repr_str s
  | PList l => "[" +++ join ", " (List.map py_repr l) +++ "]"
  | PDict d =>
      "{" +++ join ", "
        ((fix go (seen : list string) (d : list (string * pyval)) : list string :=
            match d with
            | [] => []
            | (k, x) :: r =>
                if str_mem k seen then go seen r
                else (repr_str k +++ ": " +++ py_repr x) :: go (k :: seen) r
            end) [] d)
      +++ "}"
  end.

(** [str(v)], what an f-string field [{v}] gives *)
Definition py_str (v : pyval) : string :=
  match v with
  | PStr s => s
  | _ => py_repr v
  end.

End Py.
Export Py.

Notation "x <- m ;; k" := (bind m (fun x => k))
  (at level 61, m at next level, right associativity).

(* ===================================================================== *)
(** ** app/utils.py: validation and scoring                              *)
(* ===================================================================== *)

Module Utils.

Record validation_result : Type := mkValidation {
  is_valid : bool;
  errors : list string;
  warnings : list string
}.

Definition add_error (msg : string) (r : validation_result) : validation_result :=
  {| is_valid := false; errors := errors r ++ [msg]; warnings := warnings r |}.

Definition add_warning (msg : string) (r : validation_result) : validation_result :=
  {| is_valid := is_valid r; errors := errors r; warnings := warnings r ++ [msg] |}.

Definition required_fields : list string := ["topic"; "difficulty"].

Definition question_types : list string :=
  ["mcq"; "true_false"; "matching"; "fill_blank"].

(** [all(key in v for key in keys)]: stops at the first key not found. *)
Fixpoint all_keys_in (keys : list string) (v : pyval) : result bool :=
  match keys with
  | [] => Ok true
  | key :: rest =>
      b <- py_contains key v ;;
      if b then all_keys_in rest v else Ok false
  end.

(** [x in l] on a list literal *)
Definition py_in (x : pyval) (l : list pyval) : bool :=
  existsb (fun e => py_eq e x) l.

Definition check_mcq (quiz_data : dict) (r : validation_result)
  : result validation_result :=
  match dict_get "mcq" quiz_data with
  | None => Ok r
  | Some mcq =>
      complete <- all_keys_in ["question"; "options"; "correct_answer"] mcq ;;
      if negb complete then Ok (add_warning "MCQ missing required fields" r)
      else
        options <- py_get mcq (PStr "options") (PList []) ;;
        n <- py_len options ;;
        if negb (Nat.eqb n 4)
        then Ok (add_warning "MCQ should have exactly 4 options" r)
        else Ok r
  end.

Definition check_true_false (quiz_data : dict) (r : validation_result)
  : result validation_result :=
  match dict_get "true_false" quiz_data with
  | None => Ok r
  | Some tf =>
      complete <- all_keys_in ["question"; "correct_answer"] tf ;;
      if negb complete
      then Ok (add_warning "True/False question missing required fields" r)
      else
        answer <- py_get tf (PStr "correct_answer") PNone ;;
        if negb (py_in answer [PStr "True"; PStr "False"])
        then Ok (add_warning "True/False answer should be 'True' or 'False'" r)
        else Ok r
  end.

Definition validate_quiz_structure (quiz_data : dict) : result validation_result :=
  let r := {| is_valid := true; errors := []; warnings := [] |} in
  let r :=
    fold_left
      (fun r field =>
         if negb (dict_mem field quiz_data)
         then add_error ("Missing required field: " +++ field) r
         else r)
      required_fields r in
  let existing_types := filter (fun qt => dict_mem qt quiz_data) question_types in
  let r :=
    match existing_types with
    | [] => add_error "No question types found" r
    | _ => r
    end in
  r <- check_mcq quiz_data r ;;
  r <- check_true_false quiz_data r ;;
  Ok r.

(** *** Scoring *)

(** [score_percentage] starts as the integer 0 and becomes a float once the
    division is made. *)
Inductive pynum : Type :=
| PyInt (n : Z)
| PyFloat (x : float).

Record detail : Type := mkDetail {
  correct : bool;
  detail_feedback : string;
  explanation : option pyval
}.

Record score_result : Type := mkScore {
  total_questions : Z;
  correct_answers : Z;
  score_percentage : pynum;
  detailed_results : list (string * detail);
  feedback : list string
}.

Definition add_question (s : score_result) : score_result :=
  {| total_questions := total_questions s + 1;
     correct_answers := correct_answers s;
     score_percentage := score_percentage s;
     detailed_results := detailed_results s;
     feedback := feedback s |}.

Definition add_correct (kind : string) (msg : string) (s : score_result)
  : score_result :=
  {| total_questions := total_questions s;
     correct_answers := correct_answers s + 1;
     score_percentage := score_percentage s;
     detailed_results :=
       dict_set kind {| correct := true; detail_feedback := msg;
                        explanation := None |} (detailed_results s);
     feedback := feedback s |}.

Definition add_incorrect (kind : string) (msg : string) (expl : pyval)
  (s : score_result) : score_result :=
  {| total_questions := total_questions s;
     correct_answers := correct_answers s;
     score_percentage := score_percentage s;
     detailed_results :=
       dict_set kind {| correct := false; detail_feedback := msg;
                        explanation := Some expl |} (detailed_results s);
     feedback := feedback s |}.

Definition get_str (key : string) (d : dict) : pyval :=
  match dict_get key d with Some v => v | None => PStr EmptyString end.

(** The MCQ and the True/False blocks differ in their key only. *)
Definition score_choice (kind : string) (answers quiz_data : dict)
  (s : score_result) : result score_result :=
  match dict_get kind quiz_data with
  | None => Ok s
  | Some q =>
      let s := add_question s in
      let user_answer := get_str kind answers in
      correct_answer <- py_get q (PStr "correct_answer") (PStr EmptyString) ;;
      ua <- py_lower_m user_answer ;;
      ca <- py_lower_m correct_answer ;;
      if String.eqb ua ca then Ok (add_correct kind "Correct!" s)
      else
        expl <- py_get q (PStr "explanation") (PStr EmptyString) ;;
        Ok (add_incorrect kind
              ("Incorrect. The correct answer is " +++ py_str correct_answer +++ ".")
              expl s)
  end.

(** [for x in v] *)
Definition py_iter (v : pyval) : result (list pyval) :=
  match v with
  | PList l => Ok l
  | PStr s => Ok (List.map (fun c => PStr (String c EmptyString))
                    (list_ascii_of_string s))
  | PDict d => Ok (List.map PStr (dict_keys d))
  | _ => Raise (mkExn TypeError
                  ("'" +++ type_name v +++ "' object is not iterable"))
  end.

(** The loop over [pairs], [correct_matches] being the counter. *)
Fixpoint count_matches (user_answers : pyval) (pairs : list pyval)
  (correct_matches : Z) : result Z :=
  match pairs with
  | [] => Ok correct_matches
  | pair_ :: rest =>
      term <- py_get pair_ (PStr "term") (PStr EmptyString) ;;
      submitted <- py_get user_answers term PNone ;;
      definition <- py_get pair_ (PStr "definition") (PStr EmptyString) ;;
      count_matches user_answers rest
        (if py_eq submitted definition then correct_matches + 1
         else correct_matches)
  end.

Definition score_matching (answers quiz_data : dict) (s : score_result)
  : result score_result :=
  match dict_get "matching" quiz_data with
  | None => Ok s
  | Some matching =>
      let s := add_question s in
      let user_answers :=
        match dict_get "matching" answers with Some v => v | None => PDict [] end in
      pairs <- py_get matching (PStr "pairs") (PList []) ;;
      total_pairs <- py_len pairs ;;
      items <- py_iter pairs ;;
      correct_matches <- count_matches user_answers items 0 ;;
      if Z.eqb correct_matches (Z.of_nat total_pairs)
      then Ok (add_correct "matching" "Perfect matching!" s)
      else
        expl <- py_get matching (PStr "explanation") (PStr EmptyString) ;;
        Ok (add_incorrect "matching"
              ("Partially correct. You got " +++ str_of_Z correct_matches +++ "/"
               +++ str_of_nat total_pairs +++ " matches right.")
              expl s)
  end.

Definition score_fill_blank (answers quiz_data : dict) (s : score_result)
  : result score_result :=
  match dict_get "fill_blank" quiz_data with
  | None => Ok s
  | Some fill =>
      let s := add_question s in
      let user_answer := get_str "fill_blank" answers in
      correct_answer <- py_get fill (PStr "correct_answer") (PStr EmptyString) ;;
      ua <- py_lower_m user_answer ;;
      ca <- py_lower_m correct_answer ;;
      if String.eqb (py_strip ua) (py_strip ca)
      then Ok (add_correct "fill_blank" "Correct!" s)
      else
        expl <- py_get fill (PStr "explanation") (PStr EmptyString) ;;
        Ok (add_incorrect "fill_blank"
              ("Incorrect. The correct answer is '" +++ py_str correct_answer +++ "'.")
              expl s)
  end.

(** [(correct_answers / total_questions) * 100] in binary64; both counts are
    at most four, so their conversion is exact. *)
Definition float_of_Z (z : Z) : float := PrimFloat.of_uint63 (Uint63.of_Z z).

Definition percentage (s : score_result) : pynum :=
  if (total_questions s >? 0)%Z
  then PyFloat (PrimFloat.mul
                  (PrimFloat.div (float_of_Z (correct_answers s))
                                 (float_of_Z (total_questions s)))
                  100%float)
  else score_percentage s.

(** [p >= bound] with an integer literal [bound] *)
Definition num_ge (p : pynum) (bound : Z) : bool :=
  match p with
  | PyInt n => (bound <=? n)%Z
  | PyFloat x => PrimFloat.leb (float_of_Z bound) x
  end.

Definition overall_feedback (p : pynum) : string :=
  if num_ge p 90
  then "Excellent! You have a strong understanding of this topic."
  else if num_ge p 70
  then "Good job! You understand most of the concepts."
  else if num_ge p 50
  then "Fair performance. Consider reviewing the material."
  else "You may need to review this topic more thoroughly.".

Definition initial_score : score_result :=
  {| total_questions := 0; correct_answers := 0; score_percentage := PyInt 0;
     detailed_results := []; feedback := [] |}.

Definition calculate_quiz_score (answers quiz_data : dict) : result score_result :=
  s <- score_choice "mcq" answers quiz_data initial_score ;;
  s <- score_choice "true_false" answers quiz_data s ;;
  s <- score_matching answers quiz_data s ;;
  s <- score_fill_blank answers quiz_data s ;;
  let p := percentage s in
  Ok {| total_questions := total_questions s;
        correct_answers := correct_answers s;
        score_percentage := p;
        detailed_results := detailed_results s;
        feedback := feedback s ++ [overall_feedback p] |}.

(** The object built by [generate_quiz_summary].  A histogram is keyed by
    whatever hashable value the record holds under [topic]. *)
Record summary : Type := mkSummary {
  total_quizzes : nat;
  topics : list (pyval * Z);
  difficulties : list (pyval * Z);
  summary_question_types : list (string * Z);
  generation_timestamp : string
}.

End Utils.

(* ===================================================================== *)
(** ** The outside: files, standard output, service, clock               *)
(* ===================================================================== *)

Module IO.

(** Text written to a file is a sequence of Unicode code points: [chr] and
    the arrow of the report leave the range of the document strings. *)
Definition text := list N.

(** The code points of a document string: all below 256, so never a
    surrogate. *)
Definition T (s : string) : text := List.map code (list_ascii_of_string s).

Definition nl : string := String (ascii_of_N 10) EmptyString.

(** What [json.dump] was given; the serialiser itself is the library's. *)
Inductive dumped : Type :=
| DumpValue (v : pyval)
| DumpSummary (s : Utils.summary).

(** What a file holds: the texts written to it, the documents dumped into
    it, and what a dump that failed part way has left, some beginning of
    the serialisation of its document. *)
Inductive chunk : Type :=
| Written (t : text)
| JsonDump (doc : dumped)
| TornDump (doc : dumped).

Record datetime : Type := mkDatetime {
  strftime_stamp : string;   (* strftime("%Y%m%d_%H%M%S") *)
  isoformat : string
}.

(** The state a run changes ([files], [dirs], [stdout], the requests sent so
    far and the number of clock reads) and the behaviour of what lies
    outside the program: which paths cannot be opened or created, which
    documents the serialiser cannot write out, what the service answers to
    its n-th request (a reply, or an exception of the class [Exception]),
    what [json.loads] makes of a text, what the clock shows at its n-th
    read. *)
Record world : Type := mkWorld {
  files : list (string * list chunk);
  dirs : list string;
  stdout : list string;
  requests : list (string * string);
  clock_reads : nat;
  open_fault : string -> option exn;
  mkdir_fault : string -> option exn;
  dump_fault : dumped -> option exn;
  service : nat -> string -> string -> result pyval;
  json_loads : string -> result pyval;
  clock : nat -> datetime
}.

Definition io (A : Type) : Type := world -> result A * world.

Definition ret {A} (a : A) : io A := fun w => (Ok a, w).

Definition raise {A} (e : exn) : io A := fun w => (Raise e, w).

Definition iobind {A B} (m : io A) (k : A -> io B) : io B :=
  fun w =>
    match m w with
    | (Ok a, w') => k a w'
    | (Raise e, w') => (Raise e, w')
    end.

Definition lift {A} (r : result A) : io A := fun w => (r, w).

(** [try: m except Exception as e: handler e] *)
Definition try_except {A} (m : io A) (handler : exn -> io A) : io A :=
  fun w =>
    match m w with
    | (Ok a, w') => (Ok a, w')
    | (Raise e, w') => handler e w'
    end.

Definition set_files (fs : list (string * list chunk)) (w : world) : world :=
  {| files := fs; dirs := dirs w; stdout := stdout w; requests := requests w;
     clock_reads := clock_reads w; open_fault := open_fault w;
     mkdir_fault := mkdir_fault w;
     dump_fault := dump_fault w; service := service w;
     json_loads := json_loads w; clock := clock w |}.

Definition file_content (filename : string) (w : world) : list chunk :=
  match dict_get filename (files w) with Some c => c | None => [] end.

(** [open(filename, 'w')]: the file is created or emptied. *)
Definition open_w (filename : string) : io unit :=
  fun w =>
    match open_fault w filename with
    | Some e => (Raise e, w)
    | None => (Ok tt, set_files (dict_set filename [] (files w)) w)
    end.

Definition append_chunk (filename : string) (c : chunk) (w : world) : world :=
  set_files (dict_set filename (file_content filename w ++ [c]) (files w)) w.

Definition is_surrogate (n : N) : bool := ((55296 <=? n) && (n <=? 57343))%N.

(** [f.write(t)] on a file opened with [encoding='utf-8']: a surrogate
    cannot be encoded. *)
Definition f_write (filename : string) (t : text) : io unit :=
  fun w =>
    if existsb is_surrogate t
    then (Raise (mkExn (OtherException "UnicodeEncodeError")
                   "'utf-8' codec can't encode character: surrogates not allowed"),
          w)
    else (Ok tt, append_chunk filename (Written t) w).

(** [json.dump(doc, f, indent=2, ensure_ascii=False)] into a file opened
    with [encoding='utf-8'].  The serialiser is the library's: it raises on
    a document it cannot write out, as on a string with a lone surrogate,
    which UTF-8 refuses and the strings of this development, made of code
    points below 256, cannot hold; [dump_fault] stands for it.  What was
    written before the fault stays in the file. *)
Definition json_dump (doc : dumped) (filename : string) : io unit :=
  fun w =>
    match dump_fault w doc with
    | Some e => (Raise e, append_chunk filename (TornDump doc) w)
    | None => (Ok tt, append_chunk filename (JsonDump doc) w)
    end.

Definition print (line : string) : io unit :=
  fun w =>
    (Ok tt,
     {| files := files w; dirs := dirs w; stdout := stdout w ++ [line];
        requests := requests w; clock_reads := clock_reads w;
        open_fault := open_fault w; mkdir_fault := mkdir_fault w;
     dump_fault := dump_fault w;
        service := service w; json_loads := json_loads w; clock := clock w |}).

(** [os.makedirs(path, exist_ok=True)] *)
Definition makedirs (path : string) : io unit :=
  fun w =>
    match mkdir_fault w path with
    | Some e => (Raise e, w)
    | None =>
        (Ok tt,
         {| files := files w;
            dirs := if str_mem path (dirs w) then dirs w else dirs w ++ [path];
            stdout := stdout w; requests := requests w;
            clock_reads := clock_reads w; open_fault := open_fault w;
            mkdir_fault := mkdir_fault w;
     dump_fault := dump_fault w; service := service w;
            json_loads := json_loads w; clock := clock w |})
    end.

(** [datetime.now()] *)
Definition now : io datetime :=
  fun w =>
    (Ok (clock w (clock_reads w)),
     {| files := files w; dirs := dirs w; stdout := stdout w;
        requests := requests w; clock_reads := S (clock_reads w);
        open_fault := open_fault w; mkdir_fault := mkdir_fault w;
     dump_fault := dump_fault w;
        service := service w; json_loads := json_loads w; clock := clock w |}).

Definition log_request (system_prompt user_prompt : string) (w : world) : world :=
  {| files := files w; dirs := dirs w; stdout := stdout w;
     requests := requests w ++ [(system_prompt, user_prompt)];
     clock_reads := clock_reads w; open_fault := open_fault w;
     mkdir_fault := mkdir_fault w;
     dump_fault := dump_fault w; service := service w;
     json_loads := json_loads w; clock := clock w |}.

(** One request to the content service: it answers or raises. *)
Definition call_service (system_prompt user_prompt : string) : io pyval :=
  fun w =>
    (service w (List.length (requests w)) system_prompt user_prompt,
     log_request system_prompt user_prompt w).

(** [json.loads(v)] *)
Definition loads (v : pyval) : io pyval :=
  fun w =>
    match v with
    | PStr s => (json_loads w s, w)
    | _ =>
        (Raise (mkExn TypeError
                  ("the JSON object must be str, bytes or bytearray, not "
                   +++ type_name v)), w)
    end.

(** [chr(n)] *)
Definition py_chr (n : N) : result text :=
  if (n <? 1114112)%N then Ok [n]
  else Raise (mkExn ValueError "chr() arg not in range(0x110000)").

(** [os.path.join(a, b)] on a POSIX system *)
Definition path_join (a b : string) : string :=
  if String.prefix "/" b then b
  else if String.eqb a EmptyString then b
  else if String.eqb (substring (String.length a - 1) 1 a) "/" then a +++ b
  else a +++ "/" +++ b.

End IO.
Export IO.

Notation "x <~ m ;; k" := (iobind m (fun x => k))
  (at level 61, m at next level, right associativity).

(* ===================================================================== *)
(** ** app/quiz_generator.py                                             *)
(* ===================================================================== *)

Module QuizGenerator.

Definition q (s : string) : string :=
  String dquote (s +++ String dquote EmptyString).

Definition system_prompt : string :=
  join nl
    ["You are an expert quiz creator and educator. "
     +++ "Based on the provided text, generate a comprehensive quiz with "
     +++ "the following question types:";
     EmptyString;
     "1. Multiple Choice Question (MCQ) with 4 options";
     "2. True/False question";
     "3. Matching question (if applicable)";
     "4. Fill-in-the-blank question (if applicable)";
     EmptyString;
     "Ensure all questions are relevant to the provided content and "
     +++ "appropriate for the specified difficulty level.";
     "Respond in valid JSON format with the following structure:";
     "{";
     "  " +++ q "topic" +++ ": " +++ q "specific topic from the content" +++ ",";
     "  " +++ q "difficulty" +++ ": " +++ q "Beginner/Intermediate/Expert" +++ ",";
     "  " +++ q "mcq" +++ ": {";
     "    " +++ q "question" +++ ": " +++ q "question text" +++ ",";
     "    " +++ q "options" +++ ": [" +++ q "option a" +++ ", " +++ q "option b"
     +++ ", " +++ q "option c" +++ ", " +++ q "option d" +++ "],";
     "    " +++ q "correct_answer" +++ ": " +++ q "option letter (a/b/c/d)" +++ ",";
     "    " +++ q "explanation" +++ ": "
     +++ q "brief explanation of the correct answer";
     "  },";
     "  " +++ q "true_false" +++ ": {";
     "    " +++ q "question" +++ ": " +++ q "question text" +++ ",";
     "    " +++ q "correct_answer" +++ ": " +++ q "True/False" +++ ",";
     "    " +++ q "explanation" +++ ": " +++ q "brief explanation";
     "  },";
     "  " +++ q "matching" +++ ": {";
     "    " +++ q "question" +++ ": " +++ q "matching instruction" +++ ",";
     "    " +++ q "pairs" +++ ": [{" +++ q "term" +++ ": " +++ q "term1" +++ ", "
     +++ q "definition" +++ ": " +++ q "definition1" +++ "}, ...],";
     "    " +++ q "explanation" +++ ": " +++ q "brief explanation";
     "  },";
     "  " +++ q "fill_blank" +++ ": {";
     "    " +++ q "question" +++ ": " +++ q "question with ___ for blank" +++ ",";
     "    " +++ q "correct_answer" +++ ": " +++ q "correct answer" +++ ",";
     "    " +++ q "explanation" +++ ": " +++ q "brief explanation";
     "  }";
     "}"].

Definition user_prompt (chunk : string) (topic difficulty : pyval) : string :=
  "Text Chunk:" +++ nl +++ chunk +++ nl +++ nl
  +++ "Topic: " +++ py_str topic +++ nl
  +++ "Difficulty: " +++ py_str difficulty +++ nl +++ nl
  +++ "Generate a comprehensive quiz based on this content. "
  +++ "Focus on practical knowledge that would be useful for learners.".

Definition not_subscriptable {A} (v : pyval) : result A :=
  Raise (mkExn TypeError ("'" +++ type_name v +++ "' object is not subscriptable")).

(** [v[key]] for a string [key] *)
Definition getitem_str (v : pyval) (key : string) : result pyval :=
  match v with
  | PDict d =>
      match dict_get key d with
      | Some x => Ok x
      | None => Raise (mkExn KeyError (repr_str key))
      end
  | PList _ =>
      Raise (mkExn TypeError "list indices must be integers or slices, not str")
  | PStr _ => Raise (mkExn TypeError "string indices must be integers, not 'str'")
  | _ => not_subscriptable v
  end.

(** [v[0]] *)
Definition getitem_0 (v : pyval) : result pyval :=
  match v with
  | PList l =>
      match l with
      | x :: _ => Ok x
      | [] => Raise (mkExn IndexError "list index out of range")
      end
  | PStr s =>
      match s with
      | String c _ => Ok (PStr (String c EmptyString))
      | EmptyString => Raise (mkExn IndexError "string index out of range")
      end
  | PDict _ => Raise (mkExn KeyError "0")
  | _ => not_subscriptable v
  end.

Definition is_json_decode_error (e : exn) : bool :=
  match exn_cls e with JSONDecodeError => true | _ => false end.

(** [response["choices"][0]["message"]["content"]] *)
Definition content_of (response : pyval) : result pyval :=
  choices <- getitem_str response "choices" ;;
  choice <- getitem_0 choices ;;
  message <- getitem_str choice "message" ;;
  getitem_str message "content".

Definition generate_quiz_questions (chunk : string) (topic difficulty : pyval)
  : io pyval :=
  try_except
    (response <~ call_service system_prompt (user_prompt chunk topic difficulty) ;;
     quiz_content <~ lift (content_of response) ;;
     try_except
       (quiz_data <~ loads quiz_content ;; ret quiz_data)
       (fun e =>
          if is_json_decode_error e
          then ret (PDict [("raw_content", quiz_content);
                           ("error", PStr "Failed to parse JSON")])
          else raise e))
    (fun e => ret (PDict [("error", PStr ("Failed to generate quiz: " +++ exn_msg e))])).

(** [chunk[:200] + "..." if len(chunk) > 200 else chunk] *)
Definition chunk_preview (chunk : string) : string :=
  if Nat.ltb 200 (String.length chunk) then substring 0 200 chunk +++ "..."
  else chunk.

(** [seq[i] if i < len(seq) else default] *)
Definition at_or (i : nat) (seq : list pyval) (default : pyval) : pyval :=
  if Nat.ltb i (List.length seq) then nth i seq PNone else default.

(** The record appended when the generation of a chunk failed. *)
Definition failed_quiz (i : nat) (chunk : string) (topic difficulty : pyval)
  : pyval :=
  PDict [("chunk_index", PInt (Z.of_nat i));
         ("chunk_preview", PStr (chunk_preview chunk));
         ("topic", topic);
         ("difficulty", difficulty);
         ("error", PStr "Quiz generation failed for this chunk")].

(** What one turn of the loop appends to [quizzes]: the generated record
    with its index and preview when
    [quiz and isinstance(quiz, dict) and 'error' not in quiz], the
    placeholder otherwise. *)
Definition batch_entry (i : nat) (chunk : string) (topic difficulty quiz : pyval)
  : pyval :=
  match quiz with
  | PDict d =>
      if truthy quiz && negb (dict_mem "error" d)
      then PDict (dict_set "chunk_preview" (PStr (chunk_preview chunk))
                    (dict_set "chunk_index" (PInt (Z.of_nat i)) d))
      else failed_quiz i chunk topic difficulty
  | _ => failed_quiz i chunk topic difficulty
  end.

(** The loop of [generate_quiz_batch]; [i] is the index [enumerate] gives. *)
Fixpoint batch_loop (i : nat) (chunks : list string) (topics difficulties : list pyval)
  (quizzes : list pyval) : io (list pyval) :=
  match chunks with
  | [] => ret quizzes
  | chunk :: rest =>
      let topic := at_or i topics (PStr "General") in
      let difficulty := at_or i difficulties (PStr "Intermediate") in
      quiz <~ generate_quiz_questions chunk topic difficulty ;;
      batch_loop (S i) rest topics difficulties
        (quizzes ++ [batch_entry i chunk topic difficulty quiz])
  end.

Definition generate_quiz_batch (chunks : list string)
  (topics difficulties : option (list pyval)) : io (list pyval) :=
  let topics :=
    match topics with
    | None => repeat (PStr "General") (List.length chunks)
    | Some l => l
    end in
  let difficulties :=
    match difficulties with
    | None => repeat (PStr "Intermediate") (List.length chunks)
    | Some l => l
    end in
  batch_loop 0 chunks topics difficulties [].

Definition export_quiz_to_json (quiz_data : pyval) (filename : string) : io bool :=
  try_except
    (_ <~ open_w filename ;;
     _ <~ json_dump (DumpValue quiz_data) filename ;;
     ret true)
    (fun e =>
       _ <~ print ("Error exporting quiz: " +++ exn_msg e) ;;
       ret false).

(** The value of [{d.get(key, 'N/A')}] in an f-string *)
Definition field (key : string) (d : dict) : string :=
  py_str (match dict_get key d with Some v => v | None => PStr "N/A" end).

(** [key in quiz and isinstance(quiz[key], dict)] *)
Definition variant (key : string) (quiz : dict) : option dict :=
  match dict_get key quiz with
  | Some (PDict d) => Some d
  | _ => None
  end.

Definition arrow : text := [32; 8594; 32]%N.

(** The lettered options, [j] being the index [enumerate] gives. *)
Fixpoint write_options (filename : string) (j : nat) (options : list pyval)
  : io unit :=
  match options with
  | [] => ret tt
  | option :: rest =>
      letter <~ lift (py_chr (97 + N.of_nat j)) ;;
      _ <~ f_write filename (letter ++ T (") " +++ py_str option +++ nl)) ;;
      write_options filename (S j) rest
  end.

Fixpoint write_pairs (filename : string) (pairs : list pyval) : io unit :=
  match pairs with
  | [] => ret tt
  | PDict p :: rest =>
      _ <~ f_write filename
             (T ("- " +++ field "term" p) ++ arrow
              ++ T (field "definition" p +++ nl)) ;;
      write_pairs filename rest
  | _ :: rest => write_pairs filename rest
  end.

Definition write_mcq (filename : string) (quiz : dict) : io unit :=
  match variant "mcq" quiz with
  | None => ret tt
  | Some mcq =>
      _ <~ f_write filename (T ("### 1. Multiple Choice Question" +++ nl)) ;;
      _ <~ f_write filename (T (field "question" mcq +++ nl +++ nl)) ;;
      _ <~ match dict_get "options" mcq with
           | Some (PList options) => write_options filename 0 options
           | _ => ret tt
           end ;;
      _ <~ f_write filename
             (T (nl +++ "**Correct Answer:** " +++ field "correct_answer" mcq +++ nl)) ;;
      f_write filename (T ("**Explanation:** " +++ field "explanation" mcq +++ nl +++ nl))
  end.

Definition write_true_false (filename : string) (quiz : dict) : io unit :=
  match variant "true_false" quiz with
  | None => ret tt
  | Some tf =>
      _ <~ f_write filename (T ("### 2. True/False Question" +++ nl)) ;;
      _ <~ f_write filename (T (field "question" tf +++ nl +++ nl)) ;;
      _ <~ f_write filename
             (T ("**Correct Answer:** " +++ field "correct_answer" tf +++ nl)) ;;
      f_write filename (T ("**Explanation:** " +++ field "explanation" tf +++ nl +++ nl))
  end.

Definition write_matching (filename : string) (quiz : dict) : io unit :=
  match variant "matching" quiz with
  | None => ret tt
  | Some matching =>
      _ <~ f_write filename (T ("### 3. Matching Question" +++ nl)) ;;
      _ <~ f_write filename (T (field "question" matching +++ nl +++ nl)) ;;
      _ <~ match dict_get "pairs" matching with
           | Some (PList pairs) => write_pairs filename pairs
           | _ => ret tt
           end ;;
      f_write filename
        (T (nl +++ "**Explanation:** " +++ field "explanation" matching +++ nl +++ nl))
  end.

Definition write_fill_blank (filename : string) (quiz : dict) : io unit :=
  match variant "fill_blank" quiz with
  | None => ret tt
  | Some fill =>
      _ <~ f_write filename (T ("### 4. Fill in the Blank" +++ nl)) ;;
      _ <~ f_write filename (T (field "question" fill +++ nl +++ nl)) ;;
      _ <~ f_write filename
             (T ("**Correct Answer:** " +++ field "correct_answer" fill +++ nl)) ;;
      f_write filename (T ("**Explanation:** " +++ field "explanation" fill +++ nl +++ nl))
  end.

Definition rule : text := T ("---" +++ nl +++ nl).

(** One turn of the loop over the batch: the section of [quiz], number
    [i + 1]. *)
Definition write_quiz (filename : string) (i : nat) (quiz : pyval) : io unit :=
  match quiz with
  | PDict ((_ :: _) as d) =>
      _ <~ f_write filename (T ("## Quiz " +++ str_of_nat (i + 1) +++ nl +++ nl)) ;;
      _ <~ f_write filename (T ("**Topic:** " +++ field "topic" d +++ nl)) ;;
      _ <~ f_write filename (T ("**Difficulty:** " +++ field "difficulty" d +++ nl +++ nl)) ;;
      _ <~ write_mcq filename d ;;
      _ <~ write_true_false filename d ;;
      _ <~ write_matching filename d ;;
      _ <~ write_fill_blank filename d ;;
      f_write filename rule
  | _ =>
      _ <~ f_write filename
             (T ("## Quiz " +++ str_of_nat (i + 1) +++ " - Invalid Quiz" +++ nl +++ nl)) ;;
      _ <~ f_write filename
             (T ("**Error:** This quiz could not be generated properly." +++ nl +++ nl)) ;;
      f_write filename rule
  end.

Fixpoint write_quizzes (filename : string) (i : nat) (quiz_data : list pyval)
  : io unit :=
  match quiz_data with
  | [] => ret tt
  | quiz :: rest =>
      _ <~ write_quiz filename i quiz ;;
      write_quizzes filename (S i) rest
  end.

Definition export_quiz_to_markdown (quiz_data : list pyval) (filename : string)
  : io bool :=
  try_except
    (_ <~ open_w filename ;;
     _ <~ f_write filename (T ("# Generated Quiz" +++ nl +++ nl)) ;;
     _ <~ write_quizzes filename 0 quiz_data ;;
     ret true)
    (fun e =>
       _ <~ print ("Error exporting to markdown: " +++ exn_msg e) ;;
       ret false).

End QuizGenerator.

(* ===================================================================== *)
(** ** app/utils.py: summary and package                                 *)
(* ===================================================================== *)

Module Package.

Import Utils QuizGenerator.

Definition hashable (v : pyval) : bool :=
  match v with
  | PList _ | PDict _ => false
  | _ => true
  end.

Fixpoint hist_bump (k : pyval) (h : list (pyval * Z)) : list (pyval * Z) :=
  match h with
  | [] => [(k, 1%Z)]
  | (k', n) :: r =>
      if py_eq k' k then (k', (n + 1)%Z) :: r else (k', n) :: hist_bump k r
  end.

(** [h[k] = h.get(k, 0) + 1] *)
Definition hist_incr (k : pyval) (h : list (pyval * Z)) : result (list (pyval * Z)) :=
  if hashable k then Ok (hist_bump k h)
  else Raise (mkExn TypeError ("unhashable type: '" +++ type_name k +++ "'")).

Definition count_incr (k : string) (h : list (string * Z)) : list (string * Z) :=
  dict_set k (match dict_get k h with Some n => n | None => 0%Z end + 1)%Z h.

(** One turn of the loop over the batch. *)
Definition summary_step (s : summary) (quiz : pyval) : result summary :=
  topic <- py_get quiz (PStr "topic") (PStr "Unknown") ;;
  topics' <- hist_incr topic (topics s) ;;
  difficulty <- py_get quiz (PStr "difficulty") (PStr "Unknown") ;;
  difficulties' <- hist_incr difficulty (difficulties s) ;;
  let types' :=
    match quiz with
    | PDict d =>
        fold_left
          (fun h q_type => if dict_mem q_type d then count_incr q_type h else h)
          question_types (summary_question_types s)
    | _ => summary_question_types s
    end in
  Ok {| total_quizzes := total_quizzes s;
        topics := topics';
        difficulties := difficulties';
        summary_question_types := types';
        generation_timestamp := generation_timestamp s |}.

Fixpoint summary_loop (s : summary) (quizzes : list pyval) : result summary :=
  match quizzes with
  | [] => Ok s
  | quiz :: rest =>
      s' <- summary_step s quiz ;;
      summary_loop s' rest
  end.

Definition generate_quiz_summary (quizzes : list pyval) : io summary :=
  stamp <~ now ;;
  lift (summary_loop
          {| total_quizzes := List.length quizzes;
             topics := [];
             difficulties := [];
             summary_question_types := [];
             generation_timestamp := isoformat stamp |}
          quizzes).

Definition create_quiz_package (quizzes : list pyval) (output_dir : string)
  : io string :=
  _ <~ makedirs output_dir ;;
  stamp <~ now ;;
  let timestamp := strftime_stamp stamp in
  let json_filename :=
    path_join output_dir ("generated_quiz_" +++ timestamp +++ ".json") in
  _ <~ export_quiz_to_json (PList quizzes) json_filename ;;
  let md_filename :=
    path_join output_dir ("generated_quiz_" +++ timestamp +++ ".md") in
  _ <~ export_quiz_to_markdown quizzes md_filename ;;
  summary <~ generate_quiz_summary quizzes ;;
  let summary_filename :=
    path_join output_dir ("quiz_summary_" +++ timestamp +++ ".json") in
  _ <~ open_w summary_filename ;;
  _ <~ json_dump (DumpSummary summary) summary_filename ;;
  ret output_dir.

End Package.

(* ===================================================================== *)
(** ** What the specification calls case-insensitive                     *)
(* ===================================================================== *)

Module CaseSpec.





End CaseSpec.
Import CaseSpec.

Module ScoreSpec.

Import Utils.

(** The submission [user_answers] proposes, for the term of [pair], the very
    definition [pair] stores. *)
Definition pair_matches (user_answers pair : pyval) : Prop :=
  exists term submitted definition,
    py_get pair (PStr "term") (PStr EmptyString) = Ok term
    /\ py_get user_answers term PNone = Ok submitted
    /\ py_get pair (PStr "definition") (PStr EmptyString) = Ok definition
    /\ py_eq submitted definition = true.

Definition pair_matchb (user_answers pair : pyval) : bool :=
  match py_get pair (PStr "term") (PStr EmptyString) with
  | Ok term =>
      match py_get user_answers term PNone,
            py_get pair (PStr "definition") (PStr EmptyString) with
      | Ok submitted, Ok definition => py_eq submitted definition
      | _, _ => false
      end
  | Raise _ => false
  end.

(** [answers.get("matching", {})] *)
Definition submitted_matching (answers : dict) : pyval :=
  match dict_get "matching" answers with Some v => v | None => PDict [] end.

(** The number of pairs the submission gets right. *)
Definition matched (user_answers : pyval) (pairs : list pyval) : nat :=
  List.length (filter (pair_matchb user_answers) pairs).

(** What a variant kind adds to [correct_answers] and to [total_questions],
    read off [detailed_results]. *)
Definition credited (r : score_result) (kind : string) : Z :=
  match dict_get kind (detailed_results r) with
  | Some d => if correct d then 1 else 0
  | None => 0
  end.

Definition counted (r : score_result) (kind : string) : Z :=
  match dict_get kind (detailed_results r) with
  | Some _ => 1
  | None => 0
  end.

Definition sumZ (l : list Z) : Z := fold_right Z.add 0%Z l.

(** One block of the scorer, seen from outside: the variant [kind] is
    settled with verdict [ok] and feedback [fb]. *)
Definition settles (kind : string) (ok : bool) (fb : string)
  (s s' : score_result) : Prop :=
  total_questions s' = (total_questions s + 1)%Z
  /\ correct_answers s' = (correct_answers s + (if ok then 1 else 0))%Z
  /\ score_percentage s' = score_percentage s
  /\ feedback s' = feedback s
  /\ exists d,
      detailed_results s' = dict_set kind d (detailed_results s)
      /\ correct d = ok /\ detail_feedback d = fb.

Definition step (kind : string) (s s' : score_result) : Prop :=
  s' = s \/ exists ok fb, settles kind ok fb s s'.

(** The state after the blocks of the kinds [done]. *)
Definition accounted (done : list string) (s : score_result) : Prop :=
  correct_answers s = sumZ (List.map (credited s) done)
  /\ total_questions s = sumZ (List.map (counted s) done)
  /\ forall k, ~ In k done -> dict_get k (detailed_results s) = None.

(** The shapes the data model gives to records and submissions. *)
Definition str_or_absent (key : string) (d : dict) : Prop :=
  match dict_get key d with
  | Some v => exists s, v = PStr s
  | None => True
  end.

(** A variant answered by one string: an object whose [correct_answer] is a
    string, submitted as a string. *)
Definition choice_typed (kind : string) (answers quiz_data : dict) : Prop :=
  match dict_get kind quiz_data with
  | Some q =>
      exists d, q = PDict d /\ str_or_absent "correct_answer" d
                /\ str_or_absent kind answers
  | None => True
  end.

Definition pair_typed (p : pyval) : Prop :=
  exists d, p = PDict d /\ str_or_absent "term" d.

(** A matching variant: an object whose [pairs] is a list of objects with
    string terms, submitted as an object. *)
Definition matching_typed (answers quiz_data : dict) : Prop :=
  match dict_get "matching" quiz_data with
  | Some m =>
      exists d,
        m = PDict d
        /\ match dict_get "pairs" d with
           | Some ps => exists l, ps = PList l /\ Forall pair_typed l
           | None => True
           end
        /\ match dict_get "matching" answers with
           | Some ua => is_dict ua = true
           | None => True
           end
  | None => True
  end.

Definition scorable (answers quiz_data : dict) : Prop :=
  choice_typed "mcq" answers quiz_data
  /\ choice_typed "true_false" answers quiz_data
  /\ matching_typed answers quiz_data
  /\ choice_typed "fill_blank" answers quiz_data.

End ScoreSpec.
Import ScoreSpec.

Module ValidationSpec.

Import Utils.


(** [len] is defined on [v]. *)
Definition sized (v : pyval) : bool :=
  match v with
  | PStr _ | PList _ | PDict _ => true
  | _ => false
  end.

(** The MCQ and True/False entries, when present, are objects, and the
    [options] of the MCQ, when present, has a length. *)
Definition variants_are_objects (quiz_data : dict) : Prop :=
  (forall v, dict_get "mcq" quiz_data = Some v ->
             exists d, v = PDict d
                       /\ forall o, dict_get "options" d = Some o -> sized o = true)
  /\ (forall v, dict_get "true_false" quiz_data = Some v -> is_dict v = true).


End ValidationSpec.
Import ValidationSpec.

Module BatchSpec.

Import QuizGenerator.

(** The topic or difficulty of the chunk of index [i]: the entry of the
    sequence, or the default when the sequence is absent or too short. *)
Definition entry_or (default : pyval) (seq : option (list pyval)) (i : nat)
  : pyval :=
  match seq with
  | Some l => nth i l default
  | None => default
  end.

(** The request made for the chunk of index [i]. *)
Definition request_for (topics difficulties : option (list pyval))
  (i : nat) (chunk : string) : string * string :=
  (system_prompt,
   user_prompt chunk (entry_or (PStr "General") topics i)
     (entry_or (PStr "Intermediate") difficulties i)).

(** [enumerate(l)], counting from [i] *)
Fixpoint enumerate_from {A} (i : nat) (l : list A) : list (nat * A) :=
  match l with
  | [] => []
  | x :: r => (i, x) :: enumerate_from (S i) r
  end.

(** A record that stands for a failure. *)
Definition error_tagged (quiz : pyval) : Prop :=
  exists d, quiz = PDict d /\ dict_mem "error" d = true.

End BatchSpec.
Import BatchSpec.

Module ReportSpec.

Import QuizGenerator.

(** The report as the specification describes it: a title, then one
    numbered section per entry of the batch, in order. *)

Definition title : text := T ("# Generated Quiz" +++ nl +++ nl).

Definition heading (i : nat) : text :=
  T ("## Quiz " +++ str_of_nat (i + 1) +++ nl +++ nl).

Definition invalid_heading (i : nat) : text :=
  T ("## Quiz " +++ str_of_nat (i + 1) +++ " - Invalid Quiz" +++ nl +++ nl).

(** The options of an MCQ, lettered from the letter of rank [j]. *)
Fixpoint option_lines (j : nat) (options : list pyval) : list text :=
  match options with
  | [] => []
  | option :: rest =>
      ([97 + N.of_nat j]%N ++ T (") " +++ py_str option +++ nl))
      :: option_lines (S j) rest
  end.

(** The pairs of a matching question, [term -> definition]. *)
Fixpoint pair_lines (pairs : list pyval) : list text :=
  match pairs with
  | [] => []
  | PDict p :: rest =>
      (T ("- " +++ field "term" p) ++ arrow ++ T (field "definition" p +++ nl))
      :: pair_lines rest
  | _ :: rest => pair_lines rest
  end.

Definition mcq_part (quiz : dict) : list text :=
  match variant "mcq" quiz with
  | None => []
  | Some mcq =>
      [T ("### 1. Multiple Choice Question" +++ nl);
       T (field "question" mcq +++ nl +++ nl)]
      ++ match dict_get "options" mcq with
         | Some (PList options) => option_lines 0 options
         | _ => []
         end
      ++ [T (nl +++ "**Correct Answer:** " +++ field "correct_answer" mcq +++ nl);
          T ("**Explanation:** " +++ field "explanation" mcq +++ nl +++ nl)]
  end.

Definition true_false_part (quiz : dict) : list text :=
  match variant "true_false" quiz with
  | None => []
  | Some tf =>
      [T ("### 2. True/False Question" +++ nl);
       T (field "question" tf +++ nl +++ nl);
       T ("**Correct Answer:** " +++ field "correct_answer" tf +++ nl);
       T ("**Explanation:** " +++ field "explanation" tf +++ nl +++ nl)]
  end.

Definition matching_part (quiz : dict) : list text :=
  match variant "matching" quiz with
  | None => []
  | Some matching =>
      [T ("### 3. Matching Question" +++ nl);
       T (field "question" matching +++ nl +++ nl)]
      ++ match dict_get "pairs" matching with
         | Some (PList pairs) => pair_lines pairs
         | _ => []
         end
      ++ [T (nl +++ "**Explanation:** " +++ field "explanation" matching
             +++ nl +++ nl)]
  end.

Definition fill_blank_part (quiz : dict) : list text :=
  match variant "fill_blank" quiz with
  | None => []
  | Some fill =>
      [T ("### 4. Fill in the Blank" +++ nl);
       T (field "question" fill +++ nl +++ nl);
       T ("**Correct Answer:** " +++ field "correct_answer" fill +++ nl);
       T ("**Explanation:** " +++ field "explanation" fill +++ nl +++ nl)]
  end.

Definition placeholder_section (i : nat) : list text :=
  [invalid_heading i;
   T ("**Error:** This quiz could not be generated properly." +++ nl +++ nl);
   rule].

Definition quiz_section (i : nat) (quiz : dict) : list text :=
  [heading i;
   T ("**Topic:** " +++ field "topic" quiz +++ nl);
   T ("**Difficulty:** " +++ field "difficulty" quiz +++ nl +++ nl)]
  ++ mcq_part quiz ++ true_false_part quiz ++ matching_part quiz
  ++ fill_blank_part quiz ++ [rule].

(** The section of the entry of index [i]: a placeholder unless the entry
    is an object with at least one key. *)
Definition report_section (i : nat) (quiz : pyval) : list text :=
  match quiz with
  | PDict ((_ :: _) as d) => quiz_section i d
  | _ => placeholder_section i
  end.

Fixpoint report_sections (i : nat) (quiz_data : list pyval) : list (list text) :=
  match quiz_data with
  | [] => []
  | quiz :: rest => report_section i quiz :: report_sections (S i) rest
  end.

Definition report (quiz_data : list pyval) : list text :=
  title :: List.concat (report_sections 0 quiz_data).



(** A computation that leaves alone the paths that cannot be opened. *)
Definition keeps_faults {A} (m : io A) : Prop :=
  forall w, open_fault (snd (m w)) = open_fault w.

(** The texts appended, in order, to the file [filename]. *)
Definition appends (filename : string) (ts : list text) (w : world) : world :=
  fold_left (fun w t => append_chunk filename (Written t) w) ts w.

End ReportSpec.
Import ReportSpec.

(** The worked examples of the specification. *)
Module Examples.

Definition pair_of (term definition : string) : pyval :=
  PDict [("term", PStr term); ("definition", PStr definition)].

(** pairs A -> 1 and B -> 2 *)
Definition matching_AB : pyval :=
  PDict [("question", PStr "Match each term");
         ("pairs", PList [pair_of "A" "1"; pair_of "B" "2"]);
         ("explanation", PStr "A is 1 and B is 2")].

Definition quiz_matching_AB : dict := [("matching", matching_AB)].

(** the submission A -> 1, B -> wrong *)
Definition answers_half_right : dict :=
  [("matching", PDict [("A", PStr "1"); ("B", PStr "wrong")])].

(** a record whose only variant is an MCQ with the answer b *)
Definition quiz_mcq_b : dict :=
  [("topic", PStr "GMP"); ("difficulty", PStr "Beginner");
   ("mcq", PDict [("question", PStr "Which one?");
                  ("options", PList [PStr "w"; PStr "x"; PStr "y"; PStr "z"]);
                  ("correct_answer", PStr "b");
                  ("explanation", PStr "because")])].

Definition answers_B : dict := [("mcq", PStr "B")].

Definition mcq_three_options : pyval :=
  PDict [("question", PStr "Which one?");
         ("options", PList [PStr "x"; PStr "y"; PStr "z"]);
         ("correct_answer", PStr "a")].

(** topic, difficulty and an MCQ with three options *)
Definition quiz_three_options : dict :=
  [("topic", PStr "GMP"); ("difficulty", PStr "Expert");
   ("mcq", mcq_three_options)].





(** A world in which every path can be written; the service and the
    parser are given. *)
Definition world_of (svc : nat -> string -> string -> result pyval)
  (loads : string -> result pyval) : world :=
  {| files := []; dirs := []; stdout := []; requests := []; clock_reads := 0;
     open_fault := fun _ => None; mkdir_fault := fun _ => None;
     dump_fault := fun _ => None;
     service := svc; json_loads := loads;
     clock := fun _ => {| strftime_stamp := "20240101_120000";
                          isoformat := "2024-01-01T12:00:00" |} |}.

Definition reply (content : string) : pyval :=
  PDict [("choices", PList [PDict [("message", PDict [("content", PStr content)])]])].

(** a service that replies with prose, and the parser that rejects it *)
Definition prose_service : nat -> string -> string -> result pyval :=
  fun _ _ _ => Ok (reply "Sorry, I cannot help with that.").

Definition rejecting_parser : string -> result pyval :=
  fun _ => Raise (mkExn JSONDecodeError "Expecting value: line 1 column 1 (char 0)").

(** a service that answers its first request and is down afterwards, and a
    parser that knows this one answer *)
Definition flaky_service : nat -> string -> string -> result pyval :=
  fun n _ _ =>
    match n with
    | 0 => Ok (reply "{mcq}")
    | _ => Raise (mkExn (OtherException "APIConnectionError") "connection reset")
    end.

Definition tiny_parser : string -> result pyval :=
  fun s =>
    if String.eqb s "{mcq}"
    then Ok (PDict [("topic", PStr "Audit");
                    ("mcq", PDict [("question", PStr "Which one?")])])
    else Raise (mkExn JSONDecodeError "Expecting value: line 1 column 1 (char 0)").

(** a batch of one well-formed record and one entry that is no object *)
Definition mixed_batch : list pyval := [PDict quiz_mcq_b; PStr "oops"].

(** the summary file of the package cannot be opened, every other file can *)
Definition summary_path : string :=
  "quiz_exports/quiz_summary_20240101_120000.json".

Definition denied (path : string) : exn :=
  mkExn OSError ("[Errno 13] Permission denied: '" +++ path +++ "'").

Definition world_summary_denied : world :=
  {| files := []; dirs := []; stdout := []; requests := []; clock_reads := 0;
     open_fault := fun path =>
                     if String.eqb path summary_path then Some (denied path)
                     else None;
     mkdir_fault := fun _ => None;
     dump_fault := fun _ => None;
     service := prose_service; json_loads := rejecting_parser;
     clock := fun _ => {| strftime_stamp := "20240101_120000";
                          isoformat := "2024-01-01T12:00:00" |} |}.

(** the two exports cannot be opened, the summary file can *)
Definition world_exports_denied : world :=
  {| files := []; dirs := []; stdout := []; requests := []; clock_reads := 0;
     open_fault := fun path =>
                     if String.eqb path summary_path then None
                     else Some (denied path);
     mkdir_fault := fun _ => None;
     dump_fault := fun _ => None;
     service := prose_service; json_loads := rejecting_parser;
     clock := fun _ => {| strftime_stamp := "20240101_120000";
                          isoformat := "2024-01-01T12:00:00" |} |}.

End Examples.

(* ===================================================================== *)
(** ** Further notions: what the scorer's results look like              *)
(* ===================================================================== *)

Module ScoreTable.

Import Utils.

(** The feedback line by exact arithmetic on the two counts: the
    thresholds 90, 70 and 50 per cent of [t]. *)
Definition exact_line (c t : Z) : string :=
  if (t =? 0)%Z then "You may need to review this topic more thoroughly."
  else if (90 * t <=? 100 * c)%Z
  then "Excellent! You have a strong understanding of this topic."
  else if (70 * t <=? 100 * c)%Z
  then "Good job! You understand most of the concepts."
  else if (50 * t <=? 100 * c)%Z
  then "Fair performance. Consider reviewing the material."
  else "You may need to review this topic more thoroughly.".

(** The variant kinds that are keys of the record. *)
Definition present_kinds (quiz_data : dict) : list string :=
  filter (fun kind => dict_mem kind quiz_data) question_types.

(** What one block of the scorer does to the state: nothing when the kind
    is absent, one more question and one more entry when it is present. *)
Definition block (kind : string) (quiz_data : dict) (s s' : score_result)
  : Prop :=
  (dict_mem kind quiz_data = false /\ s' = s)
  \/ (dict_mem kind quiz_data = true
      /\ ((exists msg, s' = add_correct kind msg (add_question s))
          \/ exists msg expl, s' = add_incorrect kind msg expl (add_question s))).

(** Every entry has an explanation exactly when it is not correct. *)
Definition explained (s : score_result) : Prop :=
  forall kind d,
    dict_get kind (detailed_results s) = Some d ->
    (explanation d = None <-> correct d = true).

(** The two submissions agree on the kinds the record has. *)
Definition same_answers (quiz_data answers answers' : dict) : Prop :=
  forall kind,
    In kind question_types -> dict_mem kind quiz_data = true ->
    dict_get kind answers = dict_get kind answers'.

End ScoreTable.
Import ScoreTable.

Module ValidationFacts.

Import Utils.

(** What the validator can tell two records apart by: the presence of the
    two required fields and of the four kinds, and the MCQ and True/False
    entries themselves. *)
Definition same_for_validator (quiz_data quiz_data' : dict) : Prop :=
  (forall key, In key (required_fields ++ question_types) ->
               dict_mem key quiz_data = dict_mem key quiz_data')
  /\ dict_get "mcq" quiz_data = dict_get "mcq" quiz_data'
  /\ dict_get "true_false" quiz_data = dict_get "true_false" quiz_data'.

(** An MCQ object the validator has nothing to say about: its three fields
    are there and [options] has length 4. *)
Definition mcq_clean (mcq : dict) : Prop :=
  dict_mem "question" mcq = true
  /\ dict_mem "correct_answer" mcq = true
  /\ exists options, dict_get "options" mcq = Some options
                     /\ py_len options = Ok 4.

(** A True/False object the validator has nothing to say about: a
    question, and the answer the string True or the string False. *)
Definition true_false_clean (tf : dict) : Prop :=
  dict_mem "question" tf = true
  /\ (dict_get "correct_answer" tf = Some (PStr "True")
      \/ dict_get "correct_answer" tf = Some (PStr "False")).

End ValidationFacts.
Import ValidationFacts.

Module SummaryFacts.

Import Utils Package.

(** [quiz.get(key, "Unknown")] on an object *)
Definition field_or_unknown (key : string) (quiz : pyval) : pyval :=
  match quiz with
  | PDict d => match dict_get key d with Some v => v | None => PStr "Unknown" end
  | _ => PStr "Unknown"
  end.

(** An entry the summary can take in: an object whose topic and
    difficulty can be keys of a dictionary. *)
Definition summarisable (quiz : pyval) : Prop :=
  is_dict quiz = true
  /\ hashable (field_or_unknown "topic" quiz) = true
  /\ hashable (field_or_unknown "difficulty" quiz) = true.

(** The entries of the batch whose field [key] equals [v]. *)
Definition occurrences (key : string) (v : pyval) (quizzes : list pyval) : nat :=
  List.length (filter (fun q => py_eq (field_or_unknown key q) v) quizzes).

(** The entries of the batch that have the key [kind]. *)
Definition having (kind : string) (quizzes : list pyval) : nat :=
  List.length
    (filter (fun q => match q with PDict d => dict_mem kind d | _ => false end)
       quizzes).

(** [h.get(v, 0)] on a histogram *)
Definition hist_count (v : pyval) (h : list (pyval * Z)) : Z :=
  match find (fun kn => py_eq (fst kn) v) h with
  | Some (_, n) => n
  | None => 0
  end.

Definition hist_total (h : list (pyval * Z)) : Z := sumZ (List.map snd h).

Definition count_of (kind : string) (h : list (string * Z)) : Z :=
  match dict_get kind h with Some n => n | None => 0 end.

(** What [==] compares in a value that can be hashed: a number (a boolean
    is 0 or 1), a string, or [None]. *)
Inductive hash_key : Type :=
| KNone
| KNum (n : Z)
| KStr (s : string).

Definition key_of (v : pyval) : hash_key :=
  match v with
  | PBool b => KNum (Z.b2z b)
  | PInt n => KNum n
  | PStr s => KStr s
  | _ => KNone
  end.

(** Every key of the histogram can be hashed. *)
Definition hashable_keys (h : list (pyval * Z)) : Prop :=
  Forall (fun kn => hashable (fst kn) = true) h.

End SummaryFacts.
Import SummaryFacts.

(* ===================================================================== *)
(** ** app/utils.py: file names                                          *)
(* ===================================================================== *)

Module Filenames.

(** The character class of [sanitize_filename]: one of the nine characters
    between the brackets, the less-than sign, the greater-than sign, the
    colon, the double quote, the slash, the backslash, the bar, the
    question mark and the star. *)
Definition forbidden (c : ascii) : bool :=
  let n := code c in
  ((n =? 60) || (n =? 62) || (n =? 58) || (n =? 34) || (n =? 47) || (n =? 92)
   || (n =? 124) || (n =? 63) || (n =? 42))%N.

(** [re.sub(class, '_', s)]: every character of the class becomes an
    underscore. *)
Fixpoint sub_forbidden (s : string) : string :=
  match s with
  | EmptyString => EmptyString
  | String c r => String (if forbidden c then "_"%char else c) (sub_forbidden r)
  end.

Definition sanitize_filename (filename : string) : string :=
  let sanitized := sub_forbidden filename in
  if Nat.ltb 100 (String.length sanitized) then substring 0 100 sanitized
  else sanitized.

End Filenames.

Module ExportFacts.

(** From [w] to [w'] nothing changed but the file [filename] and the lines
    printed: the other files, the directories, the requests sent and the
    clock are as they were. *)
Definition only_wrote (filename : string) (w w' : world) : Prop :=
  (forall other, other <> filename ->
                 dict_get other (files w') = dict_get other (files w))
  /\ dirs w' = dirs w
  /\ requests w' = requests w
  /\ clock_reads w' = clock_reads w
  /\ exists lines, stdout w' = stdout w ++ lines.

(** A computation that writes to [filename] and to the standard output
    only. *)
Definition confined {A} (filename : string) (m : io A) : Prop :=
  forall w, only_wrote filename w (snd (m w)).

End ExportFacts.
Import ExportFacts.

Module ReportRuns.

Import QuizGenerator.

(** [m] is a sequence of writes of the texts [ts] to [filename]: it
    appends them all and returns when [ok] holds; otherwise it raises
    after appending fewer. *)
Definition writes (filename : string) (ts : list text) (ok : bool) (m : io unit)
  : Prop :=
  forall w,
    if ok then m w = (Ok tt, appends filename ts w)
    else exists e k,
        k < List.length ts
        /\ m w = (Raise e, appends filename (firstn k ts) w).

End ReportRuns.
Import ReportRuns.

Module PackageFacts.

Import Utils QuizGenerator Package.

(** The world [w] with other files and other printed lines. *)
Definition reshaped (fs : list (string * list chunk)) (out : list string)
  (w : world) : world :=
  {| files := fs; dirs := dirs w; stdout := out; requests := requests w;
     clock_reads := clock_reads w; open_fault := open_fault w;
     mkdir_fault := mkdir_fault w;
     dump_fault := dump_fault w; service := service w;
     json_loads := json_loads w; clock := clock w |}.

(** The world after one reading of the clock. *)
Definition tick (w : world) : world := snd (now w).

(** The timestamp of a package made in [w], and the paths of its three
    artifacts. *)
Definition stamp (w : world) : string := strftime_stamp (clock w (clock_reads w)).



Definition summary_file (output_dir : string) (w : world) : string :=
  path_join output_dir ("quiz_summary_" +++ stamp w +++ ".json").

End PackageFacts.
Import PackageFacts.

Module BatchFacts.

Import QuizGenerator.

(** What [generate_quiz_questions] returns for the request number [n],
    given what the service answers and what the parser makes of it. *)
Definition answers (svc : nat -> string -> string -> result pyval)
  (parse : string -> result pyval) (n : nat) (chunk : string)
  (topic difficulty quiz : pyval) : Prop :=
  match svc n system_prompt (user_prompt chunk topic difficulty) with
  | Raise e =>
      quiz = PDict [("error", PStr ("Failed to generate quiz: " +++ exn_msg e))]
  | Ok response =>
      match content_of response with
      | Raise e =>
          quiz = PDict [("error",
                         PStr ("Failed to generate quiz: " +++ exn_msg e))]
      | Ok (PStr raw) =>
          match parse raw with
          | Ok quiz_data => quiz = quiz_data
          | Raise e =>
              if is_json_decode_error e
              then quiz = PDict [("raw_content", PStr raw);
                                 ("error", PStr "Failed to parse JSON")]
              else quiz = PDict [("error",
                                  PStr ("Failed to generate quiz: "
                                        +++ exn_msg e))]
          end
      | Ok _ => error_tagged quiz
      end
  end.

(** From [w] to [w'] no file was written, no directory made, nothing
    printed and the clock not read. *)
Definition silent (w w' : world) : Prop :=
  files w' = files w /\ dirs w' = dirs w /\ stdout w' = stdout w
  /\ clock_reads w' = clock_reads w.

(** The record kept for the chunk of index [i] when the reply parsed to
    the object [d]. *)
Definition stamped (i : nat) (chunk : string) (d : dict) : pyval :=
  PDict (dict_set "chunk_preview" (PStr (chunk_preview chunk))
           (dict_set "chunk_index" (PInt (Z.of_nat i)) d)).

End BatchFacts.
Import BatchFacts.

(* ===================================================================== *)
(** ** main.py: the application object                                   *)
(* ===================================================================== *)

Module Main.

Import Utils QuizGenerator Package.

(** The fields of a [QuizGenerator] object. *)
Record generator : Type := mkGenerator {
  self_quizzes : list pyval;
  self_current_file : option string;
  self_chunks : list string
}.

(** A method: it may change the object and the world, and what it has
    assigned before raising stays assigned. *)
Definition method (A : Type) : Type :=
  generator -> world -> result A * generator * world.

Definition mret {A} (a : A) : method A := fun self w => (Ok a, self, w).

Definition mbind {A B} (m : method A) (k : A -> method B) : method B :=
  fun self w =>
    match m self w with
    | (Ok a, self', w') => k a self' w'
    | (Raise e, self', w') => (Raise e, self', w')
    end.

(** [try: m except Exception as e: handler e] *)
Definition mtry {A} (m : method A) (handler : exn -> method A) : method A :=
  fun self w =>
    match m self w with
    | (Ok a, self', w') => (Ok a, self', w')
    | (Raise e, self', w') => handler e self' w'
    end.

(** A call that does not touch the object. *)
Definition call {A} (m : io A) : method A :=
  fun self w => let (r, w') := m w in (r, self, w').

Definition get_self : method generator := fun self w => (Ok self, self, w).

(** [self.quizzes = quizzes] *)
Definition set_quizzes (quizzes : list pyval) : method unit :=
  fun self w =>
    (Ok tt,
     {| self_quizzes := quizzes;
        self_current_file := self_current_file self;
        self_chunks := self_chunks self |},
     w).

Notation "x <<~ m ;; k" := (mbind m (fun x => k))
  (at level 61, m at next level, right associativity).

(** [l[:n]] *)
Definition slice_to {A} (n : Z) (l : list A) : list A :=
  if (0 <=? n)%Z then firstn (Z.to_nat n) l
  else firstn (List.length l - Z.to_nat (- n)) l.

(** [validate_quiz_structure(quiz)] whatever [quiz] is: only a dict can be
    indexed by a key, so on a string or a list that holds [mcq] or
    [true_false] the indexing raises, and on a value that is no container
    the first membership test does. *)
Definition validate_any (quiz_data : pyval) : result validation_result :=
  match quiz_data with
  | PDict d => validate_quiz_structure d
  | _ =>
      let r := {| is_valid := true; errors := []; warnings := [] |} in
      r <- fold_left
             (fun acc field =>
                r <- acc ;;
                present <- py_contains field quiz_data ;;
                if negb present
                then Ok (add_error ("Missing required field: " +++ field) r)
                else Ok r)
             required_fields (Ok r) ;;
      existing_types <-
        fold_left
          (fun acc qt =>
             l <- acc ;;
             present <- py_contains qt quiz_data ;;
             Ok (if present then l ++ [qt] else l))
          question_types (Ok []) ;;
      let r :=
        match existing_types with
        | [] => add_error "No question types found" r
        | _ => r
        end in
      has_mcq <- py_contains "mcq" quiz_data ;;
      r <- (if has_mcq
            then mcq <- getitem_str quiz_data "mcq" ;; check_mcq [("mcq", mcq)] r
            else Ok r) ;;
      has_tf <- py_contains "true_false" quiz_data ;;
      r <- (if has_tf
            then tf <- getitem_str quiz_data "true_false" ;;
                 check_true_false [("true_false", tf)] r
            else Ok r) ;;
      Ok r
  end.

(** The loop over the batch: [i] is the index [enumerate] gives and
    [valid_quizzes] the list built so far. *)
Fixpoint validate_loop (i : nat) (quizzes valid_quizzes : list pyval)
  : io (list pyval) :=
  match quizzes with
  | [] => ret valid_quizzes
  | quiz :: rest =>
      validation <~ lift (validate_any quiz) ;;
      if is_valid validation
      then validate_loop (S i) rest (valid_quizzes ++ [quiz])
      else
        _ <~ print ("Quiz " +++ str_of_nat (i + 1) +++ " validation warnings: "
                    +++ py_repr (PList (List.map PStr (warnings validation)))) ;;
        validate_loop (S i) rest valid_quizzes
  end.

(** [if max_chunks: self.chunks[:max_chunks] else: self.chunks] *)
Definition chunks_to_process (max_chunks : option Z) (chunks : list string)
  : list string :=
  match max_chunks with
  | Some n => if (n =? 0)%Z then chunks else slice_to n chunks
  | None => chunks
  end.

Definition generate_quizzes (max_chunks : option Z)
  (topics difficulties : option (list pyval)) : method bool :=
  self <<~ get_self ;;
  match self_chunks self with
  | [] =>
      _ <<~ call (print "No chunks available. Please process a document first.") ;;
      mret false
  | _ :: _ =>
      let chunks := chunks_to_process max_chunks (self_chunks self) in
      _ <<~ call (print ("Generating quizzes for "
                         +++ str_of_nat (List.length chunks) +++ " chunks...")) ;;
      mtry
        (quizzes <<~ call (generate_quiz_batch chunks topics difficulties) ;;
         _ <<~ set_quizzes quizzes ;;
         valid_quizzes <<~ call (validate_loop 0 quizzes []) ;;
         _ <<~ set_quizzes valid_quizzes ;;
         _ <<~ call (print ("Successfully generated "
                            +++ str_of_nat (List.length valid_quizzes)
                            +++ " valid quizzes")) ;;
         mret true)
        (fun e =>
           _ <<~ call (print ("Error generating quizzes: " +++ exn_msg e)) ;;
           mret false)
  end.


(** [s * n] *)
Fixpoint py_mul (s : string) (n : nat) : string :=
  match n with
  | 0 => EmptyString
  | S k => s +++ py_mul s k
  end.

(** [for key, count in d.items(): print(f"   {key}: {count}")] *)
Fixpoint print_counts {K} (show : K -> string) (items : list (K * Z))
  : io unit :=
  match items with
  | [] => ret tt
  | (key, count) :: rest =>
      _ <~ print ("   " +++ show key +++ ": " +++ str_of_Z count) ;;
      print_counts show rest
  end.

Definition show_summary : method unit :=
  self <<~ get_self ;;
  match self_quizzes self with
  | [] => call (print "No quizzes available")
  | _ :: _ =>
      summary <<~ call (generate_quiz_summary (self_quizzes self)) ;;
      _ <<~ call (print (nl +++ " Quiz Generation Summary")) ;;
      _ <<~ call (print (py_mul "=" 50)) ;;
      _ <<~ call (print ("Total Quizzes: "
                         +++ str_of_nat (total_quizzes summary))) ;;
      _ <<~ call (print ("Generated: " +++ generation_timestamp summary)) ;;
      _ <<~ call (print (nl +++ " Topics:")) ;;
      _ <<~ call (print_counts py_str (topics summary)) ;;
      _ <<~ call (print (nl +++ " Difficulties:")) ;;
      _ <<~ call (print_counts py_str (difficulties summary)) ;;
      _ <<~ call (print (nl +++ " Question Types:")) ;;
      _ <<~ call (print_counts (fun q_type => q_type)
                    (summary_question_types summary)) ;;
      call (print (py_mul "=" 50))
  end.

End Main.

Module MainFacts.

Import Utils QuizGenerator Main.

(** What makes a record valid: its topic, its difficulty and at least one
    of the four kinds. *)
Definition acceptable (quiz : pyval) : bool :=
  match quiz with
  | PDict d =>
      dict_mem "topic" d && dict_mem "difficulty" d
      && existsb (fun qt => dict_mem qt d) question_types
  | _ => false
  end.

(** The validator returns on the record; it raises on it. *)
Definition checked (quiz : pyval) : Prop :=
  exists d r, quiz = PDict d /\ validate_quiz_structure d = Ok r.

Definition faulty (quiz : pyval) : Prop :=
  exists d e, quiz = PDict d /\ validate_quiz_structure d = Raise e.

(** From [w] to [w'] the lines [lines] were printed and nothing else
    happened. *)
Definition prints (lines : list string) (w w' : world) : Prop :=
  stdout w' = stdout w ++ lines
  /\ files w' = files w /\ dirs w' = dirs w /\ requests w' = requests w
  /\ clock_reads w' = clock_reads w /\ open_fault w' = open_fault w
  /\ mkdir_fault w' = mkdir_fault w /\ service w' = service w
  /\ json_loads w' = json_loads w /\ clock w' = clock w.

(** The entries of a batch the validator turns down. *)
Definition rejected (quizzes : list pyval) : list pyval :=
  filter (fun q => negb (acceptable q)) quizzes.

(** The topic and the difficulty of the record can be keys of a
    dictionary. *)
Definition hashable_fields (quiz : pyval) : Prop :=
  Package.hashable (SummaryFacts.field_or_unknown "topic" quiz) = true
  /\ Package.hashable (SummaryFacts.field_or_unknown "difficulty" quiz) = true.

(** A method that prints the lines [lines], returns and does nothing
    else. *)
Definition mprints (lines : list string) (m : method unit) : Prop :=
  forall self w,
  exists w', m self w = (Ok tt, self, w') /\ prints lines w w'.

(** The line printed for an entry of a histogram. *)
Definition count_line {K} (show : K -> string) (item : K * Z) : string :=
  "   " +++ show (fst item) +++ ": " +++ str_of_Z (snd item).

End MainFacts.
Import MainFacts.

Module MainExamples.

Import Main.

(** a service that answers every request with the same text, and a parser
    that reads it as a record with topic, difficulty and an MCQ *)
Definition steady_service : nat -> string -> string -> result pyval :=
  fun _ _ _ => Ok (Examples.reply "{quiz}").

Definition quiz_parser : string -> result pyval :=
  fun s =>
    if String.eqb s "{quiz}" then Ok (PDict Examples.quiz_mcq_b)
    else Raise (mkExn JSONDecodeError "Expecting value: line 1 column 1 (char 0)").

(** an object with two chunks, and one with a validated quiz *)
Definition two_chunks : generator :=
  {| self_quizzes := []; self_current_file := Some "notes.md";
     self_chunks := ["first chunk"; "second chunk"] |}.

Definition one_quiz : generator :=
  {| self_quizzes := [PDict Examples.quiz_mcq_b];
     self_current_file := Some "notes.md";
     self_chunks := ["first chunk"] |}.

End MainExamples.

Module Encoding.

(** A text that a file opened with [encoding='utf-8'] takes: one without
    surrogates. *)
Definition encodable (t : text) : bool := negb (existsb is_surrogate t).

Definition all_encodable (ts : list text) : bool := forallb encodable ts.

End Encoding.
Import Encoding.

Module Faults.





End Faults.

Module WarningSpec.

Import Utils ValidationSpec.








End WarningSpec.
Import WarningSpec.

(* ===================================================================== *)
(** ** Results                                                           *)
(* ===================================================================== *)

Section Results.

Lemma bind_ok {A B} (m : result A) (k : A -> result B) (b : B) :
  bind m k = Ok b -> exists a, m = Ok a /\ k a = Ok b.
Proof.
  destruct m as [a | e]; simpl; intros H.
  - exists a. split; [reflexivity | assumption].
  - discriminate.
Qed.

Lemma py_lower_m_ok (v : pyval) (s : string) :
  py_lower_m v = Ok s -> exists u, v = PStr u /\ s = py_lower u.
Proof.
  destruct v; simpl; unfold no_attribute; intros H; try discriminate.
  injection H as <-. eauto.
Qed.

Lemma dict_get_set_same {A} (k : string) (v : A) (d : list (string * A)) :
  dict_get k (dict_set k v d) = Some v.
Proof.
  induction d as [| [k' v'] r IH]; simpl.
  - now rewrite String.eqb_refl.
  - destruct (String.eqb k k') eqn:E; simpl; rewrite E; [reflexivity | exact IH].
Qed.

Lemma dict_get_set_other {A} (k k' : string) (v : A) (d : list (string * A)) :
  k <> k' -> dict_get k (dict_set k' v d) = dict_get k d.
Proof.
  intros Hne. induction d as [| [k0 v0] r IH]; simpl.
  - destruct (String.eqb_spec k k'); [contradiction | reflexivity].
  - destruct (String.eqb_spec k' k0) as [-> | Hk]; simpl.
    + destruct (String.eqb_spec k k0); [contradiction | reflexivity].
    + destruct (String.eqb k k0); [reflexivity | exact IH].
Qed.

End Results.

Tactic Notation "inv_bind" hyp(H) "as" ident(a) ident(Ha) :=
  apply bind_ok in H; destruct H as (a & Ha & H).

(* ===================================================================== *)
(** ** Letter case and white space                                       *)
(* ===================================================================== *)

Section Letters.

Ltac by_cases_on_char c :=
  destruct c as [[] [] [] [] [] [] [] []]; vm_compute; intuition congruence.


Lemma lower_char_not_upper (c : ascii) : is_upper (lower_char c) = false.
Proof. by_cases_on_char c. Qed.



Lemma lower_char_space (c : ascii) : is_space (lower_char c) = is_space c.
Proof. by_cases_on_char c. Qed.



Lemma py_lstrip_lower (s : string) : py_lstrip (py_lower s) = py_lower (py_lstrip s).
Proof.
  induction s as [| c s IH]; simpl.
  - reflexivity.
  - rewrite lower_char_space. destruct (is_space c); [exact IH | reflexivity].
Qed.

Lemma py_rstrip_lower (s : string) : py_rstrip (py_lower s) = py_lower (py_rstrip s).
Proof.
  induction s as [| c s IH]; simpl.
  - reflexivity.
  - rewrite IH, lower_char_space.
    destruct (py_rstrip s) as [| c' s']; simpl.
    + destruct (is_space c); reflexivity.
    + reflexivity.
Qed.

(** Folding case and trimming commute: white space has no case. *)
Lemma py_strip_lower (s : string) : py_strip (py_lower s) = py_lower (py_strip s).
Proof. unfold py_strip. now rewrite py_lstrip_lower, py_rstrip_lower. Qed.

End Letters.

(* ===================================================================== *)
(** ** The scorer, block by block                                        *)
(* ===================================================================== *)

Section Scoring.

Import Utils.

Lemma step_correct kind msg s :
  settles kind true msg s (add_correct kind msg (add_question s)).
Proof. unfold settles; simpl. repeat split; try lia. eauto. Qed.

Lemma step_incorrect kind msg expl s :
  settles kind false msg s (add_incorrect kind msg expl (add_question s)).
Proof. unfold settles; simpl. repeat split; try lia. eauto. Qed.

Lemma py_get_str_ok (v : pyval) (key : string) (default x : pyval) :
  py_get v (PStr key) default = Ok x ->
  exists d, v = PDict d
            /\ x = match dict_get key d with Some y => y | None => default end.
Proof.
  destruct v; simpl; unfold no_attribute; intros H; try discriminate.
  injection H as <-. eauto.
Qed.

(** The MCQ and True/False blocks. *)
Lemma score_choice_absent kind answers quiz_data s :
  dict_get kind quiz_data = None -> score_choice kind answers quiz_data s = Ok s.
Proof. unfold score_choice. now intros ->. Qed.

Lemma score_choice_inv kind answers quiz_data s s' q :
  dict_get kind quiz_data = Some q ->
  score_choice kind answers quiz_data s = Ok s' ->
  exists ua ca,
    get_str kind answers = PStr ua
    /\ py_get q (PStr "correct_answer") (PStr EmptyString) = Ok (PStr ca)
    /\ ((py_lower ua = py_lower ca /\ settles kind true "Correct!" s s')
        \/ (py_lower ua <> py_lower ca
            /\ settles kind false
                 ("Incorrect. The correct answer is " +++ ca +++ ".") s s')).
Proof.
  unfold score_choice. intros -> H.
  inv_bind H as correct_answer Hca.
  inv_bind H as lua Hlua. apply py_lower_m_ok in Hlua as (ua & Hua & ->).
  inv_bind H as lca Hlca. apply py_lower_m_ok in Hlca as (ca & -> & ->).
  exists ua, ca. repeat split; try assumption.
  destruct (String.eqb_spec (py_lower ua) (py_lower ca)) as [E | E].
  - left. injection H as <-. split; [exact E | apply step_correct].
  - right. inv_bind H as expl Hexpl. injection H as <-.
    split; [exact E | apply step_incorrect].
Qed.

(** The Fill-in-the-blank block. *)
Lemma score_fill_blank_absent answers quiz_data s :
  dict_get "fill_blank" quiz_data = None ->
  score_fill_blank answers quiz_data s = Ok s.
Proof. unfold score_fill_blank. now intros ->. Qed.

Lemma score_fill_blank_inv answers quiz_data s s' q :
  dict_get "fill_blank" quiz_data = Some q ->
  score_fill_blank answers quiz_data s = Ok s' ->
  exists ua ca,
    get_str "fill_blank" answers = PStr ua
    /\ py_get q (PStr "correct_answer") (PStr EmptyString) = Ok (PStr ca)
    /\ ((py_strip (py_lower ua) = py_strip (py_lower ca)
         /\ settles "fill_blank" true "Correct!" s s')
        \/ (py_strip (py_lower ua) <> py_strip (py_lower ca)
            /\ settles "fill_blank" false
                 ("Incorrect. The correct answer is '" +++ ca +++ "'.") s s')).
Proof.
  unfold score_fill_blank. intros -> H.
  inv_bind H as correct_answer Hca.
  inv_bind H as lua Hlua. apply py_lower_m_ok in Hlua as (ua & Hua & ->).
  inv_bind H as lca Hlca. apply py_lower_m_ok in Hlca as (ca & -> & ->).
  exists ua, ca. repeat split; try assumption.
  destruct (String.eqb_spec (py_strip (py_lower ua)) (py_strip (py_lower ca)))
    as [E | E].
  - left. injection H as <-. split; [exact E | apply step_correct].
  - right. inv_bind H as expl Hexpl. injection H as <-.
    split; [exact E | apply step_incorrect].
Qed.

(** The loop over the pairs counts the pairs that match, and it ends
    without a fault only if every pair could be looked up. *)
Lemma count_matches_spec user_answers pairs :
  forall c n,
    count_matches user_answers pairs c = Ok n ->
    n = (c + Z.of_nat (matched user_answers pairs))%Z.
Proof.
  unfold matched.
  induction pairs as [| p rest IH]; intros c n H; simpl in H.
  - injection H as <-. simpl. lia.
  - inv_bind H as term Ha.
    inv_bind H as submitted Ha0.
    inv_bind H as definition Ha1.
    apply IH in H. simpl. unfold pair_matchb at 1. rewrite Ha, Ha0, Ha1.
    destruct (py_eq submitted definition); simpl; lia.
Qed.

Lemma pair_matchb_iff user_answers p :
  pair_matchb user_answers p = true <-> pair_matches user_answers p.
Proof.
  unfold pair_matchb, pair_matches. split.
  - destruct (py_get p (PStr "term") (PStr EmptyString)) as [term |] eqn:E1;
      [| discriminate].
    destruct (py_get user_answers term PNone) as [submitted |] eqn:E2;
      [| discriminate].
    destruct (py_get p (PStr "definition") (PStr EmptyString)) as [definition |];
      [| discriminate].
    intros H. exists term, submitted, definition. auto.
  - intros (term & submitted & definition & -> & -> & -> & H). exact H.
Qed.

Lemma filter_length_all {A} (f : A -> bool) (l : list A) :
  List.length (filter f l) = List.length l <-> Forall (fun x => f x = true) l.
Proof.
  induction l as [| x l IH]; simpl.
  - split; [constructor | reflexivity].
  - pose proof (filter_length_le f l) as Hle.
    destruct (f x) eqn:E; simpl; split; intros H.
    + constructor; [exact E | apply IH; lia].
    + inversion H; subst. f_equal. now apply IH.
    + lia.
    + inversion H; subst. congruence.
Qed.

Lemma matched_all user_answers pairs :
  matched user_answers pairs = List.length pairs
  <-> Forall (pair_matches user_answers) pairs.
Proof.
  unfold matched. rewrite filter_length_all.
  split; intros H; eapply Forall_impl; try exact H; intros p Hp;
    now apply pair_matchb_iff.
Qed.

Lemma py_len_iter v n items :
  py_len v = Ok n -> py_iter v = Ok items -> List.length items = n.
Proof.
  destruct v; simpl; intros Hn Hi; try discriminate;
    injection Hn as <-; injection Hi as <-.
  - rewrite length_map. induction s; simpl; congruence.
  - reflexivity.
  - now rewrite length_map.
Qed.

Lemma score_matching_absent answers quiz_data s :
  dict_get "matching" quiz_data = None ->
  score_matching answers quiz_data s = Ok s.
Proof. unfold score_matching. now intros ->. Qed.

Lemma score_matching_inv answers quiz_data s s' matching :
  dict_get "matching" quiz_data = Some matching ->
  score_matching answers quiz_data s = Ok s' ->
  exists pairs items,
    py_get matching (PStr "pairs") (PList []) = Ok pairs
    /\ py_iter pairs = Ok items
    /\ py_len pairs = Ok (List.length items)
    /\ let user_answers := submitted_matching answers in
       ((matched user_answers items = List.length items
         /\ settles "matching" true "Perfect matching!" s s')
        \/ (matched user_answers items <> List.length items
            /\ settles "matching" false
                 ("Partially correct. You got "
                  +++ str_of_nat (matched user_answers items) +++ "/"
                  +++ str_of_nat (List.length items) +++ " matches right.")
                 s s')).
Proof.
  unfold score_matching, submitted_matching. intros -> H.
  inv_bind H as pairs Ha.
  inv_bind H as total_pairs Ha0.
  inv_bind H as items Ha1.
  inv_bind H as correct_matches Ha2.
  pose proof (py_len_iter _ _ _ Ha0 Ha1) as Hlen. subst total_pairs.
  apply count_matches_spec in Ha2. simpl in Ha2. subst correct_matches.
  exists pairs, items. repeat split; try assumption.
  cbv zeta.
  destruct (Z.eqb_spec (Z.of_nat (matched
              match dict_get "matching" answers with
              | Some v => v
              | None => PDict []
              end items)) (Z.of_nat (List.length items))) as [E | E].
  - left. injection H as <-. split; [lia | apply step_correct].
  - right. inv_bind H as expl Hexpl. injection H as <-. split; [lia |].
    unfold str_of_nat. apply step_incorrect.
Qed.

Lemma score_choice_step kind answers quiz_data s s' :
  score_choice kind answers quiz_data s = Ok s' -> step kind s s'.
Proof.
  intros H. destruct (dict_get kind quiz_data) as [q |] eqn:E.
  - destruct (score_choice_inv _ _ _ _ _ _ E H) as (ua & ca & _ & _ & [[_ S] | [_ S]]);
      right; eauto.
  - rewrite (score_choice_absent _ _ _ _ E) in H. injection H as <-. now left.
Qed.

Lemma score_matching_step answers quiz_data s s' :
  score_matching answers quiz_data s = Ok s' -> step "matching" s s'.
Proof.
  intros H. destruct (dict_get "matching" quiz_data) as [q |] eqn:E.
  - destruct (score_matching_inv _ _ _ _ _ E H)
      as (pairs & items & _ & _ & _ & [[_ S] | [_ S]]); right; eauto.
  - rewrite (score_matching_absent _ _ _ E) in H. injection H as <-. now left.
Qed.

Lemma score_fill_blank_step answers quiz_data s s' :
  score_fill_blank answers quiz_data s = Ok s' -> step "fill_blank" s s'.
Proof.
  intros H. destruct (dict_get "fill_blank" quiz_data) as [q |] eqn:E.
  - destruct (score_fill_blank_inv _ _ _ _ _ E H)
      as (ua & ca & _ & _ & [[_ S] | [_ S]]); right; eauto.
  - rewrite (score_fill_blank_absent _ _ _ E) in H. injection H as <-. now left.
Qed.

(** A block leaves the entries of the other kinds alone. *)
Lemma step_keeps k kind s s' :
  step kind s s' -> k <> kind ->
  dict_get k (detailed_results s') = dict_get k (detailed_results s).
Proof.
  intros [-> | (ok & fb & _ & _ & _ & _ & d & -> & _)] Hne.
  - reflexivity.
  - now apply dict_get_set_other.
Qed.

Lemma sumZ_snoc (f : string -> Z) (l : list string) (k : string) :
  sumZ (List.map f (l ++ [k])) = (sumZ (List.map f l) + f k)%Z.
Proof. induction l as [| x l IH]; simpl; lia. Qed.

Lemma sumZ_ext (f g : string -> Z) (l : list string) :
  (forall k, In k l -> f k = g k) -> sumZ (List.map f l) = sumZ (List.map g l).
Proof.
  induction l as [| x l IH]; simpl; intros H.
  - reflexivity.
  - rewrite (H x) by now left. rewrite IH; [reflexivity |].
    intros k Hk. apply H. now right.
Qed.

Lemma accounted_step done kind s s' :
  accounted done s -> ~ In kind done -> step kind s s' ->
  accounted (done ++ [kind]) s'.
Proof.
  intros (Hc & Ht & Hfresh) Hnew Hstep.
  assert (Hkeep : forall k, In k done ->
            dict_get k (detailed_results s') = dict_get k (detailed_results s)).
  { intros k Hk. apply (step_keeps k kind); [exact Hstep |].
    intros ->. contradiction. }
  assert (Hcred : sumZ (List.map (credited s') done) = sumZ (List.map (credited s) done)).
  { apply sumZ_ext. intros k Hk. unfold credited. now rewrite Hkeep. }
  assert (Hcnt : sumZ (List.map (counted s') done) = sumZ (List.map (counted s) done)).
  { apply sumZ_ext. intros k Hk. unfold counted. now rewrite Hkeep. }
  unfold accounted. rewrite !sumZ_snoc, Hcred, Hcnt.
  destruct Hstep as [-> | (ok & fb & Ht' & Hc' & _ & _ & d & Hd & Hok & _)].
  - unfold credited, counted in *. rewrite (Hfresh kind Hnew).
    cbn beta iota. split; [lia | split; [lia |]].
    intros k Hk. apply Hfresh. intros Hin. apply Hk, in_or_app. now left.
  - unfold credited, counted in *. rewrite Hd, dict_get_set_same, Hok.
    cbn beta iota. split; [destruct ok; lia | split; [lia |]].
    intros k Hk. rewrite dict_get_set_other.
    + apply Hfresh. intros Hin. apply Hk, in_or_app. now left.
    + intros ->. apply Hk, in_or_app. right. now left.
Qed.

(** On records and submissions of the shapes of the data model no block
    faults. *)
Lemma str_or_absent_get key d :
  str_or_absent key d -> exists s, get_str key d = PStr s.
Proof.
  unfold str_or_absent, get_str. destruct (dict_get key d) as [v |]; eauto.
Qed.

Lemma score_choice_returns kind answers quiz_data s :
  choice_typed kind answers quiz_data ->
  exists s', score_choice kind answers quiz_data s = Ok s'.
Proof.
  unfold choice_typed, score_choice.
  destruct (dict_get kind quiz_data) as [q |]; [| eauto].
  intros (d & -> & Hca & Hua).
  apply str_or_absent_get in Hca as (ca & Hca), Hua as (ua & Hua).
  unfold get_str in Hca. simpl py_get. rewrite Hca, Hua. cbn [bind py_lower_m].
  destruct (String.eqb (py_lower ua) (py_lower ca)); cbn [bind]; eauto.
Qed.

Lemma score_fill_blank_returns answers quiz_data s :
  choice_typed "fill_blank" answers quiz_data ->
  exists s', score_fill_blank answers quiz_data s = Ok s'.
Proof.
  unfold choice_typed, score_fill_blank.
  destruct (dict_get "fill_blank" quiz_data) as [q |]; [| eauto].
  intros (d & -> & Hca & Hua).
  apply str_or_absent_get in Hca as (ca & Hca), Hua as (ua & Hua).
  unfold get_str in Hca. simpl py_get. rewrite Hca, Hua. cbn [bind py_lower_m].
  destruct (String.eqb (py_strip (py_lower ua)) (py_strip (py_lower ca)));
    cbn [bind]; eauto.
Qed.

Lemma count_matches_returns ua pairs :
  Forall pair_typed pairs ->
  forall c, exists n, count_matches (PDict ua) pairs c = Ok n.
Proof.
  induction 1 as [| p rest (d & -> & Hterm) _ IH]; intros c.
  - simpl. eauto.
  - apply str_or_absent_get in Hterm as (term & Hterm).
    unfold get_str in Hterm.
    cbn [count_matches]. simpl py_get at 1. rewrite Hterm. cbn [bind].
    simpl py_get. cbn [bind]. apply IH.
Qed.

Lemma score_matching_returns answers quiz_data s :
  matching_typed answers quiz_data ->
  exists s', score_matching answers quiz_data s = Ok s'.
Proof.
  unfold matching_typed, score_matching.
  destruct (dict_get "matching" quiz_data) as [m |]; [| eauto].
  intros (d & -> & Hpairs & Hua).
  assert (Hsub : exists ua,
             match dict_get "matching" answers with
             | Some v => v
             | None => PDict []
             end = PDict ua).
  { destruct (dict_get "matching" answers) as [[| | | | | ua] |];
      try discriminate; eauto. }
  destruct Hsub as (ua & ->).
  assert (Hl : exists l,
             py_get (PDict d) (PStr "pairs") (PList []) = Ok (PList l)
             /\ Forall pair_typed l).
  { simpl. destruct (dict_get "pairs" d) as [ps |].
    - destruct Hpairs as (l & -> & Hall). eauto.
    - eauto. }
  destruct Hl as (l & -> & Hall). cbn [bind py_len py_iter].
  destruct (count_matches_returns ua l Hall 0%Z) as (n & ->). cbn [bind].
  destruct (Z.eqb n (Z.of_nat (List.length l))); [eauto |].
  simpl py_get. cbn [bind]. eauto.
Qed.

Lemma calculate_quiz_score_returns answers quiz_data :
  scorable answers quiz_data ->
  exists r, calculate_quiz_score answers quiz_data = Ok r.
Proof.
  intros (Hm & Ht & Hp & Hf). unfold calculate_quiz_score.
  destruct (score_choice_returns _ _ _ initial_score Hm) as (s1 & ->).
  cbn [bind].
  destruct (score_choice_returns _ _ _ s1 Ht) as (s2 & ->). cbn [bind].
  destruct (score_matching_returns _ _ s2 Hp) as (s3 & ->). cbn [bind].
  destruct (score_fill_blank_returns _ _ s3 Hf) as (s4 & ->). cbn [bind].
  eauto.
Qed.

(** The scorer is its four blocks in a row, then the percentage. *)
Lemma calculate_quiz_score_inv answers quiz_data r :
  calculate_quiz_score answers quiz_data = Ok r ->
  exists s1 s2 s3 s4,
    score_choice "mcq" answers quiz_data initial_score = Ok s1
    /\ score_choice "true_false" answers quiz_data s1 = Ok s2
    /\ score_matching answers quiz_data s2 = Ok s3
    /\ score_fill_blank answers quiz_data s3 = Ok s4
    /\ total_questions r = total_questions s4
    /\ correct_answers r = correct_answers s4
    /\ detailed_results r = detailed_results s4
    /\ score_percentage r = percentage s4
    /\ feedback r = feedback s4 ++ [overall_feedback (percentage s4)].
Proof.
  unfold calculate_quiz_score. intros H.
  inv_bind H as s1 H1. inv_bind H as s2 H2.
  inv_bind H as s3 H3. inv_bind H as s4 H4.
  injection H as <-. exists s1, s2, s3, s4. simpl. auto 10.
Qed.

Lemma accounted_initial : accounted [] initial_score.
Proof. unfold accounted; simpl. auto. Qed.

(** [correct_answers] and [total_questions] are the sums, over the four
    kinds, of what [detailed_results] records. *)
Lemma score_accounting answers quiz_data r :
  calculate_quiz_score answers quiz_data = Ok r ->
  correct_answers r
  = (credited r "mcq" + credited r "true_false" + credited r "matching"
     + credited r "fill_blank")%Z
  /\ total_questions r
     = (counted r "mcq" + counted r "true_false" + counted r "matching"
        + counted r "fill_blank")%Z.
Proof.
  intros H.
  destruct (calculate_quiz_score_inv _ _ _ H)
    as (s1 & s2 & s3 & s4 & H1 & H2 & H3 & H4 & Ht & Hc & Hd & _).
  pose proof accounted_initial as A0.
  apply score_choice_step in H1, H2.
  apply score_matching_step in H3. apply score_fill_blank_step in H4.
  assert (A1 := accounted_step [] "mcq" _ _ A0 (fun x => x) H1).
  assert (A2 : accounted (["mcq"] ++ ["true_false"]) s2).
  { apply (accounted_step _ _ s1); auto. simpl. intuition discriminate. }
  assert (A3 : accounted (["mcq"; "true_false"] ++ ["matching"]) s3).
  { apply (accounted_step _ _ s2); auto. simpl. intuition discriminate. }
  assert (A4 : accounted (["mcq"; "true_false"; "matching"] ++ ["fill_blank"]) s4).
  { apply (accounted_step _ _ s3); auto. simpl. intuition discriminate. }
  destruct A4 as (Hc4 & Ht4 & _). simpl in Hc4, Ht4.
  unfold credited, counted in *. rewrite Hd, Hc, Ht, Hc4, Ht4. split; lia.
Qed.

(** Where the entry of a kind ends up: the later blocks do not touch it. *)
Lemma detail_of_mcq answers quiz_data s1 s2 s3 s4 :
  score_choice "true_false" answers quiz_data s1 = Ok s2 ->
  score_matching answers quiz_data s2 = Ok s3 ->
  score_fill_blank answers quiz_data s3 = Ok s4 ->
  dict_get "mcq" (detailed_results s4) = dict_get "mcq" (detailed_results s1).
Proof.
  intros H2 H3 H4.
  apply score_choice_step in H2. apply score_matching_step in H3.
  apply score_fill_blank_step in H4.
  rewrite (step_keeps "mcq" _ _ _ H4), (step_keeps "mcq" _ _ _ H3),
    (step_keeps "mcq" _ _ _ H2); try discriminate. reflexivity.
Qed.

Lemma detail_of_true_false answers quiz_data s2 s3 s4 :
  score_matching answers quiz_data s2 = Ok s3 ->
  score_fill_blank answers quiz_data s3 = Ok s4 ->
  dict_get "true_false" (detailed_results s4)
  = dict_get "true_false" (detailed_results s2).
Proof.
  intros H3 H4.
  apply score_matching_step in H3. apply score_fill_blank_step in H4.
  rewrite (step_keeps "true_false" _ _ _ H4), (step_keeps "true_false" _ _ _ H3);
    try discriminate. reflexivity.
Qed.

Lemma detail_of_matching answers quiz_data s3 s4 :
  score_fill_blank answers quiz_data s3 = Ok s4 ->
  dict_get "matching" (detailed_results s4)
  = dict_get "matching" (detailed_results s3).
Proof.
  intros H4. apply score_fill_blank_step in H4.
  rewrite (step_keeps "matching" _ _ _ H4); [reflexivity | discriminate].
Qed.

Lemma settles_detail kind ok fb s s' :
  settles kind ok fb s s' ->
  exists d, dict_get kind (detailed_results s') = Some d
            /\ correct d = ok /\ detail_feedback d = fb.
Proof.
  intros (_ & _ & _ & _ & d & -> & Hok & Hfb).
  exists d. now rewrite dict_get_set_same.
Qed.

End Scoring.

(* ===================================================================== *)
(** ** White space                                                       *)
(* ===================================================================== *)

Section Trimming.


Lemma append_assoc (a b c : string) : (a +++ b) +++ c = a +++ b +++ c.
Proof. induction a as [| x a IH]; simpl; [reflexivity | now rewrite IH]. Qed.













End Trimming.

(* ===================================================================== *)
(** ** The scorer: main results                                          *)
(* ===================================================================== *)

Section ScorerTheorems.

Import Utils.

Lemma dict_mem_false {A} (k : string) (d : list (string * A)) :
  dict_mem k d = false -> dict_get k d = None.
Proof. unfold dict_mem. destruct (dict_get k d); [discriminate | reflexivity]. Qed.

(** C6. A record with none of the four variant kinds is scored without a
    fault: no question is counted, no answer is credited, and the
    percentage is the integer 0 it was initialised with.  The division
    stands behind the test [total_questions > 0]: with zero questions
    [percentage] hands back the stored value and divides nothing. *)
Theorem no_variant_no_division (answers quiz_data : dict) :
  Forall (fun kind => dict_mem kind quiz_data = false) question_types ->
  (exists r,
      calculate_quiz_score answers quiz_data = Ok r
      /\ total_questions r = 0%Z
      /\ correct_answers r = 0%Z
      /\ score_percentage r = PyInt 0
      /\ detailed_results r = [])
  /\ (forall s, total_questions s = 0%Z -> percentage s = score_percentage s).
Proof.
  intros H. unfold question_types in H.
  inversion_clear H as [| ? ? Hm H1]. inversion_clear H1 as [| ? ? Ht H2].
  inversion_clear H2 as [| ? ? Hp H3]. inversion_clear H3 as [| ? ? Hf _].
  apply dict_mem_false in Hm, Ht, Hp, Hf.
  split.
  - unfold calculate_quiz_score.
    rewrite (score_choice_absent _ _ _ _ Hm). simpl.
    rewrite (score_choice_absent _ _ _ _ Ht). simpl.
    rewrite (score_matching_absent _ _ _ Hp). simpl.
    rewrite (score_fill_blank_absent _ _ _ Hf). simpl.
    eexists. split; [reflexivity |]. simpl. auto.
  - intros s Hs. unfold percentage. now rewrite Hs.
Qed.

Lemma no_variant_no_division_witness :
  Forall (fun kind => dict_mem kind [("topic", PStr "Audit")] = false)
    question_types
  /\ (exists r,
         calculate_quiz_score [("mcq", PStr "a")] [("topic", PStr "Audit")] = Ok r
         /\ total_questions r = 0%Z
         /\ correct_answers r = 0%Z
         /\ score_percentage r = PyInt 0
         /\ detailed_results r = []).
Proof.
  assert (H : Forall (fun kind => dict_mem kind [("topic", PStr "Audit")] = false)
                question_types).
  { repeat constructor. }
  split; [exact H |].
  exact (proj1 (no_variant_no_division [("mcq", PStr "a")] [("topic", PStr "Audit")] H)).
Defined.

(** C1. The scorer returns on every record and submission of the shapes of
    the data model.  When the record has a matching variant and the scorer
    returns, the entry of [detailed_results] for it is correct exactly when
    every pair got the submitted definition it stores; this verdict is
    what the variant adds to [correct_answers], one or nothing.  When the
    verdict is negative the feedback text gives the number of matched
    pairs over the number of pairs. *)
Theorem matching_all_or_nothing (answers quiz_data : dict) :
  (scorable answers quiz_data ->
   exists r, calculate_quiz_score answers quiz_data = Ok r)
  /\ forall (r : score_result) (matching : pyval),
      calculate_quiz_score answers quiz_data = Ok r ->
      dict_get "matching" quiz_data = Some matching ->
      exists pairs items d,
        py_get matching (PStr "pairs") (PList []) = Ok pairs
        /\ py_iter pairs = Ok items
        /\ dict_get "matching" (detailed_results r) = Some d
        /\ (correct d = true
            <-> Forall (pair_matches (submitted_matching answers)) items)
        /\ credited r "matching" = (if correct d then 1 else 0)%Z
        /\ correct_answers r
           = (credited r "mcq" + credited r "true_false" + credited r "matching"
              + credited r "fill_blank")%Z
        /\ (correct d = false ->
            detail_feedback d
            = "Partially correct. You got "
              +++ str_of_nat (matched (submitted_matching answers) items) +++ "/"
              +++ str_of_nat (List.length items) +++ " matches right.").
Proof.
  split; [apply calculate_quiz_score_returns |].
  intros r matching H Hm.
  pose proof (score_accounting _ _ _ H) as [Hacc _].
  destruct (calculate_quiz_score_inv _ _ _ H)
    as (s1 & s2 & s3 & s4 & _ & _ & H3 & H4 & _ & _ & Hd & _).
  destruct (score_matching_inv _ _ _ _ _ Hm H3)
    as (pairs & items & Hp & Hi & _ & Hcase).
  cbv zeta in Hcase.
  assert (Hdet : exists d ok,
             dict_get "matching" (detailed_results r) = Some d
             /\ correct d = ok
             /\ (ok = true <-> matched (submitted_matching answers) items
                               = List.length items)
             /\ (ok = false ->
                 detail_feedback d
                 = "Partially correct. You got "
                   +++ str_of_nat (matched (submitted_matching answers) items)
                   +++ "/" +++ str_of_nat (List.length items)
                   +++ " matches right.")).
  { rewrite Hd, (detail_of_matching _ _ _ _ H4).
    destruct Hcase as [[E S] | [E S]];
      apply settles_detail in S as (d & Hget & Hok & Hfb).
    - exists d, true. repeat split; auto. discriminate.
    - exists d, false. repeat split; auto; discriminate. }
  destruct Hdet as (d & ok & Hget & Hok & Hiff & Hfb).
  exists pairs, items, d. repeat split; auto.
  - intros Hc. apply matched_all, Hiff. congruence.
  - intros Hall. rewrite Hok. apply Hiff. now apply matched_all.
  - unfold credited. now rewrite Hget.
  - intros Hc. apply Hfb. congruence.
Qed.

Lemma matching_all_or_nothing_witness :
  let r := {| total_questions := 1; correct_answers := 0;
              score_percentage := PyFloat 0%float;
              detailed_results :=
                [("matching",
                  {| correct := false;
                     detail_feedback := "Partially correct. You got 1/2 matches right.";
                     explanation := Some (PStr "A is 1 and B is 2") |})];
              feedback := ["You may need to review this topic more thoroughly."] |} in
  calculate_quiz_score Examples.answers_half_right Examples.quiz_matching_AB = Ok r
  /\ dict_get "matching" Examples.quiz_matching_AB = Some Examples.matching_AB
  /\ exists d,
      dict_get "matching" (detailed_results r) = Some d
      /\ correct d = false
      /\ credited r "matching" = 0%Z
      /\ detail_feedback d = "Partially correct. You got 1/2 matches right.".
Proof.
  intros r.
  assert (H : calculate_quiz_score Examples.answers_half_right
                Examples.quiz_matching_AB = Ok r) by reflexivity.
  split; [exact H | split; [reflexivity |]].
  destruct (proj2 (matching_all_or_nothing _ _) _ _ H eq_refl)
    as (pairs & items & d & Hp & Hi & Hget & Hiff & Hcred & _ & Hfb).
  injection Hp as <-. injection Hi as <-.
  exists d.
  assert (Hd : correct d = false).
  { simpl in Hget. injection Hget as <-. reflexivity. }
  split; [exact Hget | split; [exact Hd |]].
  split; [rewrite Hcred, Hd; reflexivity | exact (Hfb Hd)].
Defined.





End ScorerTheorems.

(* ===================================================================== *)
(** ** The validator                                                     *)
(* ===================================================================== *)

Section Validation.

Import Utils.

Lemma check_mcq_keeps quiz_data r r' :
  check_mcq quiz_data r = Ok r' ->
  is_valid r' = is_valid r /\ errors r' = errors r.
Proof.
  unfold check_mcq. destruct (dict_get "mcq" quiz_data) as [mcq |].
  - intros H. inv_bind H as complete Hc.
    destruct complete; simpl in H.
    + inv_bind H as options Ho. inv_bind H as n Hn.
      destruct (Nat.eqb n 4); simpl in H; injection H as <-; auto.
    + injection H as <-. auto.
  - intros H. injection H as <-. auto.
Qed.

Lemma check_true_false_keeps quiz_data r r' :
  check_true_false quiz_data r = Ok r' ->
  is_valid r' = is_valid r /\ errors r' = errors r.
Proof.
  unfold check_true_false. destruct (dict_get "true_false" quiz_data) as [tf |].
  - intros H. inv_bind H as complete Hc.
    destruct complete; cbn [negb] in H.
    + inv_bind H as answer Ha.
      destruct (py_in answer [PStr "True"; PStr "False"]); cbn [negb] in H;
        injection H as <-; auto.
    + injection H as <-. auto.
  - intros H. injection H as <-. auto.
Qed.

Lemma all_keys_in_dict keys d : all_keys_in keys (PDict d)
                                = Ok (forallb (fun k => dict_mem k d) keys).
Proof.
  induction keys as [| k keys IH]; simpl.
  - reflexivity.
  - destruct (dict_mem k d); [exact IH | reflexivity].
Qed.

Lemma check_mcq_total quiz_data r :
  variants_are_objects quiz_data -> exists r', check_mcq quiz_data r = Ok r'.
Proof.
  intros [Hm _]. unfold check_mcq.
  destruct (dict_get "mcq" quiz_data) as [mcq |]; [| eauto].
  destruct (Hm mcq eq_refl) as (d & -> & Hsized).
  rewrite all_keys_in_dict. cbn [bind].
  destruct (forallb _ _); cbn [negb]; [| eauto].
  simpl py_get. cbn [bind].
  destruct (dict_get "options" d) as [o |] eqn:Eo.
  - specialize (Hsized o eq_refl).
    destruct o; try discriminate; simpl;
      match goal with |- context [if ?b then _ else _] => destruct b end; eauto.
  - simpl. eauto.
Qed.

Lemma check_true_false_total quiz_data r :
  variants_are_objects quiz_data -> exists r', check_true_false quiz_data r = Ok r'.
Proof.
  intros [_ Ht]. unfold check_true_false.
  destruct (dict_get "true_false" quiz_data) as [tf |]; [| eauto].
  specialize (Ht tf eq_refl). destruct tf; try discriminate.
  rewrite all_keys_in_dict. cbn [bind].
  destruct (forallb _ _); cbn [negb]; [| eauto].
  simpl py_get. cbn [bind].
  match goal with |- context [if ?b then _ else _] => destruct b end; eauto.
Qed.



Lemma check_true_false_warnings quiz_data r r' :
  check_true_false quiz_data r = Ok r' ->
  exists extra, warnings r' = warnings r ++ extra.
Proof.
  unfold check_true_false. destruct (dict_get "true_false" quiz_data) as [tf |].
  - intros H. inv_bind H as complete Hc.
    destruct complete; cbn [negb] in H.
    + inv_bind H as answer Ha.
      destruct (py_in answer [PStr "True"; PStr "False"]); cbn [negb] in H;
        injection H as <-; simpl; eauto.
      exists []. now rewrite app_nil_r.
    + injection H as <-. simpl. eauto.
  - intros H. injection H as <-. exists []. now rewrite app_nil_r.
Qed.

Lemma py_eq_str s v : py_eq (PStr s) v = true <-> v = PStr s.
Proof.
  destruct v as [| b | n | t | l | d]; cbn [py_eq];
    try (split; [discriminate | intros H; discriminate H]).
  rewrite String.eqb_eq. split; [now intros -> | intros H; now injection H].
Qed.











End Validation.

(* ===================================================================== *)
(** ** Generation                                                        *)
(* ===================================================================== *)

Section Generation.

Import QuizGenerator.

(** One call of [generate_quiz_questions]: the request is logged, and a
    value comes back whatever the service and the parser do. *)
Lemma generate_quiz_questions_run chunk topic difficulty w :
  let sp := system_prompt in
  let up := user_prompt chunk topic difficulty in
  exists quiz,
    generate_quiz_questions chunk topic difficulty w = (Ok quiz, log_request sp up w)
    /\ match service w (List.length (requests w)) sp up with
       | Raise e =>
           quiz = PDict [("error", PStr ("Failed to generate quiz: " +++ exn_msg e))]
       | Ok response =>
           match content_of response with
           | Raise e =>
               quiz = PDict [("error",
                              PStr ("Failed to generate quiz: " +++ exn_msg e))]
           | Ok (PStr raw) =>
               match json_loads w raw with
               | Ok quiz_data => quiz = quiz_data
               | Raise e =>
                   if is_json_decode_error e
                   then quiz = PDict [("raw_content", PStr raw);
                                      ("error", PStr "Failed to parse JSON")]
                   else quiz = PDict [("error",
                                       PStr ("Failed to generate quiz: "
                                             +++ exn_msg e))]
               end
           | Ok _ => error_tagged quiz
           end
       end.
Proof.
  intros sp up.
  unfold generate_quiz_questions, try_except, iobind, call_service, lift.
  fold sp up.
  destruct (service w (List.length (requests w)) sp up) as [response | e].
  - destruct (content_of response) as [content | e].
    + unfold loads, ret, raise.
      destruct content as [| b | n | raw | l | d];
        try (eexists; split; [reflexivity |];
             eexists; split; [reflexivity | reflexivity]).
      simpl. destruct (json_loads w raw) as [quiz_data | e].
      * eexists; split; reflexivity.
      * destruct (is_json_decode_error e); eexists; split; reflexivity.
    + eexists; split; reflexivity.
  - eexists; split; reflexivity.
Qed.



Lemma at_or_nth (i : nat) (seq : list pyval) (default : pyval) :
  at_or i seq default = nth i seq default.
Proof.
  unfold at_or. destruct (Nat.ltb_spec i (List.length seq)) as [Hlt | Hge].
  - now apply nth_indep.
  - symmetry. now apply nth_overflow.
Qed.

Lemma batch_entry_shape i chunk topic difficulty quiz :
  exists d,
    batch_entry i chunk topic difficulty quiz = PDict d
    /\ dict_get "chunk_index" d = Some (PInt (Z.of_nat i))
    /\ dict_get "chunk_preview" d = Some (PStr (chunk_preview chunk))
    /\ (dict_mem "error" d = true ->
        PDict d = failed_quiz i chunk topic difficulty).
Proof.
  assert (Hfail : exists d,
             failed_quiz i chunk topic difficulty = PDict d
             /\ dict_get "chunk_index" d = Some (PInt (Z.of_nat i))
             /\ dict_get "chunk_preview" d = Some (PStr (chunk_preview chunk))
             /\ (dict_mem "error" d = true ->
                 PDict d = failed_quiz i chunk topic difficulty)).
  { eexists. split; [reflexivity |]. repeat split. }
  unfold batch_entry. destruct quiz as [| b | n | t | l | d]; try exact Hfail.
  destruct (truthy (PDict d) && negb (dict_mem "error" d)) eqn:E;
    [| exact Hfail].
  apply andb_true_iff in E as [_ E]. apply negb_true_iff in E.
  eexists. split; [reflexivity |]. split; [| split].
  - rewrite dict_get_set_other by discriminate. apply dict_get_set_same.
  - apply dict_get_set_same.
  - unfold dict_mem in *.
    rewrite !dict_get_set_other by discriminate.
    destruct (dict_get "error" d); discriminate.
Qed.

(** The loop makes one request per chunk, in order, and appends one record
    per chunk. *)
Lemma batch_loop_run (topics difficulties : list pyval) :
  forall chunks i quizzes w,
    exists entries w',
      batch_loop i chunks topics difficulties quizzes w
      = (Ok (quizzes ++ entries), w')
      /\ List.length entries = List.length chunks
      /\ requests w'
         = requests w
           ++ List.map
                (fun ic => (system_prompt,
                            user_prompt (snd ic)
                              (nth (fst ic) topics (PStr "General"))
                              (nth (fst ic) difficulties (PStr "Intermediate"))))
                (enumerate_from i chunks)
      /\ forall k chunk,
          nth_error chunks k = Some chunk ->
          exists d,
            nth_error entries k = Some (PDict d)
            /\ dict_get "chunk_index" d = Some (PInt (Z.of_nat (i + k)))
            /\ dict_get "chunk_preview" d = Some (PStr (chunk_preview chunk))
            /\ (dict_mem "error" d = true ->
                PDict d = failed_quiz (i + k) chunk
                            (nth (i + k) topics (PStr "General"))
                            (nth (i + k) difficulties (PStr "Intermediate"))).
Proof.
  induction chunks as [| chunk rest IH]; intros i quizzes w.
  - exists [], w. simpl. unfold ret. rewrite !app_nil_r.
    repeat split; auto. intros [| k] chunk H; discriminate.
  - simpl. rewrite !at_or_nth. unfold iobind.
    set (topic := nth i topics (PStr "General")).
    set (difficulty := nth i difficulties (PStr "Intermediate")).
    destruct (generate_quiz_questions_run chunk topic difficulty w)
      as (quiz & Hrun & _).
    cbv zeta in Hrun. rewrite Hrun.
    set (entry := batch_entry i chunk topic difficulty quiz).
    destruct (IH (S i) (quizzes ++ [entry])
                (log_request system_prompt (user_prompt chunk topic difficulty) w))
      as (entries & w' & Hloop & Hlen & Hreq & Hnth).
    exists (entry :: entries), w'. split; [| split; [| split]].
    + rewrite Hloop. now rewrite <- app_assoc.
    + simpl. now rewrite Hlen.
    + rewrite Hreq. simpl. now rewrite <- app_assoc.
    + intros [| k] c Hc; simpl in Hc.
      * injection Hc as <-. rewrite Nat.add_0_r. simpl.
        destruct (batch_entry_shape i chunk topic difficulty quiz)
          as (d & Hd & Hshape).
        exists d. split; [now f_equal | exact Hshape].
      * destruct (Hnth k c Hc) as (d & Hd & Hshape).
        exists d. rewrite Nat.add_succ_r. simpl. split; [exact Hd | exact Hshape].
Qed.

Lemma entry_or_repeat (default : pyval) (n i : nat) :
  nth i (repeat default n) default = default.
Proof.
  revert i. induction n as [| n IH]; intros [| i]; simpl; auto.
Qed.

(** C2. [generate_quiz_batch] returns, for every list of chunks and every
    choice of topics and difficulties, a list with one record per chunk;
    the record at index [i] carries [chunk_index = i] and the preview of
    the chunk of index [i].  The chunk of index [i] is sent to the service
    with the topic and the difficulty of index [i], or with "General" and
    "Intermediate" when the sequence is absent or ends before [i], and the
    placeholder of a failed chunk carries the same two values. *)
Theorem generate_quiz_batch_one_per_chunk (chunks : list string)
  (topics difficulties : option (list pyval)) (w : world) :
  exists quizzes w',
    generate_quiz_batch chunks topics difficulties w = (Ok quizzes, w')
    /\ List.length quizzes = List.length chunks
    /\ requests w'
       = requests w
         ++ List.map (fun ic => request_for topics difficulties (fst ic) (snd ic))
              (enumerate_from 0 chunks)
    /\ forall i chunk,
        nth_error chunks i = Some chunk ->
        exists d,
          nth_error quizzes i = Some (PDict d)
          /\ dict_get "chunk_index" d = Some (PInt (Z.of_nat i))
          /\ dict_get "chunk_preview" d = Some (PStr (chunk_preview chunk))
          /\ (dict_mem "error" d = true ->
              PDict d = failed_quiz i chunk
                          (entry_or (PStr "General") topics i)
                          (entry_or (PStr "Intermediate") difficulties i)).
Proof.
  unfold generate_quiz_batch.
  set (tl := match topics with
             | Some l => l
             | None => repeat (PStr "General") (List.length chunks)
             end).
  set (dl := match difficulties with
             | Some l => l
             | None => repeat (PStr "Intermediate") (List.length chunks)
             end).
  assert (Ht : forall i, nth i tl (PStr "General") = entry_or (PStr "General") topics i).
  { intros i. unfold tl, entry_or. destruct topics; [reflexivity |].
    apply entry_or_repeat. }
  assert (Hd : forall i, nth i dl (PStr "Intermediate")
                         = entry_or (PStr "Intermediate") difficulties i).
  { intros i. unfold dl, entry_or. destruct difficulties; [reflexivity |].
    apply entry_or_repeat. }
  destruct (batch_loop_run tl dl chunks 0 [] w)
    as (entries & w' & Hloop & Hlen & Hreq & Hnth).
  exists entries, w'.
  replace (match topics with
           | Some l => l
           | None => repeat (PStr "General") (List.length chunks)
           end) with tl by (unfold tl; now destruct topics).
  replace (match difficulties with
           | Some l => l
           | None => repeat (PStr "Intermediate") (List.length chunks)
           end) with dl by (unfold dl; now destruct difficulties).
  split; [exact Hloop | split; [exact Hlen | split]].
  - rewrite Hreq. f_equal. apply map_ext. intros [i chunk].
    unfold request_for. simpl. now rewrite Ht, Hd.
  - intros i chunk Hc. destruct (Hnth i chunk Hc) as (d & Hq & Hi & Hp & He).
    simpl in Hi, He. rewrite Ht, Hd in He. exists d. auto.
Qed.

Lemma generate_quiz_batch_one_per_chunk_witness :
  let w := Examples.world_of Examples.flaky_service Examples.tiny_parser in
  exists quizzes w',
    generate_quiz_batch ["first chunk"; "second chunk"] (Some [PStr "Audit"]) None w
    = (Ok quizzes, w')
    /\ List.length quizzes = 2
    /\ List.map snd (requests w')
       = [user_prompt "first chunk" (PStr "Audit") (PStr "Intermediate");
          user_prompt "second chunk" (PStr "General") (PStr "Intermediate")]
    /\ nth_error quizzes 1
       = Some (failed_quiz 1 "second chunk" (PStr "General") (PStr "Intermediate")).
Proof.
  intros w.
  destruct (generate_quiz_batch_one_per_chunk
              ["first chunk"; "second chunk"] (Some [PStr "Audit"]) None w)
    as (quizzes & w' & Hrun & Hlen & Hreq & Hnth).
  exists quizzes, w'. split; [exact Hrun | split; [exact Hlen | split]].
  - rewrite Hreq. reflexivity.
  - destruct (Hnth 1 "second chunk" eq_refl) as (d & Hq & _ & _ & He).
    rewrite Hq. f_equal. apply He.
    vm_compute in Hrun. injection Hrun as <- _.
    simpl in Hq. injection Hq as <-. reflexivity.
Defined.

End Generation.

(* ===================================================================== *)
(** ** The report                                                        *)
(* ===================================================================== *)

Section Report.

Import QuizGenerator.

Lemma code_not_surrogate (c : ascii) : is_surrogate (code c) = false.
Proof.
  unfold is_surrogate, code. pose proof (N_ascii_bounded c) as Hc.
  apply andb_false_iff. left. apply N.leb_gt. lia.
Qed.

Lemma T_no_surrogate (s : string) : existsb is_surrogate (T s) = false.
Proof.
  unfold T. induction s as [| c s IH]; simpl.
  - reflexivity.
  - now rewrite code_not_surrogate, IH.
Qed.

Lemma f_write_ok filename t w :
  existsb is_surrogate t = false ->
  f_write filename t w = (Ok tt, append_chunk filename (Written t) w).
Proof. unfold f_write. now intros ->. Qed.

Lemma f_write_T filename s w :
  f_write filename (T s) w = (Ok tt, append_chunk filename (Written (T s)) w).
Proof. apply f_write_ok, T_no_surrogate. Qed.

Lemma appends_nil filename w : appends filename [] w = w.
Proof. reflexivity. Qed.

Lemma appends_cons filename t ts w :
  appends filename (t :: ts) w
  = appends filename ts (append_chunk filename (Written t) w).
Proof. reflexivity. Qed.

Lemma appends_app filename ts us w :
  appends filename (ts ++ us) w = appends filename us (appends filename ts w).
Proof. unfold appends. apply fold_left_app. Qed.






(** An export reports a fault by its result and a printed line; nothing
    is raised. *)
Lemma export_quiz_to_json_returns quiz_data filename w :
  exists ok w', export_quiz_to_json quiz_data filename w = (Ok ok, w').
Proof.
  unfold export_quiz_to_json, try_except, iobind, open_w, json_dump, ret, print.
  destruct (open_fault w filename); [eauto |].
  cbn [dump_fault set_files].
  destruct (dump_fault w (DumpValue quiz_data)); eauto.
Qed.

Lemma export_quiz_to_markdown_returns quiz_data filename w :
  exists ok w', export_quiz_to_markdown quiz_data filename w = (Ok ok, w').
Proof.
  unfold export_quiz_to_markdown, try_except.
  match goal with |- context [match ?m w with _ => _ end] => destruct (m w) as [[u | e] w1] end.
  - eauto.
  - unfold iobind, print, ret. eauto.
Qed.


Lemma writes_eq filename ts ts' ok ok' m :
  writes filename ts ok m -> ts = ts' -> ok = ok' -> writes filename ts' ok' m.
Proof. now intros H <- <-. Qed.

Lemma writes_bind filename ts1 ts2 ok1 ok2 (m1 m2 : io unit) :
  writes filename ts1 ok1 m1 -> writes filename ts2 ok2 m2 ->
  writes filename (ts1 ++ ts2) (ok1 && ok2) (iobind m1 (fun _ => m2)).
Proof.
  intros H1 H2 w. specialize (H1 w). unfold iobind. destruct ok1.
  - rewrite H1. specialize (H2 (appends filename ts1 w)).
    destruct ok2; cbn [andb].
    + rewrite H2. now rewrite appends_app.
    + destruct H2 as (e & k & Hk & ->).
      exists e, (List.length ts1 + k). split.
      * rewrite length_app. lia.
      * now rewrite firstn_app_2, appends_app.
  - cbn [andb]. destruct H1 as (e & k & Hk & ->).
    exists e, k. split.
    + rewrite length_app. lia.
    + rewrite firstn_app.
      replace (k - List.length ts1) with 0 by lia.
      now rewrite firstn_O, app_nil_r.
Qed.

(** A sequence of writes goes through exactly when every text can be
    encoded. *)
Lemma pens_ret filename : writes filename [] (all_encodable []) (ret tt).
Proof. intros w. reflexivity. Qed.

Lemma pens_text filename t :
  writes filename [t] (all_encodable [t]) (f_write filename t).
Proof.
  intros w. unfold all_encodable, encodable, f_write. cbn [forallb].
  destruct (existsb is_surrogate t); cbn [negb andb].
  - eexists _, 0. split; [cbn; lia | reflexivity].
  - reflexivity.
Qed.

Lemma pens_bind filename ts1 ts2 (m1 m2 : io unit) :
  writes filename ts1 (all_encodable ts1) m1 ->
  writes filename ts2 (all_encodable ts2) m2 ->
  writes filename (ts1 ++ ts2) (all_encodable (ts1 ++ ts2))
    (iobind m1 (fun _ => m2)).
Proof.
  intros H1 H2. eapply writes_eq; [exact (writes_bind _ _ _ _ _ _ _ H1 H2) | ..].
  - reflexivity.
  - unfold all_encodable. now rewrite forallb_app.
Qed.

Lemma encodable_T s : encodable (T s) = true.
Proof. unfold encodable. now rewrite T_no_surrogate. Qed.

Lemma encodable_letter j rest :
  (N.of_nat j <= 55199)%N ->
  encodable ([97 + N.of_nat j]%N ++ T rest) = negb (55199 <=? N.of_nat j)%N.
Proof.
  intros Hj. unfold encodable. f_equal.
  rewrite existsb_app, T_no_surrogate, orb_false_r.
  cbn [existsb]. rewrite orb_false_r. unfold is_surrogate.
  destruct (N.leb_spec 55199 (N.of_nat j)).
  - apply andb_true_iff. split; apply N.leb_le; lia.
  - apply andb_false_iff. left. apply N.leb_gt. lia.
Qed.

Lemma pens_options filename :
  forall options j,
    (N.of_nat j <= 55199)%N ->
    writes filename (option_lines j options)
      (all_encodable (option_lines j options))
      (write_options filename j options).
Proof.
  induction options as [| option rest IH]; intros j Hj.
  - apply pens_ret.
  - intros w.
    change (write_options filename j (option :: rest) w)
      with ((letter <~ lift (py_chr (97 + N.of_nat j)) ;;
             _ <~ f_write filename (letter ++ T (") " +++ py_str option +++ nl)) ;;
             write_options filename (S j) rest) w).
    change (option_lines j (option :: rest))
      with (([97 + N.of_nat j]%N ++ T (") " +++ py_str option +++ nl))
            :: option_lines (S j) rest).
    unfold iobind at 1. unfold lift, py_chr.
    destruct (N.ltb_spec (97 + N.of_nat j) 1114112) as [_ | Hbig]; [| lia].
    pose proof (encodable_letter j (") " +++ py_str option +++ nl) Hj) as He.
    destruct (N.leb_spec 55199 (N.of_nat j)) as [Hlast | Hmore];
      cbn [negb] in He.
    + unfold all_encodable. cbn [forallb]. rewrite He. cbn [andb].
      pose proof (pens_text filename
                    ([97 + N.of_nat j]%N ++ T (") " +++ py_str option +++ nl)) w)
        as Hw.
      unfold all_encodable in Hw. cbn [forallb] in Hw. rewrite He in Hw.
      cbn [andb] in Hw. destruct Hw as (e & k & Hk & Hw).
      exists e, 0. split; [cbn; lia |].
      unfold iobind. rewrite Hw. cbn [List.length] in Hk.
      replace k with 0 by lia. reflexivity.
    + assert (Hw : writes filename
                ([[97 + N.of_nat j]%N ++ T (") " +++ py_str option +++ nl)]
                 ++ option_lines (S j) rest)
                (all_encodable
                   ([[97 + N.of_nat j]%N ++ T (") " +++ py_str option +++ nl)]
                    ++ option_lines (S j) rest))
                (_ <~ f_write filename
                        ([97 + N.of_nat j]%N ++ T (") " +++ py_str option +++ nl)) ;;
                 write_options filename (S j) rest)).
      { apply pens_bind; [apply pens_text | apply IH; lia]. }
      exact (Hw w).
Qed.

Lemma pens_pairs filename :
  forall pairs,
    writes filename (pair_lines pairs) (all_encodable (pair_lines pairs))
      (write_pairs filename pairs).
Proof.
  induction pairs as [| p rest IH].
  - apply pens_ret.
  - destruct p as [| b | n | s | l | d]; cbn [write_pairs pair_lines];
      try exact IH.
    exact (pens_bind _ [_] _ _ _ (pens_text _ _) IH).
Qed.

Lemma pens_mcq filename quiz :
  writes filename (mcq_part quiz) (all_encodable (mcq_part quiz))
    (write_mcq filename quiz).
Proof.
  unfold write_mcq, mcq_part.
  destruct (variant "mcq" quiz) as [mcq |]; [| apply pens_ret].
  assert (Hopt : forall options,
             writes filename (option_lines 0 options)
               (all_encodable (option_lines 0 options))
               (write_options filename 0 options)).
  { intros options. apply (pens_options filename options 0). lia. }
  destruct (dict_get "options" mcq) as [[| b | n | s | options | d] |];
    (eapply writes_eq;
     [ apply pens_bind; [apply pens_text |];
       apply pens_bind; [apply pens_text |];
       apply pens_bind; [first [apply Hopt | apply pens_ret] |];
       apply pens_bind; apply pens_text
     | reflexivity ..]).
Qed.

Lemma pens_true_false filename quiz :
  writes filename (true_false_part quiz) (all_encodable (true_false_part quiz))
    (write_true_false filename quiz).
Proof.
  unfold write_true_false, true_false_part.
  destruct (variant "true_false" quiz) as [tf |]; [| apply pens_ret].
  eapply writes_eq;
    [ repeat (apply pens_bind; [apply pens_text |]); apply pens_text
    | reflexivity ..].
Qed.

Lemma pens_matching filename quiz :
  writes filename (matching_part quiz) (all_encodable (matching_part quiz))
    (write_matching filename quiz).
Proof.
  unfold write_matching, matching_part.
  destruct (variant "matching" quiz) as [matching |]; [| apply pens_ret].
  destruct (dict_get "pairs" matching) as [[| b | n | s | pairs | d] |];
    (eapply writes_eq;
     [ apply pens_bind; [apply pens_text |];
       apply pens_bind; [apply pens_text |];
       apply pens_bind;
       [first [apply pens_pairs | apply pens_ret] | apply pens_text]
     | reflexivity ..]).
Qed.

Lemma pens_fill_blank filename quiz :
  writes filename (fill_blank_part quiz) (all_encodable (fill_blank_part quiz))
    (write_fill_blank filename quiz).
Proof.
  unfold write_fill_blank, fill_blank_part.
  destruct (variant "fill_blank" quiz) as [fill |]; [| apply pens_ret].
  eapply writes_eq;
    [ repeat (apply pens_bind; [apply pens_text |]); apply pens_text
    | reflexivity ..].
Qed.

Lemma pens_quiz filename i quiz :
  writes filename (report_section i quiz)
    (all_encodable (report_section i quiz)) (write_quiz filename i quiz).
Proof.
  assert (Hplace : writes filename (placeholder_section i)
            (all_encodable (placeholder_section i))
            (_ <~ f_write filename
                    (T ("## Quiz " +++ str_of_nat (i + 1) +++ " - Invalid Quiz"
                        +++ nl +++ nl)) ;;
             _ <~ f_write filename
                    (T ("**Error:** This quiz could not be generated properly."
                        +++ nl +++ nl)) ;;
             f_write filename rule)).
  { eapply writes_eq;
      [ repeat (apply pens_bind; [apply pens_text |]); apply pens_text
      | reflexivity ..]. }
  destruct quiz as [| b | n | s | l | [| kv d]]; try exact Hplace.
  unfold write_quiz, report_section, quiz_section.
  eapply writes_eq;
    [ apply pens_bind; [apply pens_text |];
      apply pens_bind; [apply pens_text |];
      apply pens_bind; [apply pens_text |];
      apply pens_bind; [apply pens_mcq |];
      apply pens_bind; [apply pens_true_false |];
      apply pens_bind; [apply pens_matching |];
      apply pens_bind; [apply pens_fill_blank | apply pens_text]
    | reflexivity ..].
Qed.

Lemma pens_quizzes filename :
  forall quiz_data i,
    writes filename (List.concat (report_sections i quiz_data))
      (all_encodable (List.concat (report_sections i quiz_data)))
      (write_quizzes filename i quiz_data).
Proof.
  induction quiz_data as [| quiz rest IH]; intros i.
  - apply pens_ret.
  - cbn [write_quizzes report_sections List.concat].
    apply pens_bind; [apply pens_quiz | apply IH].
Qed.

(** What [export_quiz_to_markdown] does once the file is open: it writes
    the whole report, or stops at the first text that cannot be encoded,
    prints the fault and leaves what it has written. *)
Lemma export_quiz_to_markdown_run quiz_data filename w :
  open_fault w filename = None ->
  if all_encodable (report quiz_data)
  then export_quiz_to_markdown quiz_data filename w
       = (Ok true,
          appends filename (report quiz_data)
            (set_files (dict_set filename [] (files w)) w))
  else exists e k,
      1 <= k < List.length (report quiz_data)
      /\ export_quiz_to_markdown quiz_data filename w
         = (Ok false,
            snd (print ("Error exporting to markdown: " +++ exn_msg e)
                   (appends filename (firstn k (report quiz_data))
                      (set_files (dict_set filename [] (files w)) w)))).
Proof.
  intros Hopen.
  pose proof (pens_quizzes filename quiz_data 0
                (append_chunk filename
                   (Written (T ("# Generated Quiz" +++ nl +++ nl)))
                   (set_files (dict_set filename [] (files w)) w))) as Hw.
  unfold report, title.
  change (all_encodable
            (T ("# Generated Quiz" +++ nl +++ nl)
             :: List.concat (report_sections 0 quiz_data)))
    with (encodable (T ("# Generated Quiz" +++ nl +++ nl))
          && all_encodable (List.concat (report_sections 0 quiz_data))).
  rewrite encodable_T. cbn [andb].
  unfold export_quiz_to_markdown, try_except, iobind, open_w.
  rewrite Hopen, f_write_T.
  destruct (all_encodable (List.concat (report_sections 0 quiz_data))).
  - rewrite Hw. reflexivity.
  - destruct Hw as (e & k & Hk & ->).
    exists e, (S k). split; [cbn [List.length]; lia | reflexivity].
Qed.










End Report.

(* ===================================================================== *)
(** ** The package                                                       *)
(* ===================================================================== *)

Section PackageRuns.

Import QuizGenerator Package.

Lemma keeps_ret {A} (a : A) : keeps_faults (ret a).
Proof. intros w. reflexivity. Qed.

Lemma keeps_lift {A} (r : result A) : keeps_faults (lift r).
Proof. intros w. reflexivity. Qed.

Lemma keeps_bind {A B} (m : io A) (k : A -> io B) :
  keeps_faults m -> (forall a, keeps_faults (k a)) -> keeps_faults (iobind m k).
Proof.
  intros Hm Hk w. unfold iobind. specialize (Hm w).
  destruct (m w) as [[a | e] w1]; simpl in *.
  - now rewrite Hk.
  - exact Hm.
Qed.

Lemma keeps_try {A} (m : io A) (handler : exn -> io A) :
  keeps_faults m -> (forall e, keeps_faults (handler e)) ->
  keeps_faults (try_except m handler).
Proof.
  intros Hm Hh w. unfold try_except. specialize (Hm w).
  destruct (m w) as [[a | e] w1]; simpl in *.
  - exact Hm.
  - now rewrite Hh.
Qed.

Lemma keeps_open_w filename : keeps_faults (open_w filename).
Proof. intros w. unfold open_w. now destruct (open_fault w filename). Qed.

Lemma keeps_f_write filename t : keeps_faults (f_write filename t).
Proof. intros w. unfold f_write. now destruct (existsb is_surrogate t). Qed.

Lemma keeps_json_dump doc filename : keeps_faults (json_dump doc filename).
Proof. intros w. unfold json_dump. now destruct (dump_fault w doc). Qed.

Lemma keeps_print line : keeps_faults (print line).
Proof. intros w. reflexivity. Qed.

Create HintDb keeps discriminated.

#[local] Hint Resolve keeps_ret keeps_lift keeps_open_w keeps_f_write
  keeps_json_dump keeps_print : keeps.
#[local] Hint Extern 2 (keeps_faults (iobind _ _)) =>
  apply keeps_bind; [| intro] : keeps.
#[local] Hint Extern 2 (keeps_faults (try_except _ _)) =>
  apply keeps_try; [| intro] : keeps.

Lemma keeps_write_options filename :
  forall options j, keeps_faults (write_options filename j options).
Proof.
  induction options as [| option rest IH]; intros j;
    cbn [write_options]; auto 6 with keeps.
Qed.

Lemma keeps_write_pairs filename :
  forall pairs, keeps_faults (write_pairs filename pairs).
Proof.
  induction pairs as [| p rest IH]; cbn [write_pairs]; [auto with keeps |].
  destruct p; auto 6 with keeps.
Qed.

#[local] Hint Resolve keeps_write_options keeps_write_pairs : keeps.

Lemma keeps_write_quiz filename i quiz : keeps_faults (write_quiz filename i quiz).
Proof.
  assert (Hmcq : forall d, keeps_faults (write_mcq filename d)).
  { intros d. unfold write_mcq. destruct (variant "mcq" d) as [mcq |];
      [| auto with keeps].
    destruct (dict_get "options" mcq) as [[| | | | options |] |];
      auto 10 with keeps. }
  assert (Htf : forall d, keeps_faults (write_true_false filename d)).
  { intros d. unfold write_true_false.
    destruct (variant "true_false" d); auto 10 with keeps. }
  assert (Hma : forall d, keeps_faults (write_matching filename d)).
  { intros d. unfold write_matching. destruct (variant "matching" d) as [m |];
      [| auto with keeps].
    destruct (dict_get "pairs" m) as [[| | | | pairs |] |]; auto 10 with keeps. }
  assert (Hfb : forall d, keeps_faults (write_fill_blank filename d)).
  { intros d. unfold write_fill_blank.
    destruct (variant "fill_blank" d); auto 10 with keeps. }
  unfold write_quiz.
  destruct quiz as [| b | n | s | l | [| kv d]]; auto 20 with keeps.
Qed.

Lemma keeps_write_quizzes filename :
  forall quiz_data i, keeps_faults (write_quizzes filename i quiz_data).
Proof.
  induction quiz_data as [| quiz rest IH]; intros i; cbn [write_quizzes].
  - auto with keeps.
  - apply keeps_bind; [apply keeps_write_quiz | intro; apply IH].
Qed.

Lemma keeps_export_quiz_to_markdown quiz_data filename :
  keeps_faults (export_quiz_to_markdown quiz_data filename).
Proof.
  unfold export_quiz_to_markdown.
  pose proof (keeps_write_quizzes filename quiz_data 0). auto 10 with keeps.
Qed.

Lemma keeps_export_quiz_to_json quiz_data filename :
  keeps_faults (export_quiz_to_json quiz_data filename).
Proof. unfold export_quiz_to_json. auto 10 with keeps. Qed.

(** Whatever the batch: when the directory can be made and the summary
    file cannot be opened, [create_quiz_package] raises. *)
Lemma create_quiz_package_summary_fault quizzes output_dir w e :
  mkdir_fault w output_dir = None ->
  open_fault w
    (path_join output_dir
       ("quiz_summary_" +++ strftime_stamp (clock w (clock_reads w)) +++ ".json"))
  = Some e ->
  exists e' w', create_quiz_package quizzes output_dir w = (Raise e', w').
Proof.
  intros Hmk Hopen.
  unfold create_quiz_package, iobind at 1, makedirs. rewrite Hmk.
  unfold iobind at 1, now. cbn [clock clock_reads strftime_stamp].
  match goal with
  | |- context [iobind (export_quiz_to_json ?v ?f) ?k ?w1] =>
      pose proof (keeps_export_quiz_to_json v f w1) as Kj;
      destruct (export_quiz_to_json_returns v f w1) as (b1 & w2 & Ej);
      unfold iobind at 1; rewrite Ej in *
  end.
  match goal with
  | |- context [iobind (export_quiz_to_markdown ?v ?f) ?k ?w1] =>
      pose proof (keeps_export_quiz_to_markdown v f w1) as Km;
      destruct (export_quiz_to_markdown_returns v f w1) as (b2 & w3 & Em);
      unfold iobind at 1; rewrite Em in *
  end.
  simpl in Kj, Km.
  unfold iobind at 1, generate_quiz_summary, iobind at 1, now, lift.
  match goal with
  | |- context [summary_loop ?s0 quizzes] => destruct (summary_loop s0 quizzes)
  end; [| eauto].
  unfold iobind at 1, open_w. cbn [open_fault].
  rewrite Km, Kj, Hopen. eauto.
Qed.

(** C8. The summary is written outside any handler: whatever the batch,
    when the directory can be made and the summary file cannot be opened,
    [create_quiz_package] raises.  The two exports, for their part, answer
    a fault with [False] and a printed line, whatever the batch, the path
    and the world.  In the world where only the summary file is denied the
    exception leaves the call after the two exports have been written; in
    the world where only the exports are denied the call returns the
    directory and two lines are printed. *)
Theorem package_summary_fault_escapes :
  (forall quizzes output_dir w e,
      mkdir_fault w output_dir = None ->
      open_fault w
        (path_join output_dir
           ("quiz_summary_" +++ strftime_stamp (clock w (clock_reads w))
            +++ ".json"))
      = Some e ->
      exists e' w', create_quiz_package quizzes output_dir w = (Raise e', w'))
  /\ (forall quiz_data filename w,
      exists ok w', export_quiz_to_json quiz_data filename w = (Ok ok, w'))
  /\ (forall quiz_data filename w,
        exists ok w', export_quiz_to_markdown quiz_data filename w = (Ok ok, w'))
  /\ (exists w',
        create_quiz_package [PDict Examples.quiz_mcq_b] "quiz_exports"
          Examples.world_summary_denied
        = (Raise (Examples.denied Examples.summary_path), w')
        /\ List.map fst (files w')
           = ["quiz_exports/generated_quiz_20240101_120000.json";
              "quiz_exports/generated_quiz_20240101_120000.md"]
        /\ stdout w' = [])
  /\ (exists w',
        create_quiz_package [PDict Examples.quiz_mcq_b] "quiz_exports"
          Examples.world_exports_denied
        = (Ok "quiz_exports", w')
        /\ List.map fst (files w') = [Examples.summary_path]
        /\ stdout w'
           = ["Error exporting quiz: [Errno 13] Permission denied: "
              +++ "'quiz_exports/generated_quiz_20240101_120000.json'";
              "Error exporting to markdown: [Errno 13] Permission denied: "
              +++ "'quiz_exports/generated_quiz_20240101_120000.md'"]).
Proof.
  split; [| split; [| split; [| split]]].
  - apply create_quiz_package_summary_fault.
  - apply export_quiz_to_json_returns.
  - apply export_quiz_to_markdown_returns.
  - eexists. split; [vm_compute; reflexivity |]. split; reflexivity.
  - eexists. split; [vm_compute; reflexivity |]. split; reflexivity.
Qed.

Lemma package_summary_fault_escapes_witness :
  mkdir_fault Examples.world_summary_denied "quiz_exports" = None
  /\ open_fault Examples.world_summary_denied Examples.summary_path
     = Some (Examples.denied Examples.summary_path)
  /\ exists e' w',
      create_quiz_package [PDict Examples.quiz_mcq_b; PStr "oops"] "quiz_exports"
        Examples.world_summary_denied
      = (Raise e', w').
Proof.
  split; [reflexivity | split; [reflexivity |]].
  exact (proj1 package_summary_fault_escapes
           [PDict Examples.quiz_mcq_b; PStr "oops"] "quiz_exports"
           Examples.world_summary_denied _ eq_refl eq_refl).
Defined.

End PackageRuns.

(* ===================================================================== *)
(** ** More on the scorer                                                *)
(* ===================================================================== *)

Section ScoreExtras.

Import Utils.

Lemma dict_mem_get {A} (k : string) (d : list (string * A)) (v : A) :
  dict_get k d = Some v -> dict_mem k d = true.
Proof. unfold dict_mem. now intros ->. Qed.

Lemma dict_mem_none {A} (k : string) (d : list (string * A)) :
  dict_get k d = None -> dict_mem k d = false.
Proof. unfold dict_mem. now intros ->. Qed.

Lemma score_choice_block kind answers quiz_data s s' :
  score_choice kind answers quiz_data s = Ok s' -> block kind quiz_data s s'.
Proof.
  unfold score_choice, block.
  destruct (dict_get kind quiz_data) as [q |] eqn:E.
  - intros H. right. split; [exact (dict_mem_get _ _ _ E) |].
    inv_bind H as ca Hca. inv_bind H as lu Hlu. inv_bind H as lc Hlc.
    destruct (String.eqb lu lc).
    + injection H as <-. left. eauto.
    + inv_bind H as expl He. injection H as <-. right. eauto.
  - intros H. injection H as <-. left. split; [exact (dict_mem_none _ _ E) | auto].
Qed.

Lemma score_matching_block answers quiz_data s s' :
  score_matching answers quiz_data s = Ok s' -> block "matching" quiz_data s s'.
Proof.
  unfold score_matching, block.
  destruct (dict_get "matching" quiz_data) as [q |] eqn:E.
  - intros H. right. split; [exact (dict_mem_get _ _ _ E) |].
    inv_bind H as pairs Hp. inv_bind H as n Hn. inv_bind H as items Hi.
    inv_bind H as c Hc.
    destruct (Z.eqb c (Z.of_nat n)).
    + injection H as <-. left. eauto.
    + inv_bind H as expl He. injection H as <-. right. eauto.
  - intros H. injection H as <-. left. split; [exact (dict_mem_none _ _ E) | auto].
Qed.

Lemma score_fill_blank_block answers quiz_data s s' :
  score_fill_blank answers quiz_data s = Ok s' ->
  block "fill_blank" quiz_data s s'.
Proof.
  unfold score_fill_blank, block.
  destruct (dict_get "fill_blank" quiz_data) as [q |] eqn:E.
  - intros H. right. split; [exact (dict_mem_get _ _ _ E) |].
    inv_bind H as ca Hca. inv_bind H as lu Hlu. inv_bind H as lc Hlc.
    destruct (String.eqb (py_strip lu) (py_strip lc)).
    + injection H as <-. left. eauto.
    + inv_bind H as expl He. injection H as <-. right. eauto.
  - intros H. injection H as <-. left. split; [exact (dict_mem_none _ _ E) | auto].
Qed.

(** What a block does to the entries, to the counts and to the feedback. *)
Lemma block_effect kind quiz_data s s' :
  block kind quiz_data s s' ->
  (forall k, dict_mem k (detailed_results s')
             = (String.eqb k kind && dict_mem kind quiz_data)
               || dict_mem k (detailed_results s))
  /\ (explained s -> explained s')
  /\ feedback s' = feedback s
  /\ score_percentage s' = score_percentage s.
Proof.
  assert (Hset : forall (k : string) (d : detail) l,
             dict_mem k (dict_set kind d l)
             = (String.eqb k kind && true) || dict_mem k l).
  { intros k d l. unfold dict_mem. destruct (String.eqb_spec k kind) as [-> | Hne].
    - now rewrite dict_get_set_same.
    - now rewrite dict_get_set_other. }
  assert (Hexp : forall (d : detail) s0,
             (explanation d = None <-> correct d = true) ->
             explained s0 ->
             forall k d', dict_get k (dict_set kind d (detailed_results s0)) = Some d' ->
                          (explanation d' = None <-> correct d' = true)).
  { intros d s0 Hd Hs0 k d'. destruct (String.eqb_spec k kind) as [-> | Hne].
    - rewrite dict_get_set_same. now intros [= <-].
    - rewrite dict_get_set_other by exact Hne. apply Hs0. }
  intros [[Habs ->] | [Hpres [[msg ->] | [msg [expl ->]]]]].
  - split; [| split; [| split]]; auto.
    intros k. rewrite Habs, andb_false_r. reflexivity.
  - split; [| split; [| split]]; auto.
    + intros k. rewrite Hpres. apply Hset.
    + intros Hs k d'. simpl. apply (Hexp _ s); [simpl; tauto | exact Hs].
  - split; [| split; [| split]]; auto.
    + intros k. rewrite Hpres. apply Hset.
    + intros Hs k d'. simpl. apply (Hexp _ s); [| exact Hs].
      simpl. split; discriminate.
Qed.

Lemma credited_le_counted r kind :
  (0 <= credited r kind <= counted r kind)%Z /\ (counted r kind <= 1)%Z.
Proof.
  unfold credited, counted.
  destruct (dict_get kind (detailed_results r)) as [d |]; [destruct (correct d) |];
    lia.
Qed.

Lemma counted_mem r kind :
  counted r kind = if dict_mem kind (detailed_results r) then 1%Z else 0%Z.
Proof.
  unfold counted, dict_mem. now destruct (dict_get kind (detailed_results r)).
Qed.

(** X1. When the scorer returns, [detailed_results] has an entry for a
    variant kind exactly when the record has the kind, [total_questions]
    is the number of kinds the record has, [correct_answers] lies between
    0 and [total_questions], which is at most 4, an entry carries an
    explanation exactly when it is not correct, and [feedback] has one
    line. *)
Theorem score_counts_and_entries (answers quiz_data : dict) (r : score_result) :
  calculate_quiz_score answers quiz_data = Ok r ->
  (forall kind, In kind question_types ->
                dict_mem kind (detailed_results r) = dict_mem kind quiz_data)
  /\ total_questions r = Z.of_nat (List.length (present_kinds quiz_data))
  /\ (0 <= correct_answers r <= total_questions r)%Z
  /\ (total_questions r <= 4)%Z
  /\ explained r
  /\ List.length (feedback r) = 1.
Proof.
  intros H.
  destruct (score_accounting _ _ _ H) as [Hc Ht].
  destruct (calculate_quiz_score_inv _ _ _ H)
    as (s1 & s2 & s3 & s4 & H1 & H2 & H3 & H4 & _ & _ & Hd & _ & Hf).
  apply score_choice_block, block_effect in H1 as (M1 & E1 & F1 & _).
  apply score_choice_block, block_effect in H2 as (M2 & E2 & F2 & _).
  apply score_matching_block, block_effect in H3 as (M3 & E3 & F3 & _).
  apply score_fill_blank_block, block_effect in H4 as (M4 & E4 & F4 & _).
  assert (Hmem : forall kind, In kind question_types ->
            dict_mem kind (detailed_results r) = dict_mem kind quiz_data).
  { intros kind Hk. rewrite Hd, M4, M3, M2, M1. simpl.
    unfold question_types in Hk. simpl in Hk.
    destruct Hk as [<- | [<- | [<- | [<- | []]]]]; simpl;
      destruct (dict_mem "mcq" quiz_data), (dict_mem "true_false" quiz_data),
        (dict_mem "matching" quiz_data), (dict_mem "fill_blank" quiz_data);
      reflexivity. }
  pose proof (credited_le_counted r "mcq") as B1.
  pose proof (credited_le_counted r "true_false") as B2.
  pose proof (credited_le_counted r "matching") as B3.
  pose proof (credited_le_counted r "fill_blank") as B4.
  split; [exact Hmem | split; [| split; [lia | split; [lia | split]]]].
  - rewrite Ht, !counted_mem.
    rewrite !Hmem by (unfold question_types; simpl; tauto).
    unfold present_kinds, question_types. simpl.
    destruct (dict_mem "mcq" quiz_data), (dict_mem "true_false" quiz_data),
      (dict_mem "matching" quiz_data), (dict_mem "fill_blank" quiz_data);
      reflexivity.
  - intros kind d. rewrite Hd. apply E4, E3, E2, E1.
    intros k d0. discriminate.
  - rewrite Hf, F4, F3, F2, F1. reflexivity.
Qed.

Lemma score_counts_and_entries_witness :
  calculate_quiz_score Examples.answers_half_right Examples.quiz_matching_AB
  = Ok {| total_questions := 1; correct_answers := 0;
          score_percentage := PyFloat 0%float;
          detailed_results :=
            [("matching",
              {| correct := false;
                 detail_feedback := "Partially correct. You got 1/2 matches right.";
                 explanation := Some (PStr "A is 1 and B is 2") |})];
          feedback := ["You may need to review this topic more thoroughly."] |}
  /\ 1%Z = Z.of_nat (List.length (present_kinds Examples.quiz_matching_AB)).
Proof.
  split; [reflexivity |].
  exact (proj1 (proj2 (score_counts_and_entries
                         Examples.answers_half_right Examples.quiz_matching_AB
                         _ eq_refl))).
Defined.

End ScoreExtras.

Section ScoreTableFacts.

Import Utils.

(** The percentage and the feedback line as functions of the two counts. *)
Lemma score_percentage_of_counts answers quiz_data r :
  calculate_quiz_score answers quiz_data = Ok r ->
  let c := correct_answers r in
  let t := total_questions r in
  (0 <= c <= t)%Z /\ (t <= 4)%Z
  /\ score_percentage r
     = (if (t >? 0)%Z
        then PyFloat (PrimFloat.mul
                        (PrimFloat.div (float_of_Z c) (float_of_Z t)) 100%float)
        else PyInt 0)
  /\ feedback r = [overall_feedback (score_percentage r)].
Proof.
  intros H c t. subst c t.
  destruct (score_accounting _ _ _ H) as [Hc Ht].
  destruct (calculate_quiz_score_inv _ _ _ H)
    as (s1 & s2 & s3 & s4 & H1 & H2 & H3 & H4 & Ht4 & Hc4 & _ & Hp & Hf).
  apply score_choice_block, block_effect in H1 as (_ & _ & F1 & P1).
  apply score_choice_block, block_effect in H2 as (_ & _ & F2 & P2).
  apply score_matching_block, block_effect in H3 as (_ & _ & F3 & P3).
  apply score_fill_blank_block, block_effect in H4 as (_ & _ & F4 & P4).
  pose proof (credited_le_counted r "mcq") as B1.
  pose proof (credited_le_counted r "true_false") as B2.
  pose proof (credited_le_counted r "matching") as B3.
  pose proof (credited_le_counted r "fill_blank") as B4.
  split; [lia | split; [lia | split]].
  - rewrite Hp. unfold percentage. rewrite <- Ht4, <- Hc4.
    destruct (total_questions r >? 0)%Z; [reflexivity |].
    rewrite P4, P3, P2, P1. reflexivity.
  - rewrite Hf, Hp, F4, F3, F2, F1. reflexivity.
Qed.

(** X2. The feedback line is the one exact arithmetic gives: for every
    pair of counts the scorer can reach, the binary64 percentage falls on
    the same side of 90, 70 and 50 as the fraction itself.  The
    percentage is never negative, and it reaches 100 exactly when there
    is a question and every question is answered correctly. *)
Theorem feedback_line_is_exact (answers quiz_data : dict) (r : score_result) :
  calculate_quiz_score answers quiz_data = Ok r ->
  feedback r = [exact_line (correct_answers r) (total_questions r)]
  /\ num_ge (score_percentage r) 0 = true
  /\ (num_ge (score_percentage r) 100 = true
      <-> (0 < total_questions r)%Z /\ correct_answers r = total_questions r)
  /\ (score_percentage r = PyInt 0 <-> total_questions r = 0%Z).
Proof.
  intros H.
  destruct (score_percentage_of_counts _ _ _ H) as (Hc & Ht & Hp & Hf).
  cbv zeta in *. rewrite Hf, Hp. clear Hf Hp H.
  destruct Hc as [Hc0 Hct].
  assert (Ht0 : (0 <= total_questions r)%Z) by lia.
  set (t := total_questions r) in *. set (c := correct_answers r) in *.
  clearbody t c.
  assert (Htv : t = 0%Z \/ t = 1%Z \/ t = 2%Z \/ t = 3%Z \/ t = 4%Z) by lia.
  assert (Hcv : c = 0%Z \/ c = 1%Z \/ c = 2%Z \/ c = 3%Z \/ c = 4%Z) by lia.
  destruct Htv as [-> | [-> | [-> | [-> | ->]]]];
    destruct Hcv as [-> | [-> | [-> | [-> | ->]]]]; try lia;
    vm_compute; repeat split; try reflexivity; try lia; try discriminate;
    intros; try lia; try discriminate; intuition (try lia; try discriminate).
Qed.

Lemma feedback_line_is_exact_witness :
  calculate_quiz_score Examples.answers_B Examples.quiz_mcq_b
  = Ok {| total_questions := 1; correct_answers := 1;
          score_percentage := PyFloat 100%float;
          detailed_results :=
            [("mcq", {| correct := true; detail_feedback := "Correct!";
                        explanation := None |})];
          feedback := ["Excellent! You have a strong understanding of this topic."] |}
  /\ ["Excellent! You have a strong understanding of this topic."]
     = [exact_line 1 1].
Proof.
  split; [reflexivity |].
  exact (proj1 (feedback_line_is_exact Examples.answers_B Examples.quiz_mcq_b
                  _ eq_refl)).
Defined.

End ScoreTableFacts.

Section ScoreFrame.

Import Utils.

Lemma in_question_types kind :
  In kind question_types
  <-> kind = "mcq" \/ kind = "true_false" \/ kind = "matching"
      \/ kind = "fill_blank".
Proof. unfold question_types. simpl. intuition congruence. Qed.

(** X3. The scorer reads a submission only at the kinds the record has:
    two submissions that agree there get the same result, fault or not.
    An answer given for a variant the record lacks, or any other key, is
    never looked at. *)
Theorem scorer_reads_present_kinds_only (answers answers' quiz_data : dict) :
  same_answers quiz_data answers answers' ->
  calculate_quiz_score answers quiz_data = calculate_quiz_score answers' quiz_data.
Proof.
  intros Hsame.
  assert (Hchoice : forall kind s,
             In kind question_types ->
             score_choice kind answers quiz_data s
             = score_choice kind answers' quiz_data s).
  { intros kind s Hk. unfold score_choice, get_str.
    destruct (dict_get kind quiz_data) as [q |] eqn:E; [| reflexivity].
    now rewrite (Hsame kind Hk (dict_mem_get _ _ _ E)). }
  assert (Hmatch : forall s,
             score_matching answers quiz_data s = score_matching answers' quiz_data s).
  { intros s. unfold score_matching.
    destruct (dict_get "matching" quiz_data) as [q |] eqn:E; [| reflexivity].
    rewrite (Hsame "matching") by
      (try exact (dict_mem_get _ _ _ E); apply in_question_types; tauto).
    reflexivity. }
  assert (Hfill : forall s,
             score_fill_blank answers quiz_data s
             = score_fill_blank answers' quiz_data s).
  { intros s. unfold score_fill_blank, get_str.
    destruct (dict_get "fill_blank" quiz_data) as [q |] eqn:E; [| reflexivity].
    rewrite (Hsame "fill_blank") by
      (try exact (dict_mem_get _ _ _ E); apply in_question_types; tauto).
    reflexivity. }
  unfold calculate_quiz_score.
  rewrite (Hchoice "mcq") by (apply in_question_types; tauto).
  destruct (score_choice "mcq" answers' quiz_data initial_score) as [s1 |];
    [| reflexivity].
  cbn [bind]. rewrite (Hchoice "true_false") by (apply in_question_types; tauto).
  destruct (score_choice "true_false" answers' quiz_data s1) as [s2 |];
    [| reflexivity].
  cbn [bind]. rewrite Hmatch.
  destruct (score_matching answers' quiz_data s2) as [s3 |]; [| reflexivity].
  cbn [bind]. now rewrite Hfill.
Qed.

Lemma scorer_reads_present_kinds_only_witness :
  same_answers Examples.quiz_mcq_b Examples.answers_B
    [("mcq", PStr "B"); ("matching", PInt 7); ("comment", PNone)]
  /\ calculate_quiz_score Examples.answers_B Examples.quiz_mcq_b
     = calculate_quiz_score
         [("mcq", PStr "B"); ("matching", PInt 7); ("comment", PNone)]
         Examples.quiz_mcq_b.
Proof.
  assert (H : same_answers Examples.quiz_mcq_b Examples.answers_B
                [("mcq", PStr "B"); ("matching", PInt 7); ("comment", PNone)]).
  { intros kind Hk Hp. apply in_question_types in Hk.
    destruct Hk as [-> | [-> | [-> | ->]]]; try reflexivity; discriminate. }
  split; [exact H |].
  exact (scorer_reads_present_kinds_only _ _ _ H).
Defined.

Lemma py_lower_empty (s : string) : py_lower s = EmptyString <-> s = EmptyString.
Proof. destruct s; simpl; split; intros H; try discriminate; reflexivity. Qed.

(** X4. A variant left unanswered is compared with the empty string: when
    the scorer returns, an MCQ or True/False entry without a submission is
    correct exactly when the stored [correct_answer] is empty or missing,
    and a Fill-in-the-blank entry exactly when the stored answer is blank
    once trimmed. *)
Theorem unanswered_is_empty_answer (answers quiz_data : dict) (r : score_result) :
  calculate_quiz_score answers quiz_data = Ok r ->
  forall kind q,
    In kind ["mcq"; "true_false"; "fill_blank"] ->
    dict_get kind quiz_data = Some q ->
    dict_get kind answers = None ->
    exists ca d,
      py_get q (PStr "correct_answer") (PStr EmptyString) = Ok (PStr ca)
      /\ dict_get kind (detailed_results r) = Some d
      /\ (correct d = true
          <-> (if String.eqb kind "fill_blank" then py_strip ca else ca)
              = EmptyString).
Proof.
  intros H kind q Hk Hq Hnone.
  destruct (calculate_quiz_score_inv _ _ _ H)
    as (s1 & s2 & s3 & s4 & H1 & H2 & H3 & H4 & _ & _ & Hd & _).
  assert (Hua : get_str kind answers = PStr EmptyString).
  { unfold get_str. now rewrite Hnone. }
  destruct Hk as [<- | [<- | [<- | []]]]; cbn [String.eqb Ascii.eqb Bool.eqb].
  - destruct (score_choice_inv _ _ _ _ _ _ Hq H1) as (ua & ca & Hua' & Hca & Hcase).
    rewrite Hua in Hua'. injection Hua' as <-.
    rewrite Hd, (detail_of_mcq _ _ _ _ _ _ H2 H3 H4).
    destruct Hcase as [[E S] | [E S]];
      apply settles_detail in S as (d & Hget & Hok & _); exists ca, d;
      (split; [exact Hca | split; [exact Hget |]]); simpl; rewrite Hok.
    + split; [intros _ | reflexivity]. apply py_lower_empty. now rewrite <- E.
    + split; [discriminate | intros ->]. now destruct E.
  - destruct (score_choice_inv _ _ _ _ _ _ Hq H2) as (ua & ca & Hua' & Hca & Hcase).
    rewrite Hua in Hua'. injection Hua' as <-.
    rewrite Hd, (detail_of_true_false _ _ _ _ _ H3 H4).
    destruct Hcase as [[E S] | [E S]];
      apply settles_detail in S as (d & Hget & Hok & _); exists ca, d;
      (split; [exact Hca | split; [exact Hget |]]); simpl; rewrite Hok.
    + split; [intros _ | reflexivity]. apply py_lower_empty. now rewrite <- E.
    + split; [discriminate | intros ->]. now destruct E.
  - destruct (score_fill_blank_inv _ _ _ _ _ Hq H4)
      as (ua & ca & Hua' & Hca & Hcase).
    rewrite Hua in Hua'. injection Hua' as <-.
    rewrite Hd. rewrite !py_strip_lower in Hcase.
    destruct Hcase as [[E S] | [E S]];
      apply settles_detail in S as (d & Hget & Hok & _); exists ca, d;
      (split; [exact Hca | split; [exact Hget |]]); rewrite Hok.
    + split; [intros _ | reflexivity]. apply py_lower_empty. now rewrite <- E.
    + split; [discriminate | intros Hs]. destruct E. now rewrite Hs.
Qed.

Lemma unanswered_is_empty_answer_witness :
  let quiz := [("mcq", PDict [("question", PStr "Which one?")])] in
  exists r d,
    calculate_quiz_score [] quiz = Ok r
    /\ dict_get "mcq" (detailed_results r) = Some d
    /\ correct d = true.
Proof.
  intros quiz.
  destruct (calculate_quiz_score [] quiz) as [r | e] eqn:H; [| discriminate].
  destruct (unanswered_is_empty_answer [] quiz r H "mcq" _
              (or_introl eq_refl) eq_refl eq_refl)
    as (ca & d & Hca & Hget & Hiff).
  exists r, d. split; [reflexivity | split; [exact Hget |]].
  apply Hiff. injection Hca as <-. reflexivity.
Defined.

End ScoreFrame.

(* ===================================================================== *)
(** ** More on the validator                                             *)
(* ===================================================================== *)

Section ValidationExtras.

Import Utils.

(** X5. The validator looks at the presence of [topic], [difficulty] and
    the four kinds, and at the MCQ and True/False entries; two records
    alike in these get the same result.  What a matching or
    fill-in-the-blank entry holds, and every other key, is never read. *)
Theorem validator_reads_presence_and_two_entries (quiz_data quiz_data' : dict) :
  same_for_validator quiz_data quiz_data' ->
  validate_quiz_structure quiz_data = validate_quiz_structure quiz_data'.
Proof.
  intros (Hmem & Hmcq & Htf).
  unfold validate_quiz_structure, check_mcq, check_true_false.
  rewrite Hmcq, Htf.
  unfold required_fields, question_types in *. simpl in Hmem. simpl.
  rewrite !(Hmem "topic"), !(Hmem "difficulty"), !(Hmem "mcq"),
    !(Hmem "true_false"), !(Hmem "matching"), !(Hmem "fill_blank") by tauto.
  reflexivity.
Qed.

Lemma validator_reads_presence_and_two_entries_witness :
  same_for_validator
    [("topic", PStr "GMP"); ("difficulty", PStr "Expert");
     ("matching", PDict [("pairs", PList [])])]
    [("difficulty", PNone); ("matching", PInt 3); ("topic", PList []);
     ("note", PStr "x")]
  /\ validate_quiz_structure
       [("topic", PStr "GMP"); ("difficulty", PStr "Expert");
        ("matching", PDict [("pairs", PList [])])]
     = validate_quiz_structure
         [("difficulty", PNone); ("matching", PInt 3); ("topic", PList []);
          ("note", PStr "x")].
Proof.
  assert (H : same_for_validator
                [("topic", PStr "GMP"); ("difficulty", PStr "Expert");
                 ("matching", PDict [("pairs", PList [])])]
                [("difficulty", PNone); ("matching", PInt 3); ("topic", PList []);
                 ("note", PStr "x")]).
  { split; [| split; reflexivity].
    intros key Hk. simpl in Hk.
    destruct Hk as [<- | [<- | [<- | [<- | [<- | [<- | []]]]]]]; reflexivity. }
  split; [exact H |].
  exact (validator_reads_presence_and_two_entries _ _ H).
Defined.

Lemma py_in_true_false (answer : pyval) :
  py_in answer [PStr "True"; PStr "False"] = true
  <-> answer = PStr "True" \/ answer = PStr "False".
Proof.
  unfold py_in. cbn [existsb]. rewrite orb_false_r, orb_true_iff. split.
  - intros [H | H]; destruct answer; cbn [py_eq] in H; try discriminate;
      apply String.eqb_eq in H; subst; auto.
  - intros [-> | ->]; cbn [py_eq]; rewrite String.eqb_refl; auto.
Qed.

Lemma check_mcq_clean_iff quiz_data mcq r r' :
  dict_get "mcq" quiz_data = Some (PDict mcq) ->
  check_mcq quiz_data r = Ok r' ->
  (warnings r' = warnings r <-> mcq_clean mcq)
  /\ exists extra, warnings r' = warnings r ++ extra.
Proof.
  unfold check_mcq, mcq_clean. intros -> H.
  rewrite all_keys_in_dict in H. cbn [bind forallb] in H.
  assert (Hneq : forall (l : list string) x, l ++ [x] = l -> False).
  { intros l x E. apply (f_equal (@List.length _)) in E.
    rewrite length_app in E. simpl in E. lia. }
  destruct (dict_mem "question" mcq) eqn:Eq; simpl in H.
  - unfold dict_mem at 1 in H.
    destruct (dict_get "options" mcq) as [options |] eqn:Eo; simpl in H.
    + destruct (dict_mem "correct_answer" mcq) eqn:Ec; simpl in H.
      * inv_bind H as n Hn. destruct (Nat.eqb_spec n 4) as [-> | Hne];
          simpl in H; injection H as <-.
        -- split; [| exists []; now rewrite app_nil_r].
           split; [intros _ | reflexivity]. eauto 6.
        -- split; [| simpl; eauto].
           simpl. split; [intros E; now apply Hneq in E |].
           intros (_ & _ & o & [= <-] & Ho). rewrite Hn in Ho.
           injection Ho as ->. contradiction.
      * injection H as <-. split; [| simpl; eauto].
        simpl. split; [intros E; now apply Hneq in E |].
        intros (_ & Hc & _). discriminate.
    + injection H as <-. split; [| simpl; eauto].
      simpl. split; [intros E; now apply Hneq in E |].
      intros (_ & _ & o & Ho & _). discriminate.
  - injection H as <-. split; [| simpl; eauto].
    simpl. split; [intros E; now apply Hneq in E |].
    intros (Hq & _). discriminate.
Qed.

Lemma check_true_false_clean_iff quiz_data tf r r' :
  dict_get "true_false" quiz_data = Some (PDict tf) ->
  check_true_false quiz_data r = Ok r' ->
  (warnings r' = warnings r <-> true_false_clean tf).
Proof.
  unfold check_true_false, true_false_clean. intros -> H.
  rewrite all_keys_in_dict in H. cbn [bind forallb] in H.
  assert (Hneq : forall (l : list string) x, l ++ [x] = l -> False).
  { intros l x E. apply (f_equal (@List.length _)) in E.
    rewrite length_app in E. simpl in E. lia. }
  destruct (dict_mem "question" tf) eqn:Eq; cbn [andb negb] in H.
  - unfold dict_mem in H. cbn [py_get] in H.
    destruct (dict_get "correct_answer" tf) as [answer |] eqn:Ea;
      cbn [andb negb bind] in H.
    + destruct (py_in answer [PStr "True"; PStr "False"]) eqn:Ein;
        cbn [negb] in H; injection H as <-.
      * apply py_in_true_false in Ein.
        split; [intros _ | reflexivity].
        split; [reflexivity |]. destruct Ein as [-> | ->]; auto.
      * cbn [warnings add_warning].
        split; [intros E; now apply Hneq in E |].
        intros (_ & Hans).
        assert (Hin : py_in answer [PStr "True"; PStr "False"] = true).
        { apply py_in_true_false. destruct Hans as [[= ->] | [= ->]]; auto. }
        congruence.
    + injection H as <-. cbn [warnings add_warning].
      split; [intros E; now apply Hneq in E |].
      intros (_ & [Hc | Hc]); discriminate.
  - injection H as <-. cbn [warnings add_warning].
    split; [intros E; now apply Hneq in E |].
    intros (Hq & _). discriminate.
Qed.

(** X6. When the validator returns on a record whose MCQ and True/False
    entries are objects, it gives no warning exactly when the MCQ, if
    there is one, has its three fields and four options, and the
    True/False entry, if there is one, has a question and the string True
    or the string False as its answer: any other spelling, and the JSON
    booleans, are warned about. *)
Theorem no_warning_iff_clean (quiz_data : dict) (r : validation_result) :
  validate_quiz_structure quiz_data = Ok r ->
  variants_are_objects quiz_data ->
  (warnings r = []
   <-> (forall mcq, dict_get "mcq" quiz_data = Some (PDict mcq) -> mcq_clean mcq)
       /\ (forall tf, dict_get "true_false" quiz_data = Some (PDict tf) ->
                      true_false_clean tf)).
Proof.
  intros H [Hom Hot]. unfold validate_quiz_structure in H.
  inv_bind H as r1 H1. inv_bind H as r2 H2. injection H as <-.
  match type of H1 with check_mcq _ ?r0 = _ =>
    assert (W0 : warnings r0 = []) by
      (unfold required_fields, add_error; simpl;
       repeat match goal with
              | |- context [if ?b then _ else _] => destruct b
              | |- context [match ?l with [] => _ | _ :: _ => _ end] =>
                  destruct l
              end; reflexivity);
    set (r0' := r0) in *; clearbody r0'
  end.
  assert (M : (forall mcq, dict_get "mcq" quiz_data = Some (PDict mcq) ->
                           (warnings r1 = [] <-> mcq_clean mcq))
              /\ exists extra, warnings r1 = extra
                               /\ (dict_get "mcq" quiz_data = None -> extra = [])).
  { destruct (dict_get "mcq" quiz_data) as [v |] eqn:Em.
    - destruct (Hom v eq_refl) as (mcq & -> & _).
      destruct (check_mcq_clean_iff _ _ _ _ Em H1) as (Hiff & extra & He).
      rewrite W0 in *. split.
      + intros mcq' [= <-]. exact Hiff.
      + exists (warnings r1). split; [reflexivity | discriminate].
    - unfold check_mcq in H1. rewrite Em in H1. injection H1 as <-.
      split; [discriminate |]. exists []. auto. }
  destruct M as (Mcq & extra & Hextra & Hnone).
  assert (Tf : (forall tf, dict_get "true_false" quiz_data = Some (PDict tf) ->
                           (warnings r2 = warnings r1 <-> true_false_clean tf))
               /\ (dict_get "true_false" quiz_data = None -> r2 = r1)
               /\ exists more, warnings r2 = warnings r1 ++ more).
  { split; [| split].
    - intros tf Ht. exact (check_true_false_clean_iff _ _ _ _ Ht H2).
    - intros Ht. unfold check_true_false in H2. rewrite Ht in H2.
      now injection H2 as <-.
    - exact (check_true_false_warnings _ _ _ H2). }
  destruct Tf as (Tfc & Tfn & more & Hmore).
  split.
  - intros Hw. rewrite Hmore in Hw. apply app_eq_nil in Hw as [Hw1 Hw2].
    split.
    + intros mcq Hm. now apply (Mcq mcq Hm).
    + intros tf Ht. apply (Tfc tf Ht). now rewrite Hmore, Hw2, app_nil_r.
  - intros [Cm Ct].
    assert (W1 : warnings r1 = []).
    { destruct (dict_get "mcq" quiz_data) as [v |] eqn:Em.
      - destruct (Hom v eq_refl) as (mcq & -> & _).
        apply (Mcq mcq eq_refl), Cm. reflexivity.
      - rewrite Hextra. now apply Hnone. }
    destruct (dict_get "true_false" quiz_data) as [v |] eqn:Et.
    + specialize (Hot v eq_refl). destruct v; try discriminate.
      rewrite <- W1. apply (Tfc d eq_refl), Ct. reflexivity.
    + now rewrite (Tfn eq_refl).
Qed.

Lemma no_warning_iff_clean_witness :
  let quiz := [("topic", PStr "GMP"); ("difficulty", PStr "Expert");
               ("true_false", PDict [("question", PStr "Is it?");
                                     ("correct_answer", PBool true)])] in
  exists r,
    validate_quiz_structure quiz = Ok r
    /\ variants_are_objects quiz
    /\ is_valid r = true
    /\ warnings r <> [].
Proof.
  intros quiz.
  destruct (validate_quiz_structure quiz) as [r | e] eqn:H; [| discriminate].
  assert (Hobj : variants_are_objects quiz).
  { split; intros v Hv; [discriminate |]. injection Hv as <-. reflexivity. }
  exists r. split; [reflexivity | split; [exact Hobj | split]].
  - injection H as <-. reflexivity.
  - intros Hw. apply (no_warning_iff_clean quiz r H Hobj) in Hw as [_ Ht].
    destruct (Ht _ eq_refl) as (_ & [Hc | Hc]); discriminate.
Defined.

End ValidationExtras.

(* ===================================================================== *)
(** ** The summary                                                       *)
(* ===================================================================== *)

Section SummaryExtras.

Import Utils Package.

Lemma py_eq_key (a b : pyval) :
  hashable a = true -> hashable b = true ->
  (py_eq a b = true <-> key_of a = key_of b).
Proof.
  destruct a as [| x | m | s | l | d], b as [| y | n | t | l' | d'];
    intros Ha Hb; try discriminate; cbn [py_eq key_of];
    (split; intros H; [| try injection H as H]);
    try discriminate; try reflexivity;
    try (apply Bool.eqb_prop in H); try (apply Z.eqb_eq in H);
    try (apply String.eqb_eq in H); try (now subst);
    try (now rewrite H); try (now apply Z.eqb_eq);
    try (now apply String.eqb_eq).
  destruct x, y; try reflexivity; discriminate.
Qed.

Lemma py_eq_same_class (k k' v : pyval) :
  hashable k = true -> hashable k' = true -> hashable v = true ->
  py_eq k' k = true -> py_eq k' v = py_eq k v.
Proof.
  intros Hk Hk' Hv E. apply (py_eq_key _ _ Hk' Hk) in E.
  destruct (py_eq k v) eqn:E1.
  - apply (py_eq_key _ _ Hk Hv) in E1. apply (py_eq_key _ _ Hk' Hv). congruence.
  - destruct (py_eq k' v) eqn:E2; [| reflexivity].
    apply (py_eq_key _ _ Hk' Hv) in E2.
    assert (E3 : py_eq k v = true) by (apply (py_eq_key _ _ Hk Hv); congruence).
    congruence.
Qed.

(** One more occurrence of [k]: its count goes up by one, the others stay. *)
Lemma hist_bump_count (k v : pyval) (h : list (pyval * Z)) :
  hashable k = true -> hashable v = true -> hashable_keys h ->
  hist_count v (hist_bump k h)
  = (hist_count v h + if py_eq k v then 1 else 0)%Z
  /\ hist_total (hist_bump k h) = (hist_total h + 1)%Z
  /\ hashable_keys (hist_bump k h).
Proof.
  intros Hk Hv. unfold hist_count, hist_total, hashable_keys.
  induction h as [| [k' n] h IH]; intros Hh.
  - cbn [hist_bump find fst List.map snd].
    split; [| split].
    + destruct (py_eq k v); reflexivity.
    + reflexivity.
    + constructor; [exact Hk | constructor].
  - inversion_clear Hh as [| ? ? Hk' Hrest]. cbn [fst] in Hk'.
    specialize (IH Hrest) as (IHc & IHt & IHk).
    cbn [hist_bump]. destruct (py_eq k' k) eqn:E.
    + cbn [find fst List.map snd sumZ fold_right].
      rewrite <- (py_eq_same_class k k' v Hk Hk' Hv E).
      split; [| split].
      * destruct (py_eq k' v); lia.
      * unfold sumZ. simpl. lia.
      * constructor; assumption.
    + cbn [find fst List.map snd sumZ fold_right].
      split; [| split].
      * destruct (py_eq k' v) eqn:E1; [| exact IHc].
        destruct (py_eq k v) eqn:E2; [| lia].
        apply (py_eq_key _ _ Hk' Hv) in E1. apply (py_eq_key _ _ Hk Hv) in E2.
        assert (E3 : py_eq k' k = true) by (apply (py_eq_key _ _ Hk' Hk); congruence).
        congruence.
      * unfold sumZ in *. simpl. simpl in IHt. lia.
      * constructor; assumption.
Qed.

Lemma count_incr_get (k k' : string) (h : list (string * Z)) :
  count_of k' (count_incr k h)
  = (count_of k' h + if String.eqb k' k then 1 else 0)%Z.
Proof.
  unfold count_of, count_incr. destruct (String.eqb_spec k' k) as [-> | Hne].
  - rewrite dict_get_set_same. reflexivity.
  - rewrite dict_get_set_other by exact Hne. lia.
Qed.

Lemma count_kinds (d : dict) (h : list (string * Z)) (kind : string) :
  count_of kind
    (fold_left (fun h q_type => if dict_mem q_type d then count_incr q_type h else h)
       question_types h)
  = (count_of kind h
     + if str_mem kind question_types && dict_mem kind d then 1 else 0)%Z.
Proof.
  unfold question_types, str_mem. cbn [fold_left existsb].
  destruct (dict_mem "mcq" d) eqn:M1, (dict_mem "true_false" d) eqn:M2,
    (dict_mem "matching" d) eqn:M3, (dict_mem "fill_blank" d) eqn:M4;
    rewrite ?count_incr_get;
    destruct (String.eqb_spec kind "mcq") as [-> | N1];
    try (rewrite M1; cbn; lia);
    destruct (String.eqb_spec kind "true_false") as [-> | N2];
    try (rewrite M2; cbn; lia);
    destruct (String.eqb_spec kind "matching") as [-> | N3];
    try (rewrite M3; cbn; lia);
    destruct (String.eqb_spec kind "fill_blank") as [-> | N4];
    try (rewrite M4; cbn; lia); cbn; lia.
Qed.

(** The step of the loop on one entry. *)
Lemma summary_step_ok s quiz s' :
  summary_step s quiz = Ok s' ->
  exists d,
    quiz = PDict d
    /\ hashable (field_or_unknown "topic" quiz) = true
    /\ hashable (field_or_unknown "difficulty" quiz) = true
    /\ topics s' = hist_bump (field_or_unknown "topic" quiz) (topics s)
    /\ difficulties s'
       = hist_bump (field_or_unknown "difficulty" quiz) (difficulties s)
    /\ summary_question_types s'
       = fold_left
           (fun h q_type => if dict_mem q_type d then count_incr q_type h else h)
           question_types (summary_question_types s)
    /\ total_quizzes s' = total_quizzes s
    /\ generation_timestamp s' = generation_timestamp s.
Proof.
  unfold summary_step. intros H.
  inv_bind H as topic Ht. apply py_get_str_ok in Ht as (d & -> & ->).
  inv_bind H as topics' Hts. inv_bind H as difficulty Hd.
  injection Hd as <-. inv_bind H as difficulties' Hds. injection H as <-.
  unfold hist_incr in Hts, Hds. cbn [field_or_unknown].
  destruct (hashable match dict_get "topic" d with
                     | Some y => y
                     | None => PStr "Unknown"
                     end) eqn:E1; [| discriminate].
  destruct (hashable match dict_get "difficulty" d with
                     | Some x => x
                     | None => PStr "Unknown"
                     end) eqn:E2; [| discriminate].
  injection Hts as <-. injection Hds as <-.
  exists d. cbn. auto 10.
Qed.

Lemma summary_step_total s quiz :
  summarisable quiz -> exists s', summary_step s quiz = Ok s'.
Proof.
  intros (Hd & Ht & Hf). destruct quiz as [| | | | | d]; try discriminate.
  unfold summary_step, hist_incr. cbn [py_get bind field_or_unknown] in *.
  rewrite Ht. cbn [bind]. rewrite Hf. cbn [bind]. eauto.
Qed.

Lemma summary_loop_facts :
  forall quizzes s0 s,
    summary_loop s0 quizzes = Ok s ->
    hashable_keys (topics s0) -> hashable_keys (difficulties s0) ->
    Forall summarisable quizzes
    /\ total_quizzes s = total_quizzes s0
    /\ generation_timestamp s = generation_timestamp s0
    /\ (forall v, hashable v = true ->
                  hist_count v (topics s)
                  = (hist_count v (topics s0)
                     + Z.of_nat (occurrences "topic" v quizzes))%Z)
    /\ (forall v, hashable v = true ->
                  hist_count v (difficulties s)
                  = (hist_count v (difficulties s0)
                     + Z.of_nat (occurrences "difficulty" v quizzes))%Z)
    /\ hist_total (topics s)
       = (hist_total (topics s0) + Z.of_nat (List.length quizzes))%Z
    /\ hist_total (difficulties s)
       = (hist_total (difficulties s0) + Z.of_nat (List.length quizzes))%Z
    /\ (forall kind,
           count_of kind (summary_question_types s)
           = (count_of kind (summary_question_types s0)
              + if str_mem kind question_types
                then Z.of_nat (having kind quizzes) else 0)%Z).
Proof.
  induction quizzes as [| quiz rest IH]; intros s0 s H Ht0 Hd0.
  - injection H as <-. unfold occurrences, having. cbn [filter List.length].
    repeat split; auto; intros; try lia.
    destruct (str_mem kind question_types); lia.
  - cbn [summary_loop] in H. inv_bind H as s1 H1.
    destruct (summary_step_ok _ _ _ H1)
      as (d & -> & Hht & Hhd & Et & Ed & Eq & En & Eg).
    destruct (hist_bump_count _ (PStr "x") (topics s0) Hht eq_refl Ht0)
      as (_ & Tt & Kt).
    destruct (hist_bump_count _ (PStr "x") (difficulties s0) Hhd eq_refl Hd0)
      as (_ & Td & Kd).
    rewrite <- Et in Kt, Tt. rewrite <- Ed in Kd, Td.
    destruct (IH s1 s H Kt Kd) as (Hall & Hn & Hg & Hct & Hcd & Htt & Htd & Hk).
    split; [| split; [| split; [| split; [| split; [| split; [| split]]]]]].
    + constructor; [| exact Hall]. repeat split; assumption.
    + congruence.
    + congruence.
    + intros v Hv. rewrite (Hct v Hv), Et.
      destruct (hist_bump_count _ v (topics s0) Hht Hv Ht0) as (-> & _).
      unfold occurrences. cbn [filter].
      destruct (py_eq (field_or_unknown "topic" (PDict d)) v); cbn [List.length];
        lia.
    + intros v Hv. rewrite (Hcd v Hv), Ed.
      destruct (hist_bump_count _ v (difficulties s0) Hhd Hv Hd0) as (-> & _).
      unfold occurrences. cbn [filter].
      destruct (py_eq (field_or_unknown "difficulty" (PDict d)) v);
        cbn [List.length]; lia.
    + rewrite Htt, Tt. cbn [List.length]. lia.
    + rewrite Htd, Td. cbn [List.length]. lia.
    + intros kind. rewrite (Hk kind), Eq, count_kinds.
      unfold having. cbn [filter].
      destruct (str_mem kind question_types); cbn [andb]; [| lia].
      destruct (dict_mem kind d); cbn [List.length]; lia.
Qed.

Lemma summary_loop_total :
  forall quizzes s0,
    Forall summarisable quizzes -> exists s, summary_loop s0 quizzes = Ok s.
Proof.
  induction quizzes as [| quiz rest IH]; intros s0 Hall.
  - simpl. eauto.
  - inversion_clear Hall as [| ? ? Hq Hrest]. cbn [summary_loop].
    destruct (summary_step_total s0 quiz Hq) as (s1 & ->). cbn [bind].
    now apply IH.
Qed.

(** X7. When [generate_quiz_summary] returns, [total_quizzes] is the length
    of the batch; the count of a value in the topic (difficulty) histogram
    is the number of entries whose topic (difficulty), "Unknown" when
    missing, equals that value, so the counts of each histogram add up to
    the length of the batch; the count of a variant kind is the number of
    entries that have the key; and the timestamp is the clock's reading at
    the call. *)
Theorem summary_counts_occurrences (quizzes : list pyval) (w w' : world)
  (s : summary) :
  generate_quiz_summary quizzes w = (Ok s, w') ->
  total_quizzes s = List.length quizzes
  /\ generation_timestamp s = isoformat (clock w (clock_reads w))
  /\ (forall v, hashable v = true ->
                hist_count v (topics s)
                = Z.of_nat (occurrences "topic" v quizzes)
                /\ hist_count v (difficulties s)
                   = Z.of_nat (occurrences "difficulty" v quizzes))
  /\ hist_total (topics s) = Z.of_nat (List.length quizzes)
  /\ hist_total (difficulties s) = Z.of_nat (List.length quizzes)
  /\ (forall kind, In kind question_types ->
                   count_of kind (summary_question_types s)
                   = Z.of_nat (having kind quizzes)).
Proof.
  unfold generate_quiz_summary, iobind, now, lift. intros H.
  injection H as H _.
  destruct (summary_loop_facts _ _ _ H) as (_ & Hn & Hg & Ht & Hd & Htt & Htd & Hk);
    try (now constructor).
  split; [exact Hn | split; [exact Hg | split; [| split; [| split]]]].
  - intros v Hv. rewrite (Ht v Hv), (Hd v Hv). split; reflexivity.
  - exact Htt.
  - exact Htd.
  - intros kind Hin. rewrite (Hk kind).
    assert (Hm : str_mem kind question_types = true).
    { unfold str_mem. apply existsb_exists. exists kind.
      split; [exact Hin | apply String.eqb_refl]. }
    rewrite Hm. reflexivity.
Qed.

Lemma summary_counts_occurrences_witness :
  let w := Examples.world_of Examples.prose_service Examples.rejecting_parser in
  let quizzes := [PDict Examples.quiz_mcq_b; PDict Examples.quiz_three_options;
                  PDict Examples.quiz_matching_AB] in
  exists s w',
    generate_quiz_summary quizzes w = (Ok s, w')
    /\ total_quizzes s = 3
    /\ hist_count (PStr "GMP") (topics s) = 2%Z
    /\ hist_count (PStr "Unknown") (topics s) = 1%Z
    /\ count_of "mcq" (summary_question_types s) = 2%Z.
Proof.
  intros w quizzes.
  destruct (generate_quiz_summary quizzes w) as [[s | e] w'] eqn:H;
    [| discriminate].
  destruct (summary_counts_occurrences quizzes w w' s H)
    as (Hn & _ & Hv & _ & _ & Hk).
  exists s, w'. split; [reflexivity | split; [exact Hn | split; [| split]]].
  - exact (proj1 (Hv (PStr "GMP") eq_refl)).
  - exact (proj1 (Hv (PStr "Unknown") eq_refl)).
  - apply (Hk "mcq"). now left.
Defined.

(** X8. [generate_quiz_summary] returns exactly when every entry of the
    batch is an object whose topic and difficulty can be hashed; an entry
    that is no object, or whose topic is a list or an object, makes it
    raise. *)
Theorem summary_returns_iff_summarisable (quizzes : list pyval) (w : world) :
  (exists s w', generate_quiz_summary quizzes w = (Ok s, w'))
  <-> Forall summarisable quizzes.
Proof.
  unfold generate_quiz_summary, iobind, now, lift. split.
  - intros (s & w' & H). injection H as H _.
    apply summary_loop_facts in H; try (now constructor). tauto.
  - intros Hall.
    match goal with
    | |- context [summary_loop ?s0 quizzes] =>
        destruct (summary_loop_total quizzes s0 Hall) as (s & ->)
    end.
    eauto.
Qed.

End SummaryExtras.

(* ===================================================================== *)
(** ** File names                                                        *)
(* ===================================================================== *)

Section FilenameExtras.

Import Filenames.

Lemma sub_forbidden_length (s : string) :
  String.length (sub_forbidden s) = String.length s.
Proof. induction s as [| c s IH]; simpl; auto. Qed.

Lemma sub_forbidden_clean (s : string) :
  forall c, has_char c (sub_forbidden s) = true -> forbidden c = false.
Proof.
  induction s as [| x s IH]; cbn [sub_forbidden has_char]; intros c H.
  - discriminate.
  - apply orb_true_iff in H as [H | H]; [| now apply IH].
    apply Ascii.eqb_eq in H. subst c.
    destruct (forbidden x) eqn:E; [reflexivity | exact E].
Qed.

Lemma sub_forbidden_fix (s : string) :
  (forall c, has_char c s = true -> forbidden c = false) ->
  sub_forbidden s = s.
Proof.
  induction s as [| x s IH]; cbn [sub_forbidden has_char]; intros H.
  - reflexivity.
  - rewrite (H x) by (now rewrite Ascii.eqb_refl).
    rewrite IH; [reflexivity |]. intros c Hc. apply H. now rewrite Hc, orb_true_r.
Qed.

Lemma substring_0_length (n : nat) (s : string) :
  String.length (substring 0 n s) = Nat.min n (String.length s).
Proof.
  revert s. induction n as [| n IH]; intros [| c s]; simpl; auto.
Qed.

Lemma substring_0_chars (n : nat) (s : string) :
  forall c, has_char c (substring 0 n s) = true -> has_char c s = true.
Proof.
  revert s. induction n as [| n IH]; intros [| x s] c; simpl; try discriminate.
  intros H. apply orb_true_iff in H as [H | H].
  - now rewrite H.
  - rewrite (IH s c H). apply orb_true_r.
Qed.

Lemma substring_0_all (n : nat) (s : string) :
  String.length s <= n -> substring 0 n s = s.
Proof.
  revert s. induction n as [| n IH]; intros [| c s]; simpl; intros H;
    try reflexivity; try lia.
  rewrite IH by lia. reflexivity.
Qed.

(** X9. A sanitised name has the length of the name, cut at 100, and holds
    none of the nine characters of the class; sanitising it again changes
    nothing, and a name is left as it is exactly when it already was at
    most 100 characters long and free of those characters. *)
Theorem sanitize_filename_is_safe (filename : string) :
  String.length (sanitize_filename filename)
  = Nat.min 100 (String.length filename)
  /\ (forall c, has_char c (sanitize_filename filename) = true ->
                forbidden c = false)
  /\ sanitize_filename (sanitize_filename filename) = sanitize_filename filename
  /\ (sanitize_filename filename = filename
      <-> String.length filename <= 100
          /\ forall c, has_char c filename = true -> forbidden c = false).
Proof.
  assert (Hlen : String.length (sanitize_filename filename)
                 = Nat.min 100 (String.length filename)).
  { unfold sanitize_filename. cbv zeta.
    destruct (Nat.ltb_spec 100 (String.length (sub_forbidden filename)))
      as [Hlong | Hshort].
    - now rewrite substring_0_length, sub_forbidden_length.
    - rewrite sub_forbidden_length in *. lia. }
  assert (Hclean : forall c, has_char c (sanitize_filename filename) = true ->
                             forbidden c = false).
  { unfold sanitize_filename. cbv zeta. intros c.
    destruct (Nat.ltb 100 (String.length (sub_forbidden filename))).
    - intros H. apply substring_0_chars in H. now apply sub_forbidden_clean in H.
    - apply sub_forbidden_clean. }
  assert (Hfix : forall s, String.length s <= 100 ->
                           (forall c, has_char c s = true -> forbidden c = false) ->
                           sanitize_filename s = s).
  { intros s Hs Hc. unfold sanitize_filename. cbv zeta.
    rewrite (sub_forbidden_fix s Hc).
    destruct (Nat.ltb_spec 100 (String.length s)); [lia | reflexivity]. }
  split; [exact Hlen | split; [exact Hclean | split; [| split]]].
  - apply Hfix; [rewrite Hlen; lia | exact Hclean].
  - intros E. rewrite <- E. split; [rewrite Hlen; lia | exact Hclean].
  - intros [Hs Hc]. now apply Hfix.
Qed.

End FilenameExtras.

(* ===================================================================== *)
(** ** More on the exports                                               *)
(* ===================================================================== *)

Section ExportExtras.

Import QuizGenerator.

(** X10. When the file cannot be opened, each export returns [False],
    prints one line that ends with the text of the fault, and leaves every
    file as it was. *)
Theorem export_answers_open_fault (filename : string) (w : world) (e : exn) :
  open_fault w filename = Some e ->
  (forall quiz_data,
      exists w',
        export_quiz_to_json quiz_data filename w = (Ok false, w')
        /\ files w' = files w
        /\ stdout w' = stdout w ++ ["Error exporting quiz: " +++ exn_msg e])
  /\ (forall quiz_data,
         exists w',
           export_quiz_to_markdown quiz_data filename w = (Ok false, w')
           /\ files w' = files w
           /\ stdout w'
              = stdout w ++ ["Error exporting to markdown: " +++ exn_msg e]).
Proof.
  intros Hopen. split; intros quiz_data.
  - unfold export_quiz_to_json, try_except, iobind, open_w. rewrite Hopen.
    eexists. split; [reflexivity |]. split; reflexivity.
  - unfold export_quiz_to_markdown, try_except, iobind, open_w. rewrite Hopen.
    eexists. split; [reflexivity |]. split; reflexivity.
Qed.

Lemma export_answers_open_fault_witness :
  open_fault Examples.world_exports_denied "out/quiz.json"
  = Some (Examples.denied "out/quiz.json")
  /\ exists w',
      export_quiz_to_json (PList Examples.mixed_batch) "out/quiz.json"
        Examples.world_exports_denied
      = (Ok false, w')
      /\ files w' = []
      /\ stdout w'
         = ["Error exporting quiz: [Errno 13] Permission denied: 'out/quiz.json'"].
Proof.
  split; [reflexivity |].
  exact (proj1 (export_answers_open_fault "out/quiz.json"
                  Examples.world_exports_denied _ eq_refl)
           (PList Examples.mixed_batch)).
Defined.

Lemma only_wrote_refl filename w : only_wrote filename w w.
Proof.
  unfold only_wrote. repeat split; auto. exists []. now rewrite app_nil_r.
Qed.

Lemma only_wrote_trans filename w1 w2 w3 :
  only_wrote filename w1 w2 -> only_wrote filename w2 w3 ->
  only_wrote filename w1 w3.
Proof.
  intros (F1 & D1 & R1 & C1 & l1 & S1) (F2 & D2 & R2 & C2 & l2 & S2).
  unfold only_wrote. split; [| split; [| split; [| split]]]; try congruence.
  - intros other Hne. now rewrite F2, F1.
  - exists (l1 ++ l2). now rewrite S2, S1, app_assoc.
Qed.

Lemma confined_ret {A} filename (a : A) : confined filename (ret a).
Proof. intros w. apply only_wrote_refl. Qed.

Lemma confined_lift {A} filename (r : result A) : confined filename (lift r).
Proof. intros w. apply only_wrote_refl. Qed.

Lemma confined_bind {A B} filename (m : io A) (k : A -> io B) :
  confined filename m -> (forall a, confined filename (k a)) ->
  confined filename (iobind m k).
Proof.
  intros Hm Hk w. unfold iobind. specialize (Hm w).
  destruct (m w) as [[a | e] w1]; simpl in *.
  - eapply only_wrote_trans; [exact Hm | apply Hk].
  - exact Hm.
Qed.

Lemma confined_try {A} filename (m : io A) (handler : exn -> io A) :
  confined filename m -> (forall e, confined filename (handler e)) ->
  confined filename (try_except m handler).
Proof.
  intros Hm Hh w. unfold try_except. specialize (Hm w).
  destruct (m w) as [[a | e] w1]; simpl in *.
  - exact Hm.
  - eapply only_wrote_trans; [exact Hm | apply Hh].
Qed.

Lemma only_wrote_set_files filename content w :
  only_wrote filename w (set_files (dict_set filename content (files w)) w).
Proof.
  unfold only_wrote. simpl. split; [| split; [| split; [| split]]]; auto.
  - intros other Hne. now apply dict_get_set_other.
  - exists []. now rewrite app_nil_r.
Qed.

Lemma confined_open_w filename : confined filename (open_w filename).
Proof.
  intros w. unfold open_w. destruct (open_fault w filename); simpl.
  - apply only_wrote_refl.
  - apply only_wrote_set_files.
Qed.

Lemma confined_f_write filename t : confined filename (f_write filename t).
Proof.
  intros w. unfold f_write. destruct (existsb is_surrogate t); simpl.
  - apply only_wrote_refl.
  - apply only_wrote_set_files.
Qed.

Lemma confined_json_dump filename doc : confined filename (json_dump doc filename).
Proof.
  intros w. unfold json_dump.
  destruct (dump_fault w doc); apply only_wrote_set_files.
Qed.

Lemma confined_print filename line : confined filename (print line).
Proof.
  intros w. unfold only_wrote. simpl. repeat split; auto. eauto.
Qed.

Create HintDb confined discriminated.

#[local] Hint Resolve confined_ret confined_lift confined_open_w
  confined_f_write confined_json_dump confined_print : confined.
#[local] Hint Extern 2 (confined _ (iobind _ _)) =>
  apply confined_bind; [| intro] : confined.
#[local] Hint Extern 2 (confined _ (try_except _ _)) =>
  apply confined_try; [| intro] : confined.

Lemma confined_write_options filename :
  forall options j, confined filename (write_options filename j options).
Proof.
  induction options as [| option rest IH]; intros j;
    cbn [write_options]; auto 6 with confined.
Qed.

Lemma confined_write_pairs filename :
  forall pairs, confined filename (write_pairs filename pairs).
Proof.
  induction pairs as [| p rest IH]; cbn [write_pairs]; [auto with confined |].
  destruct p; auto 6 with confined.
Qed.

#[local] Hint Resolve confined_write_options confined_write_pairs : confined.

Lemma confined_write_quiz filename i quiz :
  confined filename (write_quiz filename i quiz).
Proof.
  assert (Hmcq : forall d, confined filename (write_mcq filename d)).
  { intros d. unfold write_mcq. destruct (variant "mcq" d) as [mcq |];
      [| auto with confined].
    destruct (dict_get "options" mcq) as [[| | | | options |] |];
      auto 10 with confined. }
  assert (Htf : forall d, confined filename (write_true_false filename d)).
  { intros d. unfold write_true_false.
    destruct (variant "true_false" d); auto 10 with confined. }
  assert (Hma : forall d, confined filename (write_matching filename d)).
  { intros d. unfold write_matching. destruct (variant "matching" d) as [m |];
      [| auto with confined].
    destruct (dict_get "pairs" m) as [[| | | | pairs |] |];
      auto 10 with confined. }
  assert (Hfb : forall d, confined filename (write_fill_blank filename d)).
  { intros d. unfold write_fill_blank.
    destruct (variant "fill_blank" d); auto 10 with confined. }
  unfold write_quiz.
  destruct quiz as [| b | n | s | l | [| kv d]]; auto 20 with confined.
Qed.

Lemma confined_write_quizzes filename :
  forall quiz_data i, confined filename (write_quizzes filename i quiz_data).
Proof.
  induction quiz_data as [| quiz rest IH]; intros i; cbn [write_quizzes].
  - auto with confined.
  - apply confined_bind; [apply confined_write_quiz | intro; apply IH].
Qed.

Lemma confined_export_quiz_to_markdown quiz_data filename :
  confined filename (export_quiz_to_markdown quiz_data filename).
Proof.
  unfold export_quiz_to_markdown.
  pose proof (confined_write_quizzes filename quiz_data 0).
  auto 10 with confined.
Qed.

Lemma confined_export_quiz_to_json quiz_data filename :
  confined filename (export_quiz_to_json quiz_data filename).
Proof. unfold export_quiz_to_json. auto 10 with confined. Qed.

(** X11. An export writes its own file and the standard output, nothing
    else: whatever the batch and whether it succeeds or not, every other
    file keeps its content, and the directories, the requests sent and
    the clock are untouched. *)
Theorem exports_write_their_own_file (filename : string) (w : world) :
  (forall quiz_data,
      only_wrote filename w (snd (export_quiz_to_json quiz_data filename w)))
  /\ (forall quiz_data,
         only_wrote filename w
           (snd (export_quiz_to_markdown quiz_data filename w))).
Proof.
  split; intros quiz_data.
  - apply confined_export_quiz_to_json.
  - apply confined_export_quiz_to_markdown.
Qed.

End ExportExtras.

(* ===================================================================== *)
(** ** A report that fails part way                                      *)
(* ===================================================================== *)

Section TruncatedReport.

Import QuizGenerator.



End TruncatedReport.

(* ===================================================================== *)
(** ** More on the package                                               *)
(* ===================================================================== *)

Section PackageExtras.

Import Utils QuizGenerator Package.

Lemma appends_reshaped filename :
  forall ts fs out w,
  exists fs', appends filename ts (reshaped fs out w) = reshaped fs' out w.
Proof.
  induction ts as [| t ts IH]; intros fs out w.
  - exists fs. reflexivity.
  - rewrite appends_cons.
    exact (IH (dict_set filename
                 (file_content filename (reshaped fs out w) ++ [Written t]) fs)
              out w).
Qed.

Lemma export_quiz_to_json_outcome quiz_data filename w :
  exists ok fs out,
    export_quiz_to_json quiz_data filename w = (Ok ok, reshaped fs out w).
Proof.
  unfold export_quiz_to_json, try_except, iobind, open_w, json_dump, ret, print.
  destruct (open_fault w filename); [do 3 eexists; reflexivity |].
  cbn [dump_fault set_files].
  destruct (dump_fault w (DumpValue quiz_data)); do 3 eexists; reflexivity.
Qed.

Lemma export_quiz_to_markdown_outcome quiz_data filename w :
  exists ok fs out,
    export_quiz_to_markdown quiz_data filename w = (Ok ok, reshaped fs out w).
Proof.
  destruct (open_fault w filename) as [e |] eqn:Hopen.
  - unfold export_quiz_to_markdown, try_except, iobind, open_w. rewrite Hopen.
    exists false, (files w),
      (stdout w ++ ["Error exporting to markdown: " +++ exn_msg e]).
    reflexivity.
  - pose proof (export_quiz_to_markdown_run quiz_data filename w Hopen) as Hrun.
    destruct (all_encodable (report quiz_data)).
    + rewrite Hrun.
      destruct (appends_reshaped filename (report quiz_data)
                  (dict_set filename [] (files w)) (stdout w) w) as (fs' & Hfs).
      exists true, fs', (stdout w).
      change (set_files (dict_set filename [] (files w)) w)
        with (reshaped (dict_set filename [] (files w)) (stdout w) w).
      now rewrite Hfs.
    + destruct Hrun as (e & k & _ & Hrun). rewrite Hrun.
      destruct (appends_reshaped filename (firstn k (report quiz_data))
                  (dict_set filename [] (files w)) (stdout w) w) as (fs' & Hfs).
      exists false, fs',
        (stdout w ++ ["Error exporting to markdown: " +++ exn_msg e]).
      change (set_files (dict_set filename [] (files w)) w)
        with (reshaped (dict_set filename [] (files w)) (stdout w) w).
      now rewrite Hfs.
Qed.




(** X13. [create_quiz_package] returns exactly when the directory can be
    made, every entry of the batch is an object with a hashable topic and
    difficulty, the summary file can be opened and the serialiser accepts
    the summary.  Whether the two exports succeed plays no part; an entry
    that is no object, which the report renders as a placeholder, makes
    the package raise. *)
Theorem package_returns_iff (quizzes : list pyval) (output_dir : string)
  (w : world) :
  (exists r w', create_quiz_package quizzes output_dir w = (Ok r, w'))
  <-> mkdir_fault w output_dir = None
      /\ Forall summarisable quizzes
      /\ open_fault w (summary_file output_dir w) = None
      /\ (forall s,
             fst (generate_quiz_summary quizzes (tick w)) = Ok s ->
             dump_fault w (DumpSummary s) = None).
Proof.
  set (accepted := forall s,
         fst (generate_quiz_summary quizzes (tick w)) = Ok s ->
         dump_fault w (DumpSummary s) = None).
  unfold create_quiz_package, summary_file, stamp.
  unfold iobind at 1. unfold makedirs.
  destruct (mkdir_fault w output_dir) as [e |].
  { split; [intros (r & w' & H); discriminate | intros (H & _); discriminate]. }
  unfold iobind at 1. unfold now.
  cbn [files dirs stdout requests clock_reads open_fault mkdir_fault dump_fault
         service json_loads clock strftime_stamp reshaped set_files fst snd].
  match goal with
  | |- context [iobind (export_quiz_to_json ?v ?f) ?k ?w1] =>
      destruct (export_quiz_to_json_outcome v f w1) as (bj & fsj & outj & Ej);
      unfold iobind at 1; rewrite Ej
  end.
  match goal with
  | |- context [iobind (export_quiz_to_markdown ?v ?f) ?k ?w1] =>
      destruct (export_quiz_to_markdown_outcome v f w1) as (bm & fsm & outm & Em);
      unfold iobind at 1; rewrite Em
  end.
  unfold iobind at 1. unfold generate_quiz_summary.
  unfold iobind at 1. unfold now, lift.
  cbn [files dirs stdout requests clock_reads open_fault mkdir_fault dump_fault
         service json_loads clock strftime_stamp reshaped set_files fst snd].
  match goal with
  | |- context [summary_loop ?s0 quizzes] =>
      pose proof (summary_loop_total quizzes s0) as Htotal;
      pose proof (summary_loop_facts quizzes s0) as Hfacts;
      destruct (summary_loop s0 quizzes) as [s | e] eqn:Hs
  end.
  - assert (Hall : Forall summarisable quizzes).
    { apply (Hfacts s eq_refl); now constructor. }
    unfold iobind at 1. unfold open_w.
    cbn [files dirs stdout requests clock_reads open_fault mkdir_fault dump_fault
           service json_loads clock strftime_stamp reshaped set_files fst snd].
    destruct (open_fault w _) as [e |].
    + split; [intros (r & w' & H); discriminate |].
      intros (_ & _ & H & _). discriminate.
    + unfold iobind, json_dump, ret.
      cbn [files dirs stdout requests clock_reads open_fault mkdir_fault dump_fault
             service json_loads clock strftime_stamp reshaped set_files fst snd].
      destruct (dump_fault w (DumpSummary s)) as [e |] eqn:Hdump.
      * split; [intros (r & w' & H); discriminate |].
        intros (_ & _ & _ & H). specialize (H s Hs). congruence.
      * split; [| eauto].
        intros _. split; [reflexivity |]. split; [exact Hall |].
        split; [reflexivity |]. intros s' Hs'.
        assert (Hsame : Ok s' = Ok s) by (rewrite <- Hs'; exact Hs).
        injection Hsame as ->. exact Hdump.
  - split; [intros (r & w' & H); discriminate |].
    intros (_ & Hall & _). destruct (Htotal Hall) as (s & H). discriminate.
Qed.








End PackageExtras.

(* ===================================================================== *)
(** ** More on the batch                                                 *)
(* ===================================================================== *)

Section BatchExtras.

Import QuizGenerator.

Lemma generate_quiz_questions_answers chunk topic difficulty w :
  exists quiz,
    generate_quiz_questions chunk topic difficulty w
    = (Ok quiz,
       log_request system_prompt (user_prompt chunk topic difficulty) w)
    /\ answers (service w) (json_loads w) (List.length (requests w))
         chunk topic difficulty quiz.
Proof. exact (generate_quiz_questions_run chunk topic difficulty w). Qed.

Lemma batch_entry_cases i chunk topic difficulty quiz :
  (exists d, quiz = PDict d /\ d <> [] /\ dict_mem "error" d = false
             /\ batch_entry i chunk topic difficulty quiz = stamped i chunk d)
  \/ (batch_entry i chunk topic difficulty quiz
      = failed_quiz i chunk topic difficulty
      /\ forall d, quiz = PDict d -> d = [] \/ dict_mem "error" d = true).
Proof.
  unfold batch_entry.
  destruct quiz as [| b | n | t | l | d];
    try (right; split; [reflexivity | intros; discriminate]).
  destruct d as [| kv d].
  - right. split; [reflexivity |]. intros d' H. injection H as <-. now left.
  - cbn [truthy andb]. destruct (dict_mem "error" (kv :: d)) eqn:E; cbn [negb].
    + right. split; [reflexivity |]. intros d' H. injection H as <-. now right.
    + left. exists (kv :: d).
      split; [reflexivity | split; [discriminate | split; [exact E |]]].
      reflexivity.
Qed.

Lemma batch_loop_entries (topics difficulties : list pyval) :
  forall chunks i quizzes w,
    exists entries w',
      batch_loop i chunks topics difficulties quizzes w
      = (Ok (quizzes ++ entries), w')
      /\ silent w w'
      /\ forall k chunk,
          nth_error chunks k = Some chunk ->
          exists quiz,
            answers (service w) (json_loads w) (List.length (requests w) + k)
              chunk
              (nth (i + k) topics (PStr "General"))
              (nth (i + k) difficulties (PStr "Intermediate")) quiz
            /\ nth_error entries k
               = Some (batch_entry (i + k) chunk
                         (nth (i + k) topics (PStr "General"))
                         (nth (i + k) difficulties (PStr "Intermediate")) quiz).
Proof.
  induction chunks as [| chunk rest IH]; intros i quizzes w.
  - exists [], w. cbn [batch_loop]. unfold ret. rewrite app_nil_r.
    split; [reflexivity |]. split; [now repeat split |].
    intros [| k] chunk H; discriminate.
  - cbn [batch_loop]. rewrite !at_or_nth. unfold iobind.
    destruct (generate_quiz_questions_answers chunk
                (nth i topics (PStr "General"))
                (nth i difficulties (PStr "Intermediate")) w)
      as (quiz & -> & Hquiz).
    match goal with
    | |- context [batch_loop (S i) rest topics difficulties ?acc ?w1] =>
        destruct (IH (S i) acc w1) as (entries & w' & Hloop & Hsilent & Hnth);
        rewrite Hloop
    end.
    eexists (_ :: entries), w'. split; [now rewrite <- app_assoc |].
    split; [exact Hsilent |].
    intros [| k] c Hc; cbn [nth_error] in Hc |- *.
    + injection Hc as <-. rewrite !Nat.add_0_r. eauto.
    + destruct (Hnth k c Hc) as (quiz' & Ha & He).
      exists quiz'. rewrite !Nat.add_succ_r.
      split; [| exact He].
      cbn [service json_loads requests log_request] in Ha.
      rewrite length_app in Ha. cbn [List.length] in Ha.
      replace (List.length (requests w) + 1 + k)
        with (S (List.length (requests w) + k)) in Ha by lia.
      exact Ha.
Qed.

(** X15. [generate_quiz_batch] keeps a usable reply whole: when the reply
    to the request made for the chunk of index [i] parses to a non-empty
    object without the key [error], the record of index [i] is that
    object with [chunk_index] and [chunk_preview] set.  Conversely a
    record of the batch without the key [error] comes from such a reply
    and agrees with it on every other key, so every other outcome of a
    request yields the placeholder tagged with [error].  The batch writes
    no file, makes no directory, prints nothing and does not read the
    clock. *)
Theorem batch_keeps_usable_replies (chunks : list string)
  (topics difficulties : option (list pyval)) (w w' : world)
  (quizzes : list pyval) :
  generate_quiz_batch chunks topics difficulties w = (Ok quizzes, w') ->
  silent w w'
  /\ forall i chunk,
      nth_error chunks i = Some chunk ->
      let topic := entry_or (PStr "General") topics i in
      let difficulty := entry_or (PStr "Intermediate") difficulties i in
      let answer :=
        service w (List.length (requests w) + i) system_prompt
          (user_prompt chunk topic difficulty) in
      (forall response raw d,
          answer = Ok response ->
          content_of response = Ok (PStr raw) ->
          json_loads w raw = Ok (PDict d) ->
          d <> [] ->
          dict_mem "error" d = false ->
          nth_error quizzes i = Some (stamped i chunk d))
      /\ (forall entry,
             nth_error quizzes i = Some entry ->
             entry = failed_quiz i chunk topic difficulty
             \/ exists response raw d,
                 answer = Ok response
                 /\ content_of response = Ok (PStr raw)
                 /\ json_loads w raw = Ok (PDict d)
                 /\ d <> []
                 /\ dict_mem "error" d = false
                 /\ entry = stamped i chunk d)
      /\ (forall d key,
             key <> "chunk_index" -> key <> "chunk_preview" ->
             dict_get key
               (dict_set "chunk_preview" (PStr (chunk_preview chunk))
                  (dict_set "chunk_index" (PInt (Z.of_nat i)) d))
             = dict_get key d).
Proof.
  unfold generate_quiz_batch. intros Hrun.
  set (tl := match topics with
             | Some l => l
             | None => repeat (PStr "General") (List.length chunks)
             end) in Hrun.
  set (dl := match difficulties with
             | Some l => l
             | None => repeat (PStr "Intermediate") (List.length chunks)
             end) in Hrun.
  assert (Ht : forall i, nth i tl (PStr "General") = entry_or (PStr "General") topics i).
  { intros i. unfold tl, entry_or. destruct topics; [reflexivity |].
    apply entry_or_repeat. }
  assert (Hd : forall i, nth i dl (PStr "Intermediate")
                         = entry_or (PStr "Intermediate") difficulties i).
  { intros i. unfold dl, entry_or. destruct difficulties; [reflexivity |].
    apply entry_or_repeat. }
  destruct (batch_loop_entries tl dl chunks 0 [] w)
    as (entries & w1 & Hloop & Hsilent & Hnth).
  rewrite Hloop in Hrun. injection Hrun as <- <-.
  split; [exact Hsilent |].
  intros i chunk Hc. cbv zeta.
  set (topic := entry_or (PStr "General") topics i).
  set (difficulty := entry_or (PStr "Intermediate") difficulties i).
  set (answer := service w (List.length (requests w) + i) system_prompt
                   (user_prompt chunk topic difficulty)).
  destruct (Hnth i chunk Hc) as (quiz & Ha & He).
  cbn [Nat.add] in Ha, He. rewrite Ht, Hd in Ha, He.
  fold topic difficulty in Ha, He.
  unfold answers in Ha. fold answer in Ha.
  cbn [app].
  destruct (batch_entry_cases i chunk topic difficulty quiz)
    as [(d0 & Hq & Hne & Herr & Hentry) | (Hentry & Hbad)];
    rewrite Hentry in He.
  - split; [| split].
    + intros response raw d Hans Hcontent Hparse _ _.
      rewrite Hans, Hcontent, Hparse in Ha. rewrite He.
      congruence.
    + intros entry Hentry'. right. rewrite He in Hentry'.
      injection Hentry' as <-.
      destruct answer as [response | e].
      * destruct (content_of response) as [[| b | n | raw | l | dc] | e] eqn:Hcontent;
          try (destruct Ha as (d1 & Hd1 & He1); congruence);
          try (subst quiz; injection Hq as <-; discriminate).
        destruct (json_loads w raw) as [quiz_data | e] eqn:Hparse.
        -- subst quiz_data. subst quiz. exists response, raw, d0. auto 10.
        -- destruct (is_json_decode_error e); subst quiz;
             injection Hq as <-; discriminate.
      * subst quiz. injection Hq as <-. discriminate.
    + intros d key H1 H2. now rewrite !dict_get_set_other.
  - split; [| split].
    + intros response raw d Hans Hcontent Hparse Hne Herr.
      rewrite Hans, Hcontent, Hparse in Ha.
      destruct (Hbad d Ha); congruence.
    + intros entry Hentry'. left. congruence.
    + intros d key H1 H2. now rewrite !dict_get_set_other.
Qed.

Lemma batch_keeps_usable_replies_witness :
  exists quizzes w',
    generate_quiz_batch ["first chunk"; "second chunk"] (Some [PStr "Audit"]) None
      (Examples.world_of Examples.flaky_service Examples.tiny_parser)
    = (Ok quizzes, w')
    /\ silent (Examples.world_of Examples.flaky_service Examples.tiny_parser) w'
    /\ nth_error quizzes 0
       = Some (stamped 0 "first chunk"
                 [("topic", PStr "Audit");
                  ("mcq", PDict [("question", PStr "Which one?")])]).
Proof.
  assert (H : generate_quiz_batch ["first chunk"; "second chunk"]
                (Some [PStr "Audit"]) None
                (Examples.world_of Examples.flaky_service Examples.tiny_parser)
              = (Ok (match fst (generate_quiz_batch ["first chunk"; "second chunk"]
                                  (Some [PStr "Audit"]) None
                                  (Examples.world_of Examples.flaky_service
                                     Examples.tiny_parser))
                     with Ok l => l | Raise _ => [] end),
                 snd (generate_quiz_batch ["first chunk"; "second chunk"]
                        (Some [PStr "Audit"]) None
                        (Examples.world_of Examples.flaky_service
                           Examples.tiny_parser))))
    by (vm_compute; reflexivity).
  do 2 eexists. split; [exact H |].
  destruct (batch_keeps_usable_replies _ _ _ _ _ _ H) as (Hsilent & Hentries).
  split; [exact Hsilent |].
  destruct (Hentries 0 "first chunk" eq_refl) as (Hkeep & _).
  apply (Hkeep (Examples.reply "{mcq}") "{mcq}");
    [reflexivity | reflexivity | reflexivity | discriminate | reflexivity].
Defined.

End BatchExtras.

(* ===================================================================== *)
(** ** The application object                                            *)
(* ===================================================================== *)

Section MainExtras.

Import Utils QuizGenerator Package Main.

Lemma prints_refl w : prints [] w w.
Proof. unfold prints. rewrite app_nil_r. repeat split. Qed.

Lemma prints_print line w : prints [line] w (snd (print line w)).
Proof. unfold prints, print. cbn. repeat split. Qed.

Lemma prints_trans l1 l2 w1 w2 w3 :
  prints l1 w1 w2 -> prints l2 w2 w3 -> prints (l1 ++ l2) w1 w3.
Proof.
  unfold prints. intros H1 H2.
  destruct H1 as (S1 & F1 & D1 & R1 & C1 & O1 & M1 & V1 & J1 & K1).
  destruct H2 as (S2 & F2 & D2 & R2 & C2 & O2 & M2 & V2 & J2 & K2).
  rewrite S2, S1, app_assoc.
  repeat split; congruence.
Qed.

Lemma validate_quiz_structure_is_valid d r :
  validate_quiz_structure d = Ok r -> is_valid r = acceptable (PDict d).
Proof.
  unfold validate_quiz_structure. intros H.
  inv_bind H as r1 H1. inv_bind H as r2 H2. injection H as <-.
  apply check_mcq_keeps in H1 as (H1 & _).
  apply check_true_false_keeps in H2 as (H2 & _).
  rewrite H2, H1. unfold acceptable, required_fields, question_types.
  cbn [fold_left filter existsb].
  destruct (dict_mem "topic" d), (dict_mem "difficulty" d),
    (dict_mem "mcq" d), (dict_mem "true_false" d),
    (dict_mem "matching" d), (dict_mem "fill_blank" d); reflexivity.
Qed.

Lemma validate_loop_outcome :
  forall quizzes i valid_quizzes w,
    Forall (fun q => is_dict q = true) quizzes ->
    exists lines w',
      prints lines w w'
      /\ ((Forall checked quizzes
           /\ List.length lines = List.length (rejected quizzes)
           /\ validate_loop i quizzes valid_quizzes w
              = (Ok (valid_quizzes ++ filter acceptable quizzes), w'))
          \/ (Exists faulty quizzes
              /\ exists e,
                  validate_loop i quizzes valid_quizzes w = (Raise e, w'))).
Proof.
  induction quizzes as [| quiz rest IH]; intros i valid_quizzes w Hd.
  - exists [], w. split; [apply prints_refl |]. left.
    cbn [validate_loop filter]. unfold ret. rewrite app_nil_r.
    split; [constructor | split; reflexivity].
  - inversion_clear Hd as [| ? ? Hq Hrest].
    destruct quiz as [| b | n | s | l | d]; try discriminate.
    cbn [validate_loop validate_any]. unfold iobind, lift.
    destruct (validate_quiz_structure d) as [r | e] eqn:Hv.
    + pose proof (validate_quiz_structure_is_valid d r Hv) as Hvalid.
      unfold rejected. cbn [filter]. rewrite <- Hvalid.
      destruct (is_valid r); cbn [negb].
      * destruct (IH (S i) (valid_quizzes ++ [PDict d]) w Hrest)
          as (lines & w' & Hp & [(Hall & Hlen & Hrun) | (Hex & e & Hrun)]).
        -- exists lines, w'. split; [exact Hp |]. left.
           split; [constructor; [now exists d, r | exact Hall] |].
           split; [exact Hlen |].
           rewrite Hrun. now rewrite <- app_assoc.
        -- exists lines, w'. split; [exact Hp |]. right.
           split; [now apply Exists_cons_tl | exists e; exact Hrun].
      * match goal with
        | |- context [print ?line w] =>
            pose proof (prints_print line w) as Hline;
            destruct (IH (S i) valid_quizzes (snd (print line w)) Hrest)
              as (lines & w' & Hp & [(Hall & Hlen & Hrun) | (Hex & e & Hrun)]);
            exists (line :: lines), w';
            (split; [exact (prints_trans _ _ _ _ _ Hline Hp) |])
        end.
        -- left.
           split; [constructor; [now exists d, r | exact Hall] |].
           split; [cbn [List.length]; now rewrite Hlen | exact Hrun].
        -- right.
           split; [now apply Exists_cons_tl | exists e; exact Hrun].
    + exists [], w. split; [apply prints_refl |]. right.
      split; [apply Exists_cons_hd; now exists d, e | exists e; reflexivity].
Qed.

Lemma generate_quiz_batch_shape chunks topics difficulties w :
  exists batch w',
    generate_quiz_batch chunks topics difficulties w = (Ok batch, w')
    /\ List.length batch = List.length chunks
    /\ List.length (requests w')
       = List.length (requests w) + List.length chunks
    /\ silent w w'
    /\ Forall (fun q =>
                 exists d,
                   q = PDict d
                   /\ dict_mem "chunk_index" d = true
                   /\ dict_mem "chunk_preview" d = true
                   /\ (dict_mem "error" d = true -> acceptable q = false))
         batch.
Proof.
  unfold generate_quiz_batch.
  set (tl := match topics with
             | Some l => l
             | None => repeat (PStr "General") (List.length chunks)
             end).
  set (dl := match difficulties with
             | Some l => l
             | None => repeat (PStr "Intermediate") (List.length chunks)
             end).
  destruct (batch_loop_run tl dl chunks 0 [] w)
    as (entries & w' & Hloop & Hlen & Hreq & Hnth).
  destruct (batch_loop_entries tl dl chunks 0 [] w)
    as (entries2 & w2 & Hloop2 & Hsilent & _).
  rewrite Hloop in Hloop2. injection Hloop2 as <- <-.
  exists entries, w'. split; [exact Hloop |]. split; [exact Hlen |].
  split.
  { rewrite Hreq, length_app, length_map.
    f_equal. clear. generalize 0. induction chunks as [| c r IH]; intros n;
      cbn [enumerate_from List.length]; [reflexivity | now rewrite IH]. }
  split; [exact Hsilent |].
  apply Forall_forall. intros q Hin.
  apply In_nth_error in Hin as (k & Hk).
  assert (Hlt : k < List.length entries)
    by (apply nth_error_Some; congruence).
  destruct (nth_error chunks k) as [chunk |] eqn:Hc.
  - destruct (Hnth k chunk Hc) as (d & Hd & Hi & Hp & He).
    rewrite Hk in Hd. injection Hd as ->.
    exists d. split; [reflexivity |].
    unfold dict_mem. rewrite Hi, Hp. split; [reflexivity | split; [reflexivity |]].
    intros Herr. fold (dict_mem "error" d) in Herr.
    specialize (He Herr). rewrite He. reflexivity.
  - apply nth_error_None in Hc. lia.
Qed.

Lemma silent_prints w w1 w2 lines :
  silent w w1 -> prints lines w1 w2 ->
  files w2 = files w /\ dirs w2 = dirs w /\ clock_reads w2 = clock_reads w
  /\ stdout w2 = stdout w ++ lines /\ requests w2 = requests w1.
Proof.
  intros (F & D & S & C) (S2 & F2 & D2 & R2 & C2 & _).
  repeat split; congruence.
Qed.

(** X16. [generate_quizzes] never raises.  Without chunks it returns
    [False], sends no request and leaves the object as it was.  With
    chunks it sends one request per chunk it processes and writes no
    file; when the validator returns on every record of the batch, it
    returns [True], [self.quizzes] holds the records that have a topic, a
    difficulty and a question, in the order of the batch, and one line
    is printed per record turned down; when the validator raises on a
    record, it returns [False] and [self.quizzes] is left holding the
    whole batch, placeholders included. *)
Theorem generate_quizzes_outcome (max_chunks : option Z)
  (topics difficulties : option (list pyval)) (self : generator) (w : world) :
  exists ok self' w',
    generate_quizzes max_chunks topics difficulties self w = (Ok ok, self', w')
    /\ self_chunks self' = self_chunks self
    /\ self_current_file self' = self_current_file self
    /\ files w' = files w /\ dirs w' = dirs w /\ clock_reads w' = clock_reads w
    /\ (self_chunks self = [] ->
        ok = false
        /\ self_quizzes self' = self_quizzes self
        /\ requests w' = requests w
        /\ stdout w'
           = stdout w ++ ["No chunks available. Please process a document first."])
    /\ (self_chunks self <> [] ->
        let chunks := chunks_to_process max_chunks (self_chunks self) in
        List.length (requests w') = List.length (requests w) + List.length chunks
        /\ exists line w0 batch w1 lines,
            prints [line] w w0
            /\ generate_quiz_batch chunks topics difficulties w0 = (Ok batch, w1)
            /\ if ok
               then Forall checked batch
                    /\ self_quizzes self' = filter acceptable batch
                    /\ List.length lines = List.length (rejected batch)
                    /\ stdout w'
                       = stdout w ++ [line] ++ lines
                         ++ ["Successfully generated "
                             +++ str_of_nat (List.length (filter acceptable batch))
                             +++ " valid quizzes"]
               else Exists faulty batch
                    /\ self_quizzes self' = batch
                    /\ exists e,
                        stdout w'
                        = stdout w ++ [line] ++ lines
                          ++ ["Error generating quizzes: " +++ exn_msg e]).
Proof.
  unfold generate_quizzes. unfold mbind at 1. unfold get_self.
  destruct (self_chunks self) as [| c cs] eqn:Hchunks.
  - exists false, self, (snd (print "No chunks available. Please process a document first." w)).
    split; [reflexivity |].
    split; [exact Hchunks |].
    do 4 (split; [reflexivity |]).
    split; [intros _ | intros H; now contradiction H].
    split; [reflexivity | split; [reflexivity | split; reflexivity]].
  - set (chunks := chunks_to_process max_chunks (c :: cs)).
    unfold mbind at 1. unfold call at 1.
    match goal with
    | |- context [print ?line w] =>
        pose proof (prints_print line w) as Hline;
        set (w0 := snd (print line w)) in *;
        change (print line w) with (Ok tt, w0)
    end.
    cbv beta iota.
    unfold mtry. unfold mbind at 1. unfold call at 1.
    destruct (generate_quiz_batch_shape chunks topics difficulties w0)
      as (batch & w1 & Hbatch & Hlen & Hreq & Hsilent & Hshape).
    rewrite Hbatch.
    unfold mbind at 1. unfold set_quizzes at 1.
    unfold mbind at 1. unfold call at 1.
    assert (Hdicts : Forall (fun q => is_dict q = true) batch).
    { eapply Forall_impl; [| exact Hshape].
      intros q (d & -> & _). reflexivity. }
    destruct (validate_loop_outcome batch 0 [] w1 Hdicts)
      as (lines & w2 & Hp & [(Hall & Hlen2 & Hrun) | (Hex & e & Hrun)]);
      rewrite Hrun.
    + pose proof Hline as (S0 & F0 & D0 & R0 & C0 & _).
      destruct Hsilent as (F1 & D1 & S1 & C1).
      destruct Hp as (S2 & F2 & D2 & R2 & C2 & _).
      cbn [app]. unfold mbind, set_quizzes, call, print, mret. cbv beta iota.
      do 3 eexists. split; [reflexivity |].
      cbn [self_chunks self_current_file self_quizzes files dirs clock_reads
             stdout requests].
      split; [exact Hchunks |]. split; [reflexivity |].
      split; [congruence |]. split; [congruence |]. split; [congruence |].
      split; [intros H; discriminate H |]. intros _.
      split; [rewrite R2, Hreq, R0; reflexivity |].
      eexists _, w0, batch, w1, lines.
      split; [exact Hline |]. split; [exact Hbatch |].
      split; [exact Hall |]. split; [reflexivity |]. split; [exact Hlen2 |].
      rewrite S2, S1, S0. rewrite <- !app_assoc. reflexivity.
    + pose proof Hline as (S0 & F0 & D0 & R0 & C0 & _).
      destruct Hsilent as (F1 & D1 & S1 & C1).
      destruct Hp as (S2 & F2 & D2 & R2 & C2 & _).
      unfold mbind, set_quizzes, call, print, mret. cbv beta iota.
      do 3 eexists. split; [reflexivity |].
      cbn [self_chunks self_current_file self_quizzes files dirs clock_reads
             stdout requests].
      split; [exact Hchunks |]. split; [reflexivity |].
      split; [congruence |]. split; [congruence |]. split; [congruence |].
      split; [intros H; discriminate H |]. intros _.
      split; [rewrite R2, Hreq, R0; reflexivity |].
      eexists _, w0, batch, w1, lines.
      split; [exact Hline |]. split; [exact Hbatch |].
      split; [exact Hex |]. split; [reflexivity |].
      exists e. rewrite S2, S1, S0. rewrite <- !app_assoc. reflexivity.
Qed.

Lemma chunks_to_process_length max_chunks (chunks : list string) :
  List.length (chunks_to_process max_chunks chunks) <= List.length chunks.
Proof.
  unfold chunks_to_process, slice_to.
  destruct max_chunks as [n |]; [| lia].
  destruct (n =? 0)%Z; [lia |].
  destruct (0 <=? n)%Z; rewrite length_firstn; lia.
Qed.

Lemma generate_quizzes_true_inv max_chunks topics difficulties self self' w w' :
  generate_quizzes max_chunks topics difficulties self w = (Ok true, self', w') ->
  exists batch,
    List.length batch
    = List.length (chunks_to_process max_chunks (self_chunks self))
    /\ Forall (fun q =>
                 exists d,
                   q = PDict d
                   /\ dict_mem "chunk_index" d = true
                   /\ dict_mem "chunk_preview" d = true
                   /\ (dict_mem "error" d = true -> acceptable q = false))
         batch
    /\ self_quizzes self' = filter acceptable batch.
Proof.
  intros H.
  unfold generate_quizzes in H. unfold mbind at 1 in H. unfold get_self in H.
  destruct (self_chunks self) as [| c cs] eqn:Hchunks;
    [unfold mbind, call, print, mret in H; discriminate H |].
  unfold mbind at 1 in H. unfold call at 1 in H.
  unfold print at 1 in H. cbv beta iota in H.
  unfold mtry in H. unfold mbind at 1 in H. unfold call at 1 in H.
  match type of H with
  | context [generate_quiz_batch ?cs0 topics difficulties ?w0] =>
      destruct (generate_quiz_batch_shape cs0 topics difficulties w0)
        as (batch & w1 & Hbatch & Hlen & _ & _ & Hshape)
  end.
  rewrite Hbatch in H.
  unfold mbind at 1 in H. unfold set_quizzes at 1 in H.
  unfold mbind at 1 in H. unfold call at 1 in H.
  assert (Hdicts : Forall (fun q => is_dict q = true) batch).
  { eapply Forall_impl; [| exact Hshape].
    intros q (d & -> & _). reflexivity. }
  destruct (validate_loop_outcome batch 0 [] w1 Hdicts)
    as (lines & w2 & _ & [(_ & _ & Hrun) | (_ & e & Hrun)]);
    rewrite Hrun in H;
    unfold mbind, set_quizzes, call, print, mret in H; cbv beta iota in H;
    [| discriminate H].
  injection H as <- _. cbn [self_quizzes app].
  exists batch. split; [exact Hlen | split; [exact Hshape | reflexivity]].
Qed.

(** X17. After [generate_quizzes] has returned [True], every record of
    [self.quizzes] is an object with a topic, a difficulty and at least
    one of the four kinds, it carries its [chunk_index] and
    [chunk_preview], and it has no [error] key: the placeholder of a
    failed chunk is never kept.  There are at most as many records as
    chunks processed, which are at most the chunks of the object. *)
Theorem generate_quizzes_keeps_sound_records (max_chunks : option Z)
  (topics difficulties : option (list pyval)) (self self' : generator)
  (w w' : world) :
  generate_quizzes max_chunks topics difficulties self w = (Ok true, self', w') ->
  Forall (fun q =>
            exists d,
              q = PDict d
              /\ dict_mem "topic" d = true
              /\ dict_mem "difficulty" d = true
              /\ (exists kind, In kind question_types /\ dict_mem kind d = true)
              /\ dict_mem "error" d = false
              /\ dict_mem "chunk_index" d = true
              /\ dict_mem "chunk_preview" d = true)
    (self_quizzes self')
  /\ List.length (self_quizzes self')
     <= List.length (chunks_to_process max_chunks (self_chunks self))
  /\ List.length (chunks_to_process max_chunks (self_chunks self))
     <= List.length (self_chunks self).
Proof.
  intros H.
  destruct (generate_quizzes_true_inv _ _ _ _ _ _ _ H)
    as (batch & Hlen & Hshape & ->).
  split; [| split; [| apply chunks_to_process_length]].
  - apply Forall_forall. intros q Hin.
    apply filter_In in Hin as (Hin & Hacc).
    rewrite Forall_forall in Hshape.
    destruct (Hshape q Hin) as (d & -> & Hi & Hp & He).
    exists d. split; [reflexivity |].
    unfold acceptable in Hacc.
    apply andb_true_iff in Hacc as (Hacc & Hkind).
    apply andb_true_iff in Hacc as (Ht & Hd).
    apply existsb_exists in Hkind as (kind & Hkin & Hkind).
    split; [exact Ht |]. split; [exact Hd |].
    split; [now exists kind |].
    split; [| split; [exact Hi | exact Hp]].
    destruct (dict_mem "error" d) eqn:Herr; [| reflexivity].
    specialize (He eq_refl). unfold acceptable in He.
    rewrite Ht, Hd in He. cbn [andb] in He.
    assert (Hex : existsb (fun qt => dict_mem qt d) question_types = true)
      by (apply existsb_exists; now exists kind).
    congruence.
  - rewrite <- Hlen. apply filter_length_le.
Qed.

Lemma generate_quizzes_keeps_sound_records_witness :
  exists self' w',
    generate_quizzes (Some 1%Z) None None MainExamples.two_chunks
      (Examples.world_of MainExamples.steady_service MainExamples.quiz_parser)
    = (Ok true, self', w')
    /\ List.length (self_quizzes self') = 1
    /\ Forall (fun q => exists d, q = PDict d /\ dict_mem "error" d = false)
         (self_quizzes self').
Proof.
  assert (H : generate_quizzes (Some 1%Z) None None MainExamples.two_chunks
                (Examples.world_of MainExamples.steady_service
                   MainExamples.quiz_parser)
              = (Ok true,
                 snd (fst (generate_quizzes (Some 1%Z) None None
                             MainExamples.two_chunks
                             (Examples.world_of MainExamples.steady_service
                                MainExamples.quiz_parser))),
                 snd (generate_quizzes (Some 1%Z) None None
                        MainExamples.two_chunks
                        (Examples.world_of MainExamples.steady_service
                           MainExamples.quiz_parser))))
    by (vm_compute; reflexivity).
  do 2 eexists. split; [exact H |].
  split; [vm_compute; reflexivity |].
  destruct (generate_quizzes_keeps_sound_records _ _ _ _ _ _ _ H) as (Hall & _).
  eapply Forall_impl; [| exact Hall].
  intros q (d & Hq & _ & _ & _ & Herr & _). now exists d.
Defined.




Lemma mprints_print line : mprints [line] (call (print line)).
Proof.
  intros self w. exists (snd (print line w)).
  split; [reflexivity | apply prints_print].
Qed.

Lemma print_counts_run {K} (show : K -> string) :
  forall items w,
  exists w',
    print_counts show items w = (Ok tt, w')
    /\ prints (List.map (count_line show) items) w w'.
Proof.
  induction items as [| [key count] rest IH]; intros w.
  - exists w. split; [reflexivity | apply prints_refl].
  - cbn [print_counts List.map]. unfold iobind.
    match goal with
    | |- context [print ?line w] =>
        pose proof (prints_print line w) as Hline;
        destruct (IH (snd (print line w))) as (w' & Hrun & Hp)
    end.
    exists w'. split; [exact Hrun |].
    exact (prints_trans _ _ _ _ _ Hline Hp).
Qed.

Lemma mprints_counts {K} (show : K -> string) items :
  mprints (List.map (count_line show) items) (call (print_counts show items)).
Proof.
  intros self w. destruct (print_counts_run show items w) as (w' & Hrun & Hp).
  exists w'. unfold call. rewrite Hrun. split; [reflexivity | exact Hp].
Qed.

Lemma mprints_bind l1 l2 (m1 m2 : method unit) :
  mprints l1 m1 -> mprints l2 m2 ->
  mprints (l1 ++ l2) (mbind m1 (fun _ => m2)).
Proof.
  intros H1 H2 self w. unfold mbind.
  destruct (H1 self w) as (w1 & -> & P1).
  destruct (H2 self w1) as (w2 & -> & P2).
  exists w2. split; [reflexivity | exact (prints_trans _ _ _ _ _ P1 P2)].
Qed.

Lemma summarisable_iff quiz :
  summarisable quiz <-> is_dict quiz = true /\ hashable_fields quiz.
Proof. unfold summarisable, hashable_fields. tauto. Qed.

(** X19. [show_summary] is not guarded.  On the quizzes that
    [generate_quizzes] has kept it returns exactly when the topic and the
    difficulty of every quiz can be keys of a dictionary; a list or an
    object there makes it raise, after one reading of the clock and
    before anything is printed.  When it returns it has printed, among
    its lines, the number of quizzes kept; it writes no file and leaves
    the object as it was. *)
Theorem show_summary_after_generation (max_chunks : option Z)
  (topics difficulties : option (list pyval)) (self self' : generator)
  (w w' : world) :
  generate_quizzes max_chunks topics difficulties self w = (Ok true, self', w') ->
  self_quizzes self' <> [] ->
  exists r w'',
    show_summary self' w' = (r, self', w'')
    /\ files w'' = files w'
    /\ clock_reads w'' = S (clock_reads w')
    /\ ((exists u, r = Ok u) <-> Forall hashable_fields (self_quizzes self'))
    /\ ((exists e, r = Raise e) -> stdout w'' = stdout w')
    /\ ((exists u, r = Ok u) ->
        exists lines,
          stdout w'' = stdout w' ++ lines
          /\ In ("Total Quizzes: "
                 +++ str_of_nat (List.length (self_quizzes self'))) lines).
Proof.
  intros H Hne.
  destruct (generate_quizzes_true_inv _ _ _ _ _ _ _ H)
    as (batch & _ & _ & Hkept).
  assert (Hdicts : Forall (fun q => is_dict q = true) (self_quizzes self')).
  { rewrite Hkept. apply Forall_forall. intros q Hin.
    apply filter_In in Hin as (_ & Hacc).
    destruct q; try discriminate Hacc. reflexivity. }
  clear H Hkept batch.
  unfold show_summary. unfold mbind at 1. unfold get_self.
  destruct (self_quizzes self') as [| q qs] eqn:Hq; [now contradiction Hne |].
  unfold mbind at 1. unfold call at 1.
  unfold generate_quiz_summary, iobind, now, lift.
  match goal with
  | |- context [summary_loop ?s0 (q :: qs)] =>
      pose proof (summary_loop_total (q :: qs) s0) as Htotal;
      pose proof (summary_loop_facts (q :: qs) s0) as Hfacts;
      destruct (summary_loop s0 (q :: qs)) as [s | e] eqn:Hs
  end.
  - destruct (Hfacts s eq_refl) as (Hall & Hn & _); try (now constructor).
    cbn [total_quizzes] in Hn.
    match goal with
    | |- context [mbind ?m ?k ?g ?w1] =>
        assert (Hrun : mprints
                  ([nl +++ " Quiz Generation Summary"]
                   ++ [py_mul "=" 50]
                   ++ ["Total Quizzes: " +++ str_of_nat (total_quizzes s)]
                   ++ ["Generated: " +++ generation_timestamp s]
                   ++ [nl +++ " Topics:"]
                   ++ List.map (count_line py_str) (Utils.topics s)
                   ++ [nl +++ " Difficulties:"]
                   ++ List.map (count_line py_str) (Utils.difficulties s)
                   ++ [nl +++ " Question Types:"]
                   ++ List.map (count_line (fun q_type => q_type))
                        (summary_question_types s)
                   ++ [py_mul "=" 50])
                  (mbind m k))
          by (repeat (apply mprints_bind;
                      [first [apply mprints_print | apply mprints_counts] |]);
              apply mprints_print);
        destruct (Hrun g w1) as (w2 & Hrun2 & Hp)
    end.
    rewrite Hrun2. exists (Ok tt), w2.
    destruct Hp as (S2 & F2 & _ & _ & C2 & _).
    cbn [files clock_reads stdout] in S2, F2, C2.
    split; [reflexivity |]. split; [exact F2 |]. split; [exact C2 |].
    split.
    { split; [intros _ | intros _; now exists tt].
      eapply Forall_impl; [| exact Hall].
      intros x Hx. exact (proj2 (proj1 (summarisable_iff x) Hx)). }
    split; [intros (e & He); discriminate He |].
    intros _. eexists. split; [exact S2 |].
    rewrite Hn. cbn [app]. right. right. left. reflexivity.
  - eexists (Raise e), _. split; [reflexivity |].
    cbn [files clock_reads stdout].
    split; [reflexivity |]. split; [reflexivity |].
    split.
    { split; [intros (u & Hu); discriminate Hu |].
      intros Hall. exfalso.
      destruct Htotal as (s & Hs').
      - apply Forall_forall. intros x Hin.
        apply summarisable_iff. rewrite Forall_forall in Hall, Hdicts.
        split; [now apply Hdicts | now apply Hall].
      - discriminate Hs'. }
    split; [intros _; reflexivity |].
    intros (u & Hu). discriminate Hu.
Qed.

Lemma show_summary_after_generation_witness :
  exists self' w' r w'',
    generate_quizzes (Some 1%Z) None None MainExamples.two_chunks
      (Examples.world_of MainExamples.steady_service MainExamples.quiz_parser)
    = (Ok true, self', w')
    /\ self_quizzes self' <> []
    /\ show_summary self' w' = (r, self', w'')
    /\ files w'' = files w'
    /\ clock_reads w'' = S (clock_reads w').
Proof.
  assert (H : generate_quizzes (Some 1%Z) None None MainExamples.two_chunks
                (Examples.world_of MainExamples.steady_service
                   MainExamples.quiz_parser)
              = (Ok true,
                 snd (fst (generate_quizzes (Some 1%Z) None None
                             MainExamples.two_chunks
                             (Examples.world_of MainExamples.steady_service
                                MainExamples.quiz_parser))),
                 snd (generate_quizzes (Some 1%Z) None None
                        MainExamples.two_chunks
                        (Examples.world_of MainExamples.steady_service
                           MainExamples.quiz_parser))))
    by (vm_compute; reflexivity).
  assert (Hne : self_quizzes
                  (snd (fst (generate_quizzes (Some 1%Z) None None
                               MainExamples.two_chunks
                               (Examples.world_of MainExamples.steady_service
                                  MainExamples.quiz_parser))))
                <> [])
    by (vm_compute; discriminate).
  destruct (show_summary_after_generation _ _ _ _ _ _ _ H Hne)
    as (r & w'' & Hrun & Hf & Hc & _).
  do 2 eexists. exists r, w''.
  split; [exact H |]. split; [exact Hne |].
  split; [exact Hrun |]. split; [exact Hf | exact Hc].
Defined.

End MainExtras.
